(** * POS-REstaurant: the client-side stores, embedded and verified

    The four zustand stores of the application (auth, locations, staff and
    POS) are embedded as programs of a small state-and-exception monad over
    one [World]: the four store snapshots plus everything the stores talk to
    (the backend call log, the local payment storage, the offline queue, the
    notifications).  The backend itself is not part of the program; it is a
    record of responders, [Services.t], that every operation takes as its
    first argument, so every theorem holds for every backend behaviour.

    Conventions.
    - A TypeScript [number] is an integer [Z]: stock levels are counts and
      amounts are passed through unchanged; the only arithmetic of the stores
      is [+], [-] and [Math.max] on stock counts, which is exact on integers.
    - A [Date] is its epoch value, a [Z].
    - An optional field ([x?: T], or a nullable column) is an [option].
    - [await p] inside [try] either yields the value of [p] or transfers
      control to the [catch] block with the store as it is at that point. *)

From Stdlib Require Import ZArith List String Bool Lia Sorted.
From Stdlib Require Import DecimalString.
Import ListNotations.

Local Open Scope Z_scope.
Local Open Scope string_scope.

(* ===================================================================== *)
(** * JavaScript values used by the stores *)

Definition number := Z.
Definition Date := Z.

(** A caught failure: either an [Error] instance or some other thrown value
    (supabase hands back plain error objects); both carry a message. *)
Module Error.
Record t := mk { instanceofError : bool; message : string }.
(** [new Error(msg)] *)
Definition new (msg : string) : t := mk true msg.
End Error.

(** Truthiness of an optional string: [undefined], [null] and [''] are falsy. *)
Definition truthy (s : option string) : bool :=
  match s with
  | Some v => negb (String.eqb v "")
  | None => false
  end.

(** [x || d] on an optional number: [undefined] and [0] both give [d] when
    [d] is [0], the only default the stores use. *)
Definition or_zero (x : option number) : number :=
  match x with
  | Some v => v
  | None => 0
  end.

(** [x || d] on an optional string. *)
Definition or_string (x : option string) (d : string) : string :=
  if truthy x then match x with Some v => v | None => d end else d.

(** [Array.prototype.find] *)
Definition js_find {A} (p : A -> bool) (l : list A) : option A := List.find p l.

(* ===================================================================== *)
(** * src/types/index.ts *)

Inductive UserRole :=
| super_admin | sub_super_admin | business_owner | store_manager
| cashier | waiter | kitchen_crew | cleaning_crew.

Definition UserRole_eqb (a b : UserRole) : bool :=
  match a, b with
  | super_admin, super_admin | sub_super_admin, sub_super_admin
  | business_owner, business_owner | store_manager, store_manager
  | cashier, cashier | waiter, waiter
  | kitchen_crew, kitchen_crew | cleaning_crew, cleaning_crew => true
  | _, _ => false
  end.

Module User.
Record t := mk {
  id : string;
  email : string;
  role : UserRole;
  name : string;
  restaurantId : option string;
  restaurantName : option string;
  defaultLocationId : option string;
  locationId : option string;
  parentUserId : option string;
  managedRestaurantIds : option (list string);
  preferredLanguage : option string;
  createdAt : Date;
  lastLoginAt : option Date
}.
Definition with_role (r : UserRole) (u : t) : t :=
  mk (id u) (email u) r (name u) (restaurantId u) (restaurantName u)
     (defaultLocationId u) (locationId u) (parentUserId u)
     (managedRestaurantIds u) (preferredLanguage u) (createdAt u)
     (lastLoginAt u).
Definition with_preferredLanguage (l : string) (u : t) : t :=
  mk (id u) (email u) (role u) (name u) (restaurantId u) (restaurantName u)
     (defaultLocationId u) (locationId u) (parentUserId u)
     (managedRestaurantIds u) (Some l) (createdAt u) (lastLoginAt u).
End User.

(** [Omit<User, 'id' | 'email' | 'createdAt' | 'lastLoginAt'>] *)
Module UserProfile.
Record t := mk {
  role : UserRole;
  name : string;
  restaurantId : option string;
  restaurantName : option string;
  defaultLocationId : option string;
  locationId : option string;
  parentUserId : option string;
  managedRestaurantIds : option (list string);
  preferredLanguage : option string
}.
End UserProfile.

(** [Partial<User>] *)
Module UserUpdates.
Record t := mk {
  id : option string;
  email : option string;
  role : option UserRole;
  name : option string;
  restaurantId : option string;
  restaurantName : option string;
  defaultLocationId : option string;
  locationId : option string;
  parentUserId : option string;
  managedRestaurantIds : option (list string);
  preferredLanguage : option string;
  createdAt : option Date;
  lastLoginAt : option Date
}.
End UserUpdates.

Module ModifierOption.
Record t := mk { id : string; name : string; price : number }.
End ModifierOption.

Module Modifier.
Record t := mk {
  id : string;
  name : string;
  options : list ModifierOption.t;
  required : bool;
  multiSelect : bool
}.
End Modifier.

Inductive PricingRuleType := time_based | holiday_surge.

Module PricingRule.
Record schedule_t := mk_schedule {
  startTime : option string;
  endTime : option string;
  daysOfWeek : option (list string);
  dates : option (list string)
}.
Record t := mk {
  type : PricingRuleType;
  schedule : schedule_t;
  priceAdjustment : number;
  description : string
}.
End PricingRule.

Module MenuItem.
Record t := mk {
  id : string;
  name : string;
  description : string;
  price : number;
  category : string;
  image : option string;
  ingredients : list string;
  preparationTime : number;
  isAvailable : bool;
  currentStock : option number;
  minStock : option number;
  modifiers : option (list Modifier.t);
  pricingRules : option (list PricingRule.t);
  locationId : option string;
  restaurant_id : option string;
  version : option number
}.
End MenuItem.

(** [Omit<MenuItem, 'id'>] *)
Module NewMenuItem.
Record t := mk {
  name : string;
  description : string;
  price : number;
  category : string;
  image : option string;
  ingredients : list string;
  preparationTime : number;
  isAvailable : bool;
  currentStock : option number;
  minStock : option number;
  modifiers : option (list Modifier.t);
  pricingRules : option (list PricingRule.t);
  locationId : option string;
  restaurant_id : option string;
  version : option number
}.
End NewMenuItem.

(** [Partial<MenuItem>] *)
Module MenuItemUpdates.
Record t := mk {
  id : option string;
  name : option string;
  description : option string;
  price : option number;
  category : option string;
  image : option string;
  ingredients : option (list string);
  preparationTime : option number;
  isAvailable : option bool;
  currentStock : option number;
  minStock : option number;
  modifiers : option (list Modifier.t);
  pricingRules : option (list PricingRule.t);
  locationId : option string;
  restaurant_id : option string;
  version : option number
}.
End MenuItemUpdates.

Module SelectedModifierOption.
Record t := mk { id : string; name : string; price : number }.
End SelectedModifierOption.

Module SelectedModifier.
Record t := mk {
  id : string;
  name : string;
  options : list SelectedModifierOption.t
}.
End SelectedModifier.

Module OrderItem.
Record t := mk {
  menuItemId : string;
  quantity : number;
  price : number;
  specialInstructions : option string;
  selectedModifiers : option (list SelectedModifier.t)
}.
End OrderItem.

Inductive OrderType := dine_in | takeout | delivery.

Inductive OrderStatus :=
| st_pending | st_confirmed | st_preparing | st_ready
| st_completed | st_cancelled | st_pending_sync.

Inductive OrderPaymentStatus :=
| ps_pending | ps_paid | ps_refunded | ps_pending_sync.

Inductive OrderSource := src_pos | src_web | src_mobile | src_qr.

Module Order.
Record t := mk {
  id : string;
  customerId : string;
  items : list OrderItem.t;
  status : OrderStatus;
  total : number;
  paymentStatus : OrderPaymentStatus;
  orderSource : OrderSource;
  orderType : OrderType;
  estimatedPrepTime : number;
  notes : option string;
  tipAmount : option number;
  tipPercentage : option number;
  taxAmount : option number;
  taxRate : option number;
  discountAmount : option number;
  createdAt : Date;
  updatedAt : Date;
  restaurant_id : option string;
  locationId : option string;
  version : option number
}.
(** [{ ...order, status: s, paymentStatus: p, updatedAt: d }] *)
Definition spread_paid (s : OrderStatus) (p : OrderPaymentStatus) (d : Date)
    (o : t) : t :=
  mk (id o) (customerId o) (items o) s (total o) p (orderSource o)
     (orderType o) (estimatedPrepTime o) (notes o) (tipAmount o)
     (tipPercentage o) (taxAmount o) (taxRate o) (discountAmount o)
     (createdAt o) d (restaurant_id o) (locationId o) (version o).
End Order.

(** The [order: any] argument of [addOrder]: the store reads [order.items]
    and hands the whole value on. *)
Module OrderDraft.
Record t := mk {
  customerId : string;
  items : list OrderItem.t;
  total : number;
  orderSource : OrderSource;
  orderType : OrderType;
  notes : option string
}.
End OrderDraft.

Inductive TransactionType := tx_sale | tx_restock | tx_adjustment | tx_waste.

Module RestaurantLocation.
Record t := mk {
  id : string;
  name : string;
  address : string;
  city : string;
  state : string;
  zipCode : string;
  phone : string;
  email : option string;
  taxRate : option number;
  isActive : bool;
  createdAt : Date;
  updatedAt : Date;
  restaurant_id : option string
}.
End RestaurantLocation.

(** [Omit<RestaurantLocation, 'id' | 'createdAt' | 'updatedAt'>] *)
Module NewLocation.
Record t := mk {
  name : string;
  address : string;
  city : string;
  state : string;
  zipCode : string;
  phone : string;
  email : option string;
  taxRate : option number;
  isActive : bool;
  restaurant_id : option string
}.
End NewLocation.

(** [Partial<RestaurantLocation>] *)
Module LocationUpdates.
Record t := mk {
  id : option string;
  name : option string;
  address : option string;
  city : option string;
  state : option string;
  zipCode : option string;
  phone : option string;
  email : option string;
  taxRate : option number;
  isActive : option bool;
  createdAt : option Date;
  updatedAt : option Date;
  restaurant_id : option string
}.
End LocationUpdates.


(* ===================================================================== *)
(** * Records exchanged with the backend and the local storage *)

Inductive PaymentStatus :=
| pay_pending | pay_completed | pay_failed | pay_refunded | pay_pending_sync.

(** The [details?: any] argument of [processPayment]; the store reads these
    four fields through [details?.x]. *)
Module PaymentDetails.
Record t := mk {
  tipAmount : option number;
  tipPercentage : option number;
  taxAmount : option number;
  taxRate : option number
}.
End PaymentDetails.

(** [details?.field] *)
Definition opt_field {A B} (d : option A) (f : A -> option B) : option B :=
  match d with
  | Some v => f v
  | None => None
  end.

(** One entry of the [payments: any[]] argument of [processSplitPayment]. *)
Module SplitPayment.
Record t := mk {
  amount : number;
  method : string;
  tipAmount : option number;
  taxAmount : option number
}.
End SplitPayment.

(** The object literal handed to [queries.createPayment]. *)
Module PaymentRequest.
Record t := mk {
  orderId : string;
  amount : number;
  paymentMethod : string;
  status : PaymentStatus;
  tipAmount : option number;
  tipPercentage : option number;
  taxAmount : option number;
  taxRate : option number
}.
End PaymentRequest.

(** The object literal built by the offline branch of payment processing. *)
Module OfflinePayment.
Record t := mk {
  id : string;
  orderId : string;
  amount : number;
  paymentMethod : string;
  tipAmount : number;
  tipPercentage : option number;
  taxAmount : option number;
  taxRate : option number;
  createdAt : Date
}.
End OfflinePayment.

(** The payload handed to [OfflineManager.addToQueue('processPayment', ..)]. *)
Module QueuePayload.
Record t := mk {
  orderId : string;
  amount : number;
  paymentMethod : string;
  tipAmount : option number;
  tipPercentage : option number;
  taxAmount : option number;
  taxRate : option number
}.
End QueuePayload.

(** Modelled from the spec: the entry type of the offline operation queue of
    lib/OfflineManager, which is not among the sources; section 3 of the
    specification gives it as operation name, payload and enqueue time. *)
Module QueuedOperation.
Record t := mk {
  operationName : string;
  payload : QueuePayload.t;
  enqueuedAt : Date
}.
End QueuedOperation.

(** A row of [user_profiles] as the store reads it. *)
Module ProfileRow.
Record t := mk {
  role : UserRole;
  name : string;
  restaurant_id : option string;
  default_location_id : option string;
  location_id : option string;
  parent_user_id : option string;
  managed_restaurant_ids : option (list string);
  preferred_language : option string;
  created_at : string;
  last_login_at : option string
}.
End ProfileRow.

(** The [user] of an authentication response ([email!] is asserted present). *)
Module AuthUser.
Record t := mk { id : string; email : string }.
End AuthUser.

(** A row of [restaurant_locations]. *)
Module LocationRow.
Record t := mk {
  id : string;
  name : string;
  address : string;
  city : string;
  state : string;
  zip_code : string;
  phone : string;
  email : option string;
  tax_rate : option number;
  is_active : bool;
  created_at : string;
  updated_at : string;
  restaurant_id : option string
}.
End LocationRow.

(** A column value of an object literal sent to the backend. *)
Inductive WireValue :=
| w_undefined
| w_string (s : string)
| w_number (n : number)
| w_bool (b : bool).

Definition w_opt_string (s : option string) : WireValue :=
  match s with Some v => w_string v | None => w_undefined end.
Definition w_opt_number (s : option number) : WireValue :=
  match s with Some v => w_number v | None => w_undefined end.
Definition w_opt_bool (s : option bool) : WireValue :=
  match s with Some v => w_bool v | None => w_undefined end.
Definition w_role (r : UserRole) : WireValue :=
  w_string
    match r with
    | super_admin => "super-admin" | sub_super_admin => "sub-super-admin"
    | business_owner => "business-owner" | store_manager => "store-manager"
    | cashier => "cashier" | waiter => "waiter"
    | kitchen_crew => "kitchen-crew" | cleaning_crew => "cleaning-crew"
    end.

(** A request assembled with the supabase query builder:
    [from(t)], then one of [select / insert / update / delete], then the
    modifiers [order], [eq], [in], [select()] after a mutation, [single()]. *)
Module Query.
Inductive Filter :=
| f_eq (column : string) (value : option string)
| f_in (column : string) (values : list string).
Inductive Verb :=
| v_select (columns : string)
| v_insert (values : list (string * WireValue))
| v_update (values : list (string * WireValue))
| v_delete.
Record t := mk {
  table : string;
  verb : Verb;
  ordering : option string;
  filters : list Filter;
  returning : bool;
  single_row : bool
}.
Definition from (tbl : string) (v : Verb) : t := mk tbl v None [] false false.
Definition order (col : string) (q : t) : t :=
  mk (table q) (verb q) (Some col) (filters q) (returning q) (single_row q).
Definition eq (col : string) (v : option string) (q : t) : t :=
  mk (table q) (verb q) (ordering q) (filters q ++ [f_eq col v])
     (returning q) (single_row q).
Definition in_ (col : string) (vs : list string) (q : t) : t :=
  mk (table q) (verb q) (ordering q) (filters q ++ [f_in col vs])
     (returning q) (single_row q).
Definition select (q : t) : t :=
  mk (table q) (verb q) (ordering q) (filters q) true (single_row q).
Definition single (q : t) : t :=
  mk (table q) (verb q) (ordering q) (filters q) (returning q) true.
End Query.

(** What awaiting a promise gives: its value, or the failure it rejects
    with (which [await] throws). *)
Inductive Settled (A : Type) :=
| Fulfilled (value : A)
| Rejected (reason : Error.t).
Arguments Fulfilled {A} value.
Arguments Rejected {A} reason.

(** What awaiting a supabase request gives: the object [{ data, error }],
    of which the stores read [data] only after [if (error) throw error].
    A supabase request reports its failure in [error] and does not reject:
    the stores rely on it throughout (they test [error] after every such
    [await], and [setSelectedLocation] chains [then] without a [catch]). *)
Inductive Response (A : Type) :=
| Data (data : A)
| Failure (error : Error.t).
Arguments Data {A} data.
Arguments Failure {A} error.

(** Every request a store sends out, in the order it is sent. *)
Module Call.
Inductive t :=
(* lib/queries *)
| getMenuItems
| getOrders
| getOfflinePayments
| createMenuItem (menuItem : NewMenuItem.t)
| updateMenuItem (menuItemId : string) (updates : MenuItemUpdates.t)
| deleteMenuItem (menuItemId : string)
| updateMenuItemStock (menuItemId : string) (newStock : number)
    (transactionType : TransactionType) (quantityChange : number)
    (userId : string) (notes reason : option string)
| processOfflineQueue
| processOfflinePayments
| createOrder (order : OrderDraft.t) (items : list OrderItem.t)
| updateOrderStatus (orderId : string) (status : OrderStatus)
| createPayment (payment : PaymentRequest.t)
| getStaffMembers
| createStaffMember (email password : string) (profile : UserProfile.t)
| updateStaffMember (userId : string) (updates : UserUpdates.t)
| deleteStaffMember (userId : string)
(* supabase.auth *)
| signInWithPassword (email password : string)
| signUp (email password name : string) (role : UserRole)
| signOut
| resetPasswordForEmail (email redirectTo : string)
(* supabase.from(..) *)
| request (q : Query.t).
End Call.

(** The shape of the summary returned by [queries.processOfflinePayments] is
    not fixed by the store, which only spreads it into its own result. *)
Definition SyncSummary := list (string * number).

(** The services the stores run against.  Each responder sees the calls
    made before the one it answers, so a backend may change its mind from
    one call to the next. *)
Module Services.
Record t := mk {
  (* lib/queries: each returns a promise that may reject *)
  getMenuItems : list Call.t -> Settled (list MenuItem.t);
  getOrders : list Call.t -> Settled (list Order.t);
  getOfflinePayments : list Call.t -> Settled (list OfflinePayment.t);
  createMenuItem : list Call.t -> NewMenuItem.t -> Settled MenuItem.t;
  updateMenuItem :
    list Call.t -> string -> MenuItemUpdates.t -> Settled MenuItem.t;
  deleteMenuItem : list Call.t -> string -> Settled unit;
  updateMenuItemStock :
    list Call.t -> string -> number -> TransactionType -> number -> string ->
    option string -> option string -> Settled MenuItem.t;
  processOfflineQueue : list Call.t -> Settled unit;
  processOfflinePayments : list Call.t -> Settled SyncSummary;
  createOrder :
    list Call.t -> OrderDraft.t -> list OrderItem.t -> Settled Order.t;
  updateOrderStatus : list Call.t -> string -> OrderStatus -> Settled Order.t;
  createPayment : list Call.t -> PaymentRequest.t -> Settled unit;
  getStaffMembers : list Call.t -> Settled (list User.t);
  createStaffMember :
    list Call.t -> string -> string -> UserProfile.t -> Settled User.t;
  updateStaffMember : list Call.t -> string -> UserUpdates.t -> Settled User.t;
  deleteStaffMember : list Call.t -> string -> Settled unit;
  (* supabase.auth *)
  signInWithPassword :
    list Call.t -> string -> string -> Response (option AuthUser.t);
  signUp :
    list Call.t -> string -> string -> string -> UserRole ->
    Response (option AuthUser.t);
  signOut : list Call.t -> Response unit;
  resetPasswordForEmail : list Call.t -> string -> string -> Response unit;
  (* supabase.from(..), by the shape of the rows that come back *)
  profile : list Call.t -> Query.t -> Response ProfileRow.t;
  locations : list Call.t -> Query.t -> Response (list LocationRow.t);
  location : list Call.t -> Query.t -> Response LocationRow.t;
  execute : list Call.t -> Query.t -> Response unit;
  (* lib/indexedDB: whether the local write is accepted *)
  storeOfflinePayment :
    list OfflinePayment.t -> OfflinePayment.t -> Settled unit;
  (* the clock, the random source and the page origin *)
  now : nat -> Date;
  random : nat -> string;
  origin : string;
  (* [new Date(s)] and [d.toISOString()] *)
  parseDate : string -> Date;
  toISOString : Date -> string;
  (* [i18next.t] *)
  translate : string -> string
}.
End Services.


(* ===================================================================== *)
(** * Store snapshots and the world they live in *)

Inductive ToastKind := toast_success | toast_error.

Module Toast.
Record t := mk { kind : ToastKind; text : string }.
End Toast.

(** src/store/auth.ts, [AuthState] *)
Module AuthState.
Record t := mk {
  isAuthenticated : bool;
  user : option User.t;
  isLoading : bool;
  error : option Error.t
}.
Definition initial : t := mk false None false None.
Definition set_isAuthenticated (v : bool) (s : t) : t :=
  mk v (user s) (isLoading s) (error s).
Definition set_user (v : option User.t) (s : t) : t :=
  mk (isAuthenticated s) v (isLoading s) (error s).
Definition set_isLoading (v : bool) (s : t) : t :=
  mk (isAuthenticated s) (user s) v (error s).
Definition set_error (v : option Error.t) (s : t) : t :=
  mk (isAuthenticated s) (user s) (isLoading s) v.
End AuthState.

(** The location store, [LocationState] *)
Module LocationState.
Record t := mk {
  selectedLocation : option RestaurantLocation.t;
  locations : list RestaurantLocation.t;
  isLoading : bool;
  error : option Error.t
}.
Definition initial : t := mk None [] false None.
Definition set_selectedLocation (v : option RestaurantLocation.t) (s : t) : t :=
  mk v (locations s) (isLoading s) (error s).
Definition set_locations (v : list RestaurantLocation.t) (s : t) : t :=
  mk (selectedLocation s) v (isLoading s) (error s).
Definition set_isLoading (v : bool) (s : t) : t :=
  mk (selectedLocation s) (locations s) v (error s).
Definition set_error (v : option Error.t) (s : t) : t :=
  mk (selectedLocation s) (locations s) (isLoading s) v.
End LocationState.

(** src/store/staff.ts, [StaffState] *)
Module StaffState.
Record t := mk {
  staffMembers : list User.t;
  isLoading : bool;
  error : option Error.t
}.
Definition initial : t := mk [] false None.
Definition set_staffMembers (v : list User.t) (s : t) : t :=
  mk v (isLoading s) (error s).
Definition set_isLoading (v : bool) (s : t) : t :=
  mk (staffMembers s) v (error s).
Definition set_error (v : option Error.t) (s : t) : t :=
  mk (staffMembers s) (isLoading s) v.
End StaffState.

(** src/store/index.ts, [POSState] *)
Module POSState.
Record t := mk {
  menuItems : list MenuItem.t;
  orders : list Order.t;
  isLoading : bool;
  error : option Error.t;
  isOffline : bool;
  offlinePayments : list OfflinePayment.t
}.
Definition initial : t := mk [] [] false None false [].
Definition set_menuItems (v : list MenuItem.t) (s : t) : t :=
  mk v (orders s) (isLoading s) (error s) (isOffline s) (offlinePayments s).
Definition set_orders (v : list Order.t) (s : t) : t :=
  mk (menuItems s) v (isLoading s) (error s) (isOffline s) (offlinePayments s).
Definition set_isLoading (v : bool) (s : t) : t :=
  mk (menuItems s) (orders s) v (error s) (isOffline s) (offlinePayments s).
Definition set_error (v : option Error.t) (s : t) : t :=
  mk (menuItems s) (orders s) (isLoading s) v (isOffline s) (offlinePayments s).
Definition set_isOffline (v : bool) (s : t) : t :=
  mk (menuItems s) (orders s) (isLoading s) (error s) v (offlinePayments s).
Definition set_offlinePayments (v : list OfflinePayment.t) (s : t) : t :=
  mk (menuItems s) (orders s) (isLoading s) (error s) (isOffline s) v.
End POSState.

(** The four stores and what lies outside them. *)
Module World.
Record t := mk {
  auth : AuthState.t;
  location : LocationState.t;
  staff : StaffState.t;
  pos : POSState.t;
  (* requests sent so far, oldest first *)
  calls : list Call.t;
  (* the payments held by the local persistence facade *)
  localPayments : list OfflinePayment.t;
  (* the offline operation queue *)
  offlineQueue : list QueuedOperation.t;
  (* notifications shown so far, oldest first *)
  toasts : list Toast.t;
  (* the language i18next is set to *)
  language : string;
  (* lines written with console.error *)
  console : list string;
  (* how often the clock or the random source has been read *)
  ticks : nat
}.
Definition initial : t :=
  mk AuthState.initial LocationState.initial StaffState.initial
     POSState.initial [] [] [] [] "en" [] 0%nat.
Definition set_auth (v : AuthState.t) (w : t) : t :=
  mk v (location w) (staff w) (pos w) (calls w) (localPayments w)
     (offlineQueue w) (toasts w) (language w) (console w) (ticks w).
Definition set_location (v : LocationState.t) (w : t) : t :=
  mk (auth w) v (staff w) (pos w) (calls w) (localPayments w)
     (offlineQueue w) (toasts w) (language w) (console w) (ticks w).
Definition set_staff (v : StaffState.t) (w : t) : t :=
  mk (auth w) (location w) v (pos w) (calls w) (localPayments w)
     (offlineQueue w) (toasts w) (language w) (console w) (ticks w).
Definition set_pos (v : POSState.t) (w : t) : t :=
  mk (auth w) (location w) (staff w) v (calls w) (localPayments w)
     (offlineQueue w) (toasts w) (language w) (console w) (ticks w).
Definition set_calls (v : list Call.t) (w : t) : t :=
  mk (auth w) (location w) (staff w) (pos w) v (localPayments w)
     (offlineQueue w) (toasts w) (language w) (console w) (ticks w).
Definition set_localPayments (v : list OfflinePayment.t) (w : t) : t :=
  mk (auth w) (location w) (staff w) (pos w) (calls w) v
     (offlineQueue w) (toasts w) (language w) (console w) (ticks w).
Definition set_offlineQueue (v : list QueuedOperation.t) (w : t) : t :=
  mk (auth w) (location w) (staff w) (pos w) (calls w) (localPayments w)
     v (toasts w) (language w) (console w) (ticks w).
Definition set_toasts (v : list Toast.t) (w : t) : t :=
  mk (auth w) (location w) (staff w) (pos w) (calls w) (localPayments w)
     (offlineQueue w) v (language w) (console w) (ticks w).
Definition set_language (v : string) (w : t) : t :=
  mk (auth w) (location w) (staff w) (pos w) (calls w) (localPayments w)
     (offlineQueue w) (toasts w) v (console w) (ticks w).
Definition set_console (v : list string) (w : t) : t :=
  mk (auth w) (location w) (staff w) (pos w) (calls w) (localPayments w)
     (offlineQueue w) (toasts w) (language w) v (ticks w).
Definition set_ticks (v : nat) (w : t) : t :=
  mk (auth w) (location w) (staff w) (pos w) (calls w) (localPayments w)
     (offlineQueue w) (toasts w) (language w) (console w) v.
End World.

(* ===================================================================== *)
(** * Async functions as state-and-exception programs *)

(** An async function body: from the world before to the world after and
    how the body ended. *)
Definition M (A : Type) : Type := World.t -> World.t * Settled A.

Definition ret {A} (a : A) : M A := fun w => (w, Fulfilled a).

Definition bind {A B} (m : M A) (k : A -> M B) : M B :=
  fun w =>
    match m w with
    | (w', Fulfilled a) => k a w'
    | (w', Rejected e) => (w', Rejected e)
    end.

(** [throw e] *)
Definition throw {A} (e : Error.t) : M A := fun w => (w, Rejected e).

(** [try { body } catch (error) { handler }] *)
Definition try_catch {A} (body : M A) (handler : Error.t -> M A) : M A :=
  fun w =>
    match body w with
    | (w', Fulfilled a) => (w', Fulfilled a)
    | (w', Rejected e) => handler e w'
    end.

Declare Scope prog_scope.
Delimit Scope prog_scope with prog.
Notation "x <- c1 ;; c2" := (bind c1 (fun x => c2))
  (at level 61, c1 at next level, right associativity) : prog_scope.
Notation "c1 ;; c2" := (bind c1 (fun _ => c2))
  (at level 61, right associativity) : prog_scope.
Local Open Scope prog_scope.

(** [get()] of the whole world, and an update of it. *)
Definition get : M World.t := fun w => (w, Fulfilled w).
Definition modify (f : World.t -> World.t) : M unit :=
  fun w => (f w, Fulfilled tt).

(** [for (const x of xs) { body }] *)
Fixpoint for_of {A} (xs : list A) (body : A -> M unit) : M unit :=
  match xs with
  | [] => ret tt
  | x :: rest => body x ;; for_of rest body
  end.

(** [set(partial)] and [set(state => partial)] of each store. *)
Definition set_auth (f : AuthState.t -> AuthState.t) : M unit :=
  modify (fun w => World.set_auth (f (World.auth w)) w).
Definition set_location (f : LocationState.t -> LocationState.t) : M unit :=
  modify (fun w => World.set_location (f (World.location w)) w).
Definition set_staff (f : StaffState.t -> StaffState.t) : M unit :=
  modify (fun w => World.set_staff (f (World.staff w)) w).
Definition set_pos (f : POSState.t -> POSState.t) : M unit :=
  modify (fun w => World.set_pos (f (World.pos w)) w).

(** [toast.success(text)], [toast.error(text)], [console.error(text)] *)
Definition toast (k : ToastKind) (text : string) : M unit :=
  modify (fun w => World.set_toasts (World.toasts w ++ [Toast.mk k text]) w).
Definition console_error (text : string) : M unit :=
  modify (fun w => World.set_console (World.console w ++ [text]) w).

(** [i18next.changeLanguage(lng)] *)
Definition changeLanguage (lng : string) : M unit :=
  modify (World.set_language lng).

Section Against.

(** The services the stores run against. *)
Variable B : Services.t.

(** [new Date()] and [Date.now()]: one reading of the clock. *)
Definition new_Date : M Date :=
  fun w =>
    (World.set_ticks (S (World.ticks w)) w,
     Fulfilled (Services.now B (World.ticks w))).

(** [Math.random().toString(36).substring(2, 9)]: one reading of the
    random source, as the text it is turned into. *)
Definition random_suffix : M string :=
  fun w =>
    (World.set_ticks (S (World.ticks w)) w,
     Fulfilled (Services.random B (World.ticks w))).

(** [await queries.f(args)]: the call is logged, then answered; a rejected
    promise is thrown. *)
Definition await {A} (c : Call.t) (answer : list Call.t -> Settled A) : M A :=
  fun w => (World.set_calls (World.calls w ++ [c]) w, answer (World.calls w)).

(** [await supabase...]: the request is logged and its [{ data, error }]
    comes back; nothing is thrown here. *)
Definition await_response {A} (c : Call.t)
    (answer : list Call.t -> Response A) : M (Response A) :=
  fun w =>
    (World.set_calls (World.calls w ++ [c]) w,
     Fulfilled (answer (World.calls w))).

(** [const { data, error } = await ...; if (error) throw error;] *)
Definition data_or_throw {A} (r : Response A) : M A :=
  match r with
  | Data d => ret d
  | Failure e => throw e
  end.

End Against.


(* ===================================================================== *)
(** * src/store/auth.ts *)

Section AuthStore.

Variable B : Services.t.

Definition setUser (user : option User.t) : M unit :=
  set_auth (fun s =>
    AuthState.set_error None
      (AuthState.set_isAuthenticated
         (match user with Some _ => true | None => false end)
         (AuthState.set_user user s))) ;;
  match user with
  | Some u =>
      if truthy (User.preferredLanguage u)
      then changeLanguage (or_string (User.preferredLanguage u) "")
      else ret tt
  | None => ret tt
  end.

(** The [User] view model composed from the authentication response and
    the profile row. *)
Definition compose_user (authUser : AuthUser.t) (profileData : ProfileRow.t)
    : User.t :=
  User.mk
    (AuthUser.id authUser)
    (AuthUser.email authUser)
    (ProfileRow.role profileData)
    (ProfileRow.name profileData)
    (ProfileRow.restaurant_id profileData)
    None
    (ProfileRow.default_location_id profileData)
    (ProfileRow.location_id profileData)
    (ProfileRow.parent_user_id profileData)
    (ProfileRow.managed_restaurant_ids profileData)
    (Some (or_string (ProfileRow.preferred_language profileData) "en"))
    (Services.parseDate B (ProfileRow.created_at profileData))
    (if truthy (ProfileRow.last_login_at profileData)
     then option_map (Services.parseDate B)
            (ProfileRow.last_login_at profileData)
     else None).

(** [from('user_profiles').select('*').eq('id', id).single()] *)
Definition profile_request (id : string) : Query.t :=
  Query.single
    (Query.eq "id" (Some id) (Query.from "user_profiles" (Query.v_select "*"))).

(** [from('user_profiles').update({ last_login_at: d.toISOString() })
      .eq('id', user.id)] *)
Definition lastLogin_request (user : User.t) (d : Date) : Query.t :=
  Query.eq "id" (Some (User.id user))
    (Query.from "user_profiles"
       (Query.v_update
          [("last_login_at", w_string (Services.toISOString B d))])).

(** The [try] block of [signIn]. *)
Definition signIn_try (email password : string) : M unit :=
  set_auth (fun s => AuthState.set_error None (AuthState.set_isLoading true s)) ;;
  (* Sign in with Supabase *)
  r <- await_response (Call.signInWithPassword email password)
         (fun h => Services.signInWithPassword B h email password) ;;
  authData_user <- data_or_throw r ;;
  match authData_user with
  | None => throw (Error.new "No user returned from authentication")
  | Some authUser =>
      (* Get user profile from database *)
      let q := profile_request (AuthUser.id authUser) in
      r <- await_response (Call.request q) (fun h => Services.profile B h q) ;;
      profileData <- data_or_throw r ;;
      (* Create user object *)
      let user := compose_user authUser profileData in
      set_auth (fun s =>
        AuthState.set_error None
          (AuthState.set_isLoading false
             (AuthState.set_isAuthenticated true
                (AuthState.set_user (Some user) s)))) ;;
      (* Set language based on user preference *)
      (if truthy (User.preferredLanguage user)
       then changeLanguage (or_string (User.preferredLanguage user) "")
       else ret tt) ;;
      (* Update last login time: awaited, its outcome not looked at *)
      d <- new_Date B ;;
      let q := lastLogin_request user d in
      _ <- await_response (Call.request q) (fun h => Services.execute B h q) ;;
      toast toast_success (Services.translate B "auth.signIn")
  end.

(** The [catch] block of [signIn]. *)
Definition signIn_catch (error : Error.t) : M unit :=
  set_auth (fun s =>
    AuthState.set_user None
      (AuthState.set_isAuthenticated false
         (AuthState.set_isLoading false
            (AuthState.set_error (Some error) s)))) ;;
  toast toast_error
    (if Error.instanceofError error then Error.message error
     else Services.translate B "auth.invalidCredentials").

Definition signIn (email password : string) : M unit :=
  try_catch (signIn_try email password) signIn_catch.

Definition signUp_try (email password name : string) (role : UserRole)
    : M unit :=
  set_auth (fun s => AuthState.set_error None (AuthState.set_isLoading true s)) ;;
  (* Sign up with Supabase *)
  r <- await_response (Call.signUp email password name role)
         (fun h => Services.signUp B h email password name role) ;;
  authData_user <- data_or_throw r ;;
  match authData_user with
  | None => throw (Error.new "No user returned from sign up")
  | Some authUser =>
      (* Create user profile *)
      d <- new_Date B ;;
      let q :=
        Query.from "user_profiles"
          (Query.v_insert
             [("id", w_string (AuthUser.id authUser));
              ("email", w_string (AuthUser.email authUser));
              ("name", w_string name);
              ("role", w_role role);
              ("created_at", w_string (Services.toISOString B d))]) in
      r <- await_response (Call.request q) (fun h => Services.execute B h q) ;;
      _ <- data_or_throw r ;;
      set_auth (AuthState.set_isLoading false) ;;
      toast toast_success
        "Account created successfully. Please check your email for verification."
  end.

Definition signUp_catch (error : Error.t) : M unit :=
  set_auth (fun s =>
    AuthState.set_isLoading false (AuthState.set_error (Some error) s)) ;;
  toast toast_error
    (if Error.instanceofError error then Error.message error
     else "Failed to create account").

Definition signUp (email password name : string) (role : UserRole) : M unit :=
  try_catch (signUp_try email password name role) signUp_catch.

Definition signOut_try : M unit :=
  set_auth (fun s => AuthState.set_error None (AuthState.set_isLoading true s)) ;;
  r <- await_response Call.signOut (fun h => Services.signOut B h) ;;
  _ <- data_or_throw r ;;
  set_auth (fun s =>
    AuthState.set_isLoading false
      (AuthState.set_isAuthenticated false (AuthState.set_user None s))) ;;
  toast toast_success (Services.translate B "auth.signOut").

(** The [catch] block shared, word for word, by [signOut], [updateUserRole]
    and [updateUserLanguage]. *)
Definition common_error_catch (error : Error.t) : M unit :=
  set_auth (fun s =>
    AuthState.set_isLoading false (AuthState.set_error (Some error) s)) ;;
  toast toast_error (Services.translate B "common.error").

Definition signOut : M unit := try_catch signOut_try common_error_catch.

Definition updateUserRole_try (userId : string) (role : UserRole) : M unit :=
  set_auth (fun s => AuthState.set_error None (AuthState.set_isLoading true s)) ;;
  (* Update user role in database *)
  d <- new_Date B ;;
  let q :=
    Query.eq "id" (Some userId)
      (Query.from "user_profiles"
         (Query.v_update
            [("role", w_role role);
             ("updated_at", w_string (Services.toISOString B d))])) in
  r <- await_response (Call.request q) (fun h => Services.execute B h q) ;;
  _ <- data_or_throw r ;;
  (* If updating the current user, update the local state *)
  w <- get ;;
  (if match AuthState.user (World.auth w) with
      | Some u => String.eqb (User.id u) userId
      | None => false
      end
   then
     set_auth (fun s =>
       AuthState.set_isLoading false
         (AuthState.set_user
            (option_map (User.with_role role) (AuthState.user s)) s))
   else set_auth (AuthState.set_isLoading false)) ;;
  toast toast_success (Services.translate B "common.success").

Definition updateUserRole (userId : string) (role : UserRole) : M unit :=
  try_catch (updateUserRole_try userId role) common_error_catch.

Definition updateUserLanguage_try (language : string) : M unit :=
  set_auth (fun s => AuthState.set_error None (AuthState.set_isLoading true s)) ;;
  (* Change language *)
  changeLanguage language ;;
  (* Update user in database if authenticated *)
  w <- get ;;
  match AuthState.user (World.auth w) with
  | Some user =>
      d <- new_Date B ;;
      let q :=
        Query.eq "id" (Some (User.id user))
          (Query.from "user_profiles"
             (Query.v_update
                [("preferred_language", w_string language);
                 ("updated_at", w_string (Services.toISOString B d))])) in
      r <- await_response (Call.request q) (fun h => Services.execute B h q) ;;
      _ <- data_or_throw r ;;
      (* Update user in state *)
      set_auth (fun s =>
        AuthState.set_isLoading false
          (AuthState.set_user
             (option_map (User.with_preferredLanguage language)
                (AuthState.user s)) s))
  | None => set_auth (AuthState.set_isLoading false)
  end ;;
  toast toast_success (Services.translate B "common.success").

Definition updateUserLanguage (language : string) : M unit :=
  try_catch (updateUserLanguage_try language) common_error_catch.

Definition resetPasswordForEmail_try (email : string) : M unit :=
  set_auth (fun s => AuthState.set_error None (AuthState.set_isLoading true s)) ;;
  let redirectTo := Services.origin B ++ "/reset-password" in
  r <- await_response (Call.resetPasswordForEmail email redirectTo)
         (fun h => Services.resetPasswordForEmail B h email redirectTo) ;;
  _ <- data_or_throw r ;;
  set_auth (AuthState.set_isLoading false) ;;
  toast toast_success "Password reset instructions sent to your email".

Definition resetPasswordForEmail_catch (error : Error.t) : M unit :=
  set_auth (fun s =>
    AuthState.set_isLoading false (AuthState.set_error (Some error) s)) ;;
  toast toast_error
    (if Error.instanceofError error then Error.message error
     else "Failed to send password reset email").

Definition resetPasswordForEmail (email : string) : M unit :=
  try_catch (resetPasswordForEmail_try email) resetPasswordForEmail_catch.

End AuthStore.


(* ===================================================================== *)
(** * The location store (src/unnamed/part_000) *)

Section LocationStore.

Variable B : Services.t.

(** The field-by-field mapping of a fetched row, written out three times in
    the source ([fetchLocations], [createLocation], [updateLocation],
    [toggleLocationStatus]). *)
Definition toLocation (row : LocationRow.t) : RestaurantLocation.t :=
  RestaurantLocation.mk
    (LocationRow.id row)
    (LocationRow.name row)
    (LocationRow.address row)
    (LocationRow.city row)
    (LocationRow.state row)
    (LocationRow.zip_code row)
    (LocationRow.phone row)
    (LocationRow.email row)
    (LocationRow.tax_rate row)
    (LocationRow.is_active row)
    (Services.parseDate B (LocationRow.created_at row))
    (Services.parseDate B (LocationRow.updated_at row))
    (LocationRow.restaurant_id row).

(** [setSelectedLocation]: the profile update is started and not awaited;
    its [then] callback only writes to the console. *)
Definition setSelectedLocation (location : option RestaurantLocation.t)
    : M unit :=
  set_location (LocationState.set_selectedLocation location) ;;
  w <- get ;;
  match AuthState.user (World.auth w), location with
  | Some user, Some loc =>
      d <- new_Date B ;;
      let q :=
        Query.eq "id" (Some (User.id user))
          (Query.from "user_profiles"
             (Query.v_update
                [("default_location_id", w_string (RestaurantLocation.id loc));
                 ("updated_at", w_string (Services.toISOString B d))])) in
      r <- await_response (Call.request q) (fun h => Services.execute B h q) ;;
      match r with
      | Failure _ => console_error "Failed to update default location:"
      | Data _ => ret tt
      end
  | _, _ => ret tt
  end.

Definition setLocations (locations : list RestaurantLocation.t) : M unit :=
  set_location (LocationState.set_locations locations).

Definition getLocationId : M (option string) :=
  w <- get ;;
  let id :=
    option_map RestaurantLocation.id
      (LocationState.selectedLocation (World.location w)) in
  ret (if truthy id then id else None).

(** The request [fetchLocations] assembles for a signed-in [user]. *)
Definition fetchLocations_query (user : User.t) : Query.t :=
  let query :=
    Query.order "name" (Query.from "restaurant_locations" (Query.v_select "*")) in
  (* Filter by restaurant ID if user is not a super admin *)
  if negb (UserRole_eqb (User.role user) super_admin)
     && negb (UserRole_eqb (User.role user) sub_super_admin)
  then Query.eq "restaurant_id" (User.restaurantId user) query
  else
    match UserRole_eqb (User.role user) sub_super_admin,
          User.managedRestaurantIds user with
    | true, Some ids =>
        (* For sub-super-admin, filter by managed restaurant IDs *)
        Query.in_ "restaurant_id" ids query
    | _, _ => query
    end.

(** What [fetchLocations] does with the selection once [locations] is
    stored. *)
Definition select_after_fetch (user : User.t)
    (locations : list RestaurantLocation.t) : M unit :=
  (* If user has a default location, select it *)
  match
    (if truthy (User.defaultLocationId user)
     then js_find
            (fun loc =>
               match User.defaultLocationId user with
               | Some d => String.eqb (RestaurantLocation.id loc) d
               | None => false
               end)
            locations
     else None)
  with
  | Some defaultLocation =>
      set_location (LocationState.set_selectedLocation (Some defaultLocation))
  | None =>
      (* If no default location or it wasn't found, select the first active
         location *)
      match js_find RestaurantLocation.isActive locations with
      | Some activeLocation =>
          set_location
            (LocationState.set_selectedLocation (Some activeLocation))
      | None =>
          if (0 <? List.length locations)%nat
          then
            (* If no active locations, select the first one *)
            set_location
              (LocationState.set_selectedLocation (List.hd_error locations))
          else ret tt
      end
  end.

Definition fetchLocations_try : M unit :=
  set_location (fun s =>
    LocationState.set_error None (LocationState.set_isLoading true s)) ;;
  (* Get the current user's restaurant ID *)
  w <- get ;;
  match AuthState.user (World.auth w) with
  | None =>
      set_location (fun s =>
        LocationState.set_isLoading false (LocationState.set_locations [] s))
  | Some user =>
      let query := fetchLocations_query user in
      r <- await_response (Call.request query)
             (fun h => Services.locations B h query) ;;
      data <- data_or_throw r ;;
      let locations := List.map toLocation data in
      set_location (fun s =>
        LocationState.set_isLoading false
          (LocationState.set_locations locations s)) ;;
      select_after_fetch user locations
  end.

(** The [catch] block of every operation of this store but the re-throw:
    record the failure, stop loading, notify. *)
Definition location_report (text : string) (error : Error.t) : M unit :=
  set_location (fun s =>
    LocationState.set_isLoading false
      (LocationState.set_error (Some error) s)) ;;
  toast toast_error text.

Definition fetchLocations : M unit :=
  try_catch fetchLocations_try (location_report "Failed to fetch locations").

Definition createLocation_try (location : NewLocation.t)
    : M RestaurantLocation.t :=
  set_location (fun s =>
    LocationState.set_error None (LocationState.set_isLoading true s)) ;;
  (* Get the current user's restaurant ID *)
  w <- get ;;
  match AuthState.user (World.auth w) with
  | None => throw (Error.new "User not associated with a restaurant")
  | Some user =>
      if negb (truthy (User.restaurantId user))
      then throw (Error.new "User not associated with a restaurant")
      else
        let q :=
          Query.single (Query.select
            (Query.from "restaurant_locations"
               (Query.v_insert
                  [("name", w_string (NewLocation.name location));
                   ("address", w_string (NewLocation.address location));
                   ("city", w_string (NewLocation.city location));
                   ("state", w_string (NewLocation.state location));
                   ("zip_code", w_string (NewLocation.zipCode location));
                   ("phone", w_string (NewLocation.phone location));
                   ("email", w_opt_string (NewLocation.email location));
                   ("tax_rate", w_opt_number (NewLocation.taxRate location));
                   ("is_active", w_bool (NewLocation.isActive location));
                   ("restaurant_id",
                    w_opt_string (User.restaurantId user))]))) in
        r <- await_response (Call.request q)
               (fun h => Services.location B h q) ;;
        data <- data_or_throw r ;;
        let newLocation := toLocation data in
        set_location (fun s =>
          LocationState.set_isLoading false
            (LocationState.set_locations
               (LocationState.locations s ++ [newLocation]) s)) ;;
        toast toast_success "Location created successfully" ;;
        ret newLocation
  end.

Definition createLocation (location : NewLocation.t) : M RestaurantLocation.t :=
  try_catch (createLocation_try location)
    (fun error =>
       location_report "Failed to create location" error ;; throw error).

(** [selectedLocation?.id === id] *)
Definition selected_is (id : string) (s : LocationState.t) : bool :=
  match LocationState.selectedLocation s with
  | Some l => String.eqb (RestaurantLocation.id l) id
  | None => false
  end.

(** The state update shared by [updateLocation] and
    [toggleLocationStatus]. *)
Definition replace_location (id : string)
    (updatedLocation : RestaurantLocation.t) (s : LocationState.t)
    : LocationState.t :=
  LocationState.set_isLoading false
    (LocationState.set_selectedLocation
       (if selected_is id s then Some updatedLocation
        else LocationState.selectedLocation s)
       (LocationState.set_locations
          (List.map
             (fun location =>
                if String.eqb (RestaurantLocation.id location) id
                then updatedLocation else location)
             (LocationState.locations s))
          s)).

(** The request [updateLocation] sends, [d] being the time it reads. *)
Definition updateLocation_request (id : string) (updates : LocationUpdates.t)
    (d : Date) : Query.t :=
  Query.single (Query.select (Query.eq "id" (Some id)
    (Query.from "restaurant_locations"
       (Query.v_update
          [("name", w_opt_string (LocationUpdates.name updates));
           ("address", w_opt_string (LocationUpdates.address updates));
           ("city", w_opt_string (LocationUpdates.city updates));
           ("state", w_opt_string (LocationUpdates.state updates));
           ("zip_code", w_opt_string (LocationUpdates.zipCode updates));
           ("phone", w_opt_string (LocationUpdates.phone updates));
           ("email", w_opt_string (LocationUpdates.email updates));
           ("tax_rate", w_opt_number (LocationUpdates.taxRate updates));
           ("is_active", w_opt_bool (LocationUpdates.isActive updates));
           ("updated_at", w_string (Services.toISOString B d))])))).

Definition updateLocation_try (id : string) (updates : LocationUpdates.t)
    : M RestaurantLocation.t :=
  set_location (fun s =>
    LocationState.set_error None (LocationState.set_isLoading true s)) ;;
  d <- new_Date B ;;
  let q := updateLocation_request id updates d in
  r <- await_response (Call.request q) (fun h => Services.location B h q) ;;
  data <- data_or_throw r ;;
  let updatedLocation := toLocation data in
  set_location (replace_location id updatedLocation) ;;
  toast toast_success "Location updated successfully" ;;
  ret updatedLocation.

Definition updateLocation (id : string) (updates : LocationUpdates.t)
    : M RestaurantLocation.t :=
  try_catch (updateLocation_try id updates)
    (fun error =>
       location_report "Failed to update location" error ;; throw error).

Definition deleteLocation_try (id : string) : M unit :=
  set_location (fun s =>
    LocationState.set_error None (LocationState.set_isLoading true s)) ;;
  let q :=
    Query.eq "id" (Some id)
      (Query.from "restaurant_locations" Query.v_delete) in
  r <- await_response (Call.request q) (fun h => Services.execute B h q) ;;
  _ <- data_or_throw r ;;
  set_location (fun s =>
    let newLocations :=
      List.filter
        (fun location => negb (String.eqb (RestaurantLocation.id location) id))
        (LocationState.locations s) in
    let newSelectedLocation :=
      if selected_is id s
      then (if (0 <? List.length newLocations)%nat
            then List.hd_error newLocations else None)
      else LocationState.selectedLocation s in
    LocationState.set_isLoading false
      (LocationState.set_selectedLocation newSelectedLocation
         (LocationState.set_locations newLocations s))) ;;
  toast toast_success "Location deleted successfully".

Definition deleteLocation (id : string) : M unit :=
  try_catch (deleteLocation_try id)
    (fun error =>
       location_report "Failed to delete location" error ;; throw error).

Definition toggleLocationStatus_try (id : string) : M unit :=
  set_location (fun s =>
    LocationState.set_error None (LocationState.set_isLoading true s)) ;;
  (* Get current status *)
  w <- get ;;
  match
    js_find (fun loc => String.eqb (RestaurantLocation.id loc) id)
      (LocationState.locations (World.location w))
  with
  | None => throw (Error.new "Location not found")
  | Some location =>
      d <- new_Date B ;;
      let q :=
        Query.single (Query.select (Query.eq "id" (Some id)
          (Query.from "restaurant_locations"
             (Query.v_update
                [("is_active",
                  w_bool (negb (RestaurantLocation.isActive location)));
                 ("updated_at", w_string (Services.toISOString B d))])))) in
      r <- await_response (Call.request q)
             (fun h => Services.location B h q) ;;
      data <- data_or_throw r ;;
      let updatedLocation := toLocation data in
      set_location (replace_location id updatedLocation) ;;
      toast toast_success
        ("Location "
         ++ (if RestaurantLocation.isActive updatedLocation
             then "activated" else "deactivated")
         ++ " successfully")
  end.

Definition toggleLocationStatus (id : string) : M unit :=
  try_catch (toggleLocationStatus_try id)
    (fun error =>
       location_report "Failed to update location status" error ;;
       throw error).

End LocationStore.

(* ===================================================================== *)
(** * src/store/staff.ts *)

Section StaffStore.

Variable B : Services.t.

(** The [catch] block of every operation of this store: record the
    failure, stop loading, notify; nothing is thrown again. *)
Definition staff_report (text : string) (error : Error.t) : M unit :=
  set_staff (fun s =>
    StaffState.set_isLoading false (StaffState.set_error (Some error) s)) ;;
  toast toast_error text.

Definition fetchStaffMembers_try : M unit :=
  set_staff (fun s =>
    StaffState.set_error None (StaffState.set_isLoading true s)) ;;
  staffMembers <- await Call.getStaffMembers (Services.getStaffMembers B) ;;
  set_staff (fun s =>
    StaffState.set_isLoading false (StaffState.set_staffMembers staffMembers s)).

Definition fetchStaffMembers : M unit :=
  try_catch fetchStaffMembers_try (staff_report "Failed to fetch staff members").

Definition createStaffMember_try (email password : string)
    (profile : UserProfile.t) : M unit :=
  set_staff (fun s =>
    StaffState.set_error None (StaffState.set_isLoading true s)) ;;
  newStaffMember <-
    await (Call.createStaffMember email password profile)
      (fun h => Services.createStaffMember B h email password profile) ;;
  set_staff (fun s =>
    StaffState.set_isLoading false
      (StaffState.set_staffMembers
         (StaffState.staffMembers s ++ [newStaffMember]) s)) ;;
  toast toast_success "Staff member created successfully".

Definition createStaffMember (email password : string)
    (profile : UserProfile.t) : M unit :=
  try_catch (createStaffMember_try email password profile)
    (staff_report "Failed to create staff member").

Definition updateStaffMember_try (userId : string) (updates : UserUpdates.t)
    : M unit :=
  set_staff (fun s =>
    StaffState.set_error None (StaffState.set_isLoading true s)) ;;
  updatedStaffMember <-
    await (Call.updateStaffMember userId updates)
      (fun h => Services.updateStaffMember B h userId updates) ;;
  set_staff (fun s =>
    StaffState.set_isLoading false
      (StaffState.set_staffMembers
         (List.map
            (fun member =>
               if String.eqb (User.id member) userId
               then updatedStaffMember else member)
            (StaffState.staffMembers s))
         s)) ;;
  toast toast_success "Staff member updated successfully".

Definition updateStaffMember (userId : string) (updates : UserUpdates.t)
    : M unit :=
  try_catch (updateStaffMember_try userId updates)
    (staff_report "Failed to update staff member").

Definition deleteStaffMember_try (userId : string) : M unit :=
  set_staff (fun s =>
    StaffState.set_error None (StaffState.set_isLoading true s)) ;;
  await (Call.deleteStaffMember userId)
    (fun h => Services.deleteStaffMember B h userId) ;;
  set_staff (fun s =>
    StaffState.set_isLoading false
      (StaffState.set_staffMembers
         (List.filter
            (fun member => negb (String.eqb (User.id member) userId))
            (StaffState.staffMembers s))
         s)) ;;
  toast toast_success "Staff member deleted successfully".

Definition deleteStaffMember (userId : string) : M unit :=
  try_catch (deleteStaffMember_try userId)
    (staff_report "Failed to delete staff member").

End StaffStore.


(* ===================================================================== *)
(** * src/store/index.ts *)

(** What the two sync operations resolve to: [{ success: true, ...result }]
    or [{ success: false, error }]. *)
Inductive SyncResult :=
| sync_success (result : SyncSummary)
| sync_failure (error : Error.t).

(** [`offline_${Date.now()}_${suffix}`] *)
Definition offline_id (now : Date) (suffix : string) : string :=
  "offline_" ++ NilZero.string_of_int (Z.to_int now) ++ "_" ++ suffix.

Arguments offline_id : simpl never.

Section POSStore.

Variable B : Services.t.

(** Modelled from the spec: [storeOfflinePayment] of lib/indexedDB, which is
    not among the sources.  Section 4.1 of the specification: a durable
    local write that rejects when the storage is full or unavailable; the
    record is added to the stored payments when the write is accepted. *)
Definition storeOfflinePayment (payment : OfflinePayment.t) : M unit :=
  fun w =>
    match Services.storeOfflinePayment B (World.localPayments w) payment with
    | Fulfilled _ =>
        (World.set_localPayments (World.localPayments w ++ [payment]) w,
         Fulfilled tt)
    | Rejected e => (w, Rejected e)
    end.

(** Modelled from the spec: [OfflineManager.addToQueue] of
    lib/OfflineManager, which is not among the sources.  Section 4.2 of the
    specification: a synchronous append to the ordered queue, stamped with
    the time of the call. *)
Definition addToQueue (operationName : string) (payload : QueuePayload.t)
    : M unit :=
  enqueuedAt <- new_Date B ;;
  modify (fun w =>
    World.set_offlineQueue
      (World.offlineQueue w
       ++ [QueuedOperation.mk operationName payload enqueuedAt]) w).

(** [set({ isLoading: true, error: null })] *)
Definition begin_loading : M unit :=
  set_pos (fun s => POSState.set_error None (POSState.set_isLoading true s)).

(** [set({ isLoading: true })] *)
Definition begin_loading_only : M unit :=
  set_pos (POSState.set_isLoading true).

(** The [catch] block of the operations of this store that throw again:
    [set({ error, isLoading: false }); throw error;] *)
Definition pos_rethrow {A} (error : Error.t) : M A :=
  set_pos (fun s =>
    POSState.set_isLoading false (POSState.set_error (Some error) s)) ;;
  throw error.

Definition initialize_try : M unit :=
  begin_loading ;;
  (* Fetch menu items from the database *)
  menuItems <- await Call.getMenuItems (Services.getMenuItems B) ;;
  (* Fetch orders *)
  orders <- await Call.getOrders (Services.getOrders B) ;;
  (* Fetch offline payments *)
  offlinePayments <-
    await Call.getOfflinePayments (Services.getOfflinePayments B) ;;
  set_pos (fun s =>
    POSState.set_isLoading false
      (POSState.set_offlinePayments offlinePayments
         (POSState.set_orders orders (POSState.set_menuItems menuItems s)))).

Definition initialize : M unit :=
  try_catch initialize_try
    (fun error =>
       set_pos (fun s =>
         POSState.set_isLoading false (POSState.set_error (Some error) s))).

Definition createMenuItem_try (menuItem : NewMenuItem.t) : M MenuItem.t :=
  begin_loading ;;
  (* Create the menu item *)
  newItem <- await (Call.createMenuItem menuItem)
               (fun h => Services.createMenuItem B h menuItem) ;;
  (* Update the local state *)
  set_pos (fun s =>
    POSState.set_isLoading false
      (POSState.set_menuItems (POSState.menuItems s ++ [newItem]) s)) ;;
  ret newItem.

Definition createMenuItem (menuItem : NewMenuItem.t) : M MenuItem.t :=
  try_catch (createMenuItem_try menuItem) pos_rethrow.

(** [menuItems.map(item => item.id === menuItemId ? updatedItem : item)] *)
Definition replace_menuItem (menuItemId : string) (updatedItem : MenuItem.t)
    (menuItems : list MenuItem.t) : list MenuItem.t :=
  List.map
    (fun item =>
       if String.eqb (MenuItem.id item) menuItemId then updatedItem else item)
    menuItems.

Definition updateMenuItem_try (menuItemId : string)
    (updates : MenuItemUpdates.t) : M MenuItem.t :=
  begin_loading ;;
  (* Update the menu item in the database *)
  updatedItem <- await (Call.updateMenuItem menuItemId updates)
                   (fun h => Services.updateMenuItem B h menuItemId updates) ;;
  (* Update the local state *)
  set_pos (fun s =>
    POSState.set_isLoading false
      (POSState.set_menuItems
         (replace_menuItem menuItemId updatedItem (POSState.menuItems s)) s)) ;;
  ret updatedItem.

Definition updateMenuItem (menuItemId : string) (updates : MenuItemUpdates.t)
    : M MenuItem.t :=
  try_catch (updateMenuItem_try menuItemId updates) pos_rethrow.

Definition deleteMenuItem_try (menuItemId : string) : M unit :=
  begin_loading ;;
  (* Delete the menu item from the database *)
  await (Call.deleteMenuItem menuItemId)
    (fun h => Services.deleteMenuItem B h menuItemId) ;;
  (* Update the local state *)
  set_pos (fun s =>
    POSState.set_isLoading false
      (POSState.set_menuItems
         (List.filter
            (fun item => negb (String.eqb (MenuItem.id item) menuItemId))
            (POSState.menuItems s))
         s)).

Definition deleteMenuItem (menuItemId : string) : M unit :=
  try_catch (deleteMenuItem_try menuItemId) pos_rethrow.

(** [get().menuItems.find(item => item.id === menuItemId)], or
    [throw new Error('Menu item not found')]. *)
Definition find_menuItem (menuItemId : string) : M MenuItem.t :=
  w <- get ;;
  match
    js_find (fun item => String.eqb (MenuItem.id item) menuItemId)
      (POSState.menuItems (World.pos w))
  with
  | Some menuItem => ret menuItem
  | None => throw (Error.new "Menu item not found")
  end.

(** [useAuthStore.getState().user?.id], or
    [throw new Error('User not authenticated')] when it is falsy. *)
Definition current_userId : M string :=
  w <- get ;;
  let userId := option_map User.id (AuthState.user (World.auth w)) in
  if negb (truthy userId) then throw (Error.new "User not authenticated")
  else ret (or_string userId "").

(** The tail shared by the three stock operations: persist the new level
    with its transaction record, then replace the item in the cache. *)
Definition persist_stock (menuItemId : string) (newStock : number)
    (transactionType : TransactionType) (quantityChange : number)
    (userId : string) (notes reason : option string) : M MenuItem.t :=
  (* Update stock in database and record transaction *)
  updatedItem <-
    await
      (Call.updateMenuItemStock menuItemId newStock transactionType
         quantityChange userId notes reason)
      (fun h =>
         Services.updateMenuItemStock B h menuItemId newStock transactionType
           quantityChange userId notes reason) ;;
  (* Update local state *)
  set_pos (fun s =>
    POSState.set_isLoading false
      (POSState.set_menuItems
         (replace_menuItem menuItemId updatedItem (POSState.menuItems s)) s)) ;;
  ret updatedItem.

Definition restockMenuItem_try (menuItemId : string) (quantity : number)
    (notes : option string) : M MenuItem.t :=
  begin_loading ;;
  (* Find the current menu item *)
  menuItem <- find_menuItem menuItemId ;;
  (* Calculate new stock *)
  let currentStock := or_zero (MenuItem.currentStock menuItem) in
  let newStock := currentStock + quantity in
  (* Get current user ID *)
  userId <- current_userId ;;
  persist_stock menuItemId newStock tx_restock quantity userId notes None.

Definition restockMenuItem (menuItemId : string) (quantity : number)
    (notes : option string) : M MenuItem.t :=
  try_catch (restockMenuItem_try menuItemId quantity notes) pos_rethrow.

Definition adjustMenuItemStock_try (menuItemId : string) (newStock : number)
    (notes : option string) : M MenuItem.t :=
  begin_loading ;;
  (* Find the current menu item *)
  menuItem <- find_menuItem menuItemId ;;
  (* Calculate quantity change *)
  let currentStock := or_zero (MenuItem.currentStock menuItem) in
  let quantityChange := newStock - currentStock in
  (* Get current user ID *)
  userId <- current_userId ;;
  persist_stock menuItemId newStock tx_adjustment quantityChange userId
    notes None.

Definition adjustMenuItemStock (menuItemId : string) (newStock : number)
    (notes : option string) : M MenuItem.t :=
  try_catch (adjustMenuItemStock_try menuItemId newStock notes) pos_rethrow.

Definition recordWaste_try (menuItemId : string) (quantity : number)
    (notes reason : option string) : M MenuItem.t :=
  begin_loading ;;
  (* Find the current menu item *)
  menuItem <- find_menuItem menuItemId ;;
  (* Calculate new stock *)
  let currentStock := or_zero (MenuItem.currentStock menuItem) in
  let newStock := Z.max 0 (currentStock - quantity) in
  (* Get current user ID *)
  userId <- current_userId ;;
  persist_stock menuItemId newStock tx_waste (- quantity) userId notes reason.

Definition recordWaste (menuItemId : string) (quantity : number)
    (notes reason : option string) : M MenuItem.t :=
  try_catch (recordWaste_try menuItemId quantity notes reason) pos_rethrow.


Definition setOfflineStatus (isOffline : bool) : M unit :=
  set_pos (POSState.set_isOffline isOffline).

(** The [catch] block of the two sync operations:
    [set({ error, isLoading: false }); return { success: false, error };] *)
Definition sync_catch (error : Error.t) : M SyncResult :=
  set_pos (fun s =>
    POSState.set_isLoading false (POSState.set_error (Some error) s)) ;;
  ret (sync_failure error).

Definition syncOfflineData_try : M SyncResult :=
  begin_loading_only ;;
  (* Process the offline queue *)
  await Call.processOfflineQueue (Services.processOfflineQueue B) ;;
  (* Refresh data after sync *)
  menuItems <- await Call.getMenuItems (Services.getMenuItems B) ;;
  orders <- await Call.getOrders (Services.getOrders B) ;;
  set_pos (fun s =>
    POSState.set_isLoading false
      (POSState.set_orders orders (POSState.set_menuItems menuItems s))) ;;
  ret (sync_success []).

Definition syncOfflineData : M SyncResult :=
  try_catch syncOfflineData_try sync_catch.

Definition syncOfflinePayments_try : M SyncResult :=
  begin_loading_only ;;
  (* Process offline payments *)
  result <- await Call.processOfflinePayments
              (Services.processOfflinePayments B) ;;
  (* Refresh orders after sync *)
  orders <- await Call.getOrders (Services.getOrders B) ;;
  offlinePayments <-
    await Call.getOfflinePayments (Services.getOfflinePayments B) ;;
  set_pos (fun s =>
    POSState.set_isLoading false
      (POSState.set_offlinePayments offlinePayments
         (POSState.set_orders orders s))) ;;
  ret (sync_success result).

Definition syncOfflinePayments : M SyncResult :=
  try_catch syncOfflinePayments_try sync_catch.

Definition addOrder_try (order : OrderDraft.t) : M Order.t :=
  begin_loading_only ;;
  (* Create the order in the database *)
  result <- await (Call.createOrder order (OrderDraft.items order))
              (fun h => Services.createOrder B h order (OrderDraft.items order)) ;;
  (* Update orders in state *)
  orders <- await Call.getOrders (Services.getOrders B) ;;
  (* Refresh menu items to get updated stock levels *)
  menuItems <- await Call.getMenuItems (Services.getMenuItems B) ;;
  set_pos (fun s =>
    POSState.set_isLoading false
      (POSState.set_menuItems menuItems (POSState.set_orders orders s))) ;;
  ret result.

Definition addOrder (order : OrderDraft.t) : M Order.t :=
  try_catch (addOrder_try order) pos_rethrow.

(** [orders.map(order => order.id === orderId ? updatedOrder : order)] *)
Definition replace_order (orderId : string) (updatedOrder : Order.t)
    (orders : list Order.t) : list Order.t :=
  List.map
    (fun order =>
       if String.eqb (Order.id order) orderId then updatedOrder else order)
    orders.

Definition updateOrderStatus_try (orderId : string) (status : OrderStatus)
    : M Order.t :=
  begin_loading_only ;;
  (* Update order status *)
  updatedOrder <- await (Call.updateOrderStatus orderId status)
                    (fun h => Services.updateOrderStatus B h orderId status) ;;
  (* Update orders in state *)
  set_pos (fun s =>
    POSState.set_isLoading false
      (POSState.set_orders
         (replace_order orderId updatedOrder (POSState.orders s)) s)) ;;
  ret updatedOrder.

Definition updateOrderStatus (orderId : string) (status : OrderStatus)
    : M Order.t :=
  try_catch (updateOrderStatus_try orderId status) pos_rethrow.

(** [orders.map(order => order.id === orderId
       ? { ...order, status: 'completed', paymentStatus: 'paid',
           updatedAt: new Date() }
       : order)]: the clock is read once for each order that matches. *)
Fixpoint mark_paid (orderId : string) (orders : list Order.t)
    : M (list Order.t) :=
  match orders with
  | [] => ret []
  | order :: rest =>
      order' <-
        (if String.eqb (Order.id order) orderId
         then
           d <- new_Date B ;;
           ret (Order.spread_paid st_completed ps_paid d order)
         else ret order) ;;
      rest' <- mark_paid orderId rest ;;
      ret (order' :: rest')
  end.

(** The offline branch of [processPayment]. *)
Definition processPayment_offline (orderId : string) (amount : number)
    (paymentMethod : string) (details : option PaymentDetails.t) : M unit :=
  (* Store payment for offline processing *)
  t <- new_Date B ;;
  suffix <- random_suffix B ;;
  createdAt <- new_Date B ;;
  let offlinePayment :=
    OfflinePayment.mk
      (offline_id t suffix)
      orderId
      amount
      paymentMethod
      (or_zero (opt_field details PaymentDetails.tipAmount))
      (opt_field details PaymentDetails.tipPercentage)
      (opt_field details PaymentDetails.taxAmount)
      (opt_field details PaymentDetails.taxRate)
      createdAt in
  (* Store in IndexedDB *)
  storeOfflinePayment offlinePayment ;;
  (* Update local state *)
  w <- get ;;
  orders <- mark_paid orderId (POSState.orders (World.pos w)) ;;
  set_pos (fun s =>
    POSState.set_isLoading false
      (POSState.set_orders orders
         (POSState.set_offlinePayments
            (POSState.offlinePayments s ++ [offlinePayment]) s))) ;;
  (* Add to offline queue for later sync *)
  addToQueue "processPayment"
    (QueuePayload.mk orderId amount paymentMethod
       (opt_field details PaymentDetails.tipAmount)
       (opt_field details PaymentDetails.tipPercentage)
       (opt_field details PaymentDetails.taxAmount)
       (opt_field details PaymentDetails.taxRate)).

(** The online branch of [processPayment]. *)
Definition processPayment_online (orderId : string) (amount : number)
    (paymentMethod : string) (details : option PaymentDetails.t) : M unit :=
  (* Create payment transaction *)
  let payment :=
    PaymentRequest.mk orderId amount paymentMethod pay_completed
      (opt_field details PaymentDetails.tipAmount)
      (opt_field details PaymentDetails.tipPercentage)
      (opt_field details PaymentDetails.taxAmount)
      (opt_field details PaymentDetails.taxRate) in
  await (Call.createPayment payment)
    (fun h => Services.createPayment B h payment) ;;
  (* Update order status *)
  await (Call.updateOrderStatus orderId st_completed)
    (fun h => Services.updateOrderStatus B h orderId st_completed) ;;
  (* Refresh orders *)
  orders <- await Call.getOrders (Services.getOrders B) ;;
  set_pos (fun s => POSState.set_isLoading false (POSState.set_orders orders s)).

Definition processPayment_try (orderId : string) (amount : number)
    (paymentMethod : string) (details : option PaymentDetails.t) : M unit :=
  begin_loading_only ;;
  w <- get ;;
  if POSState.isOffline (World.pos w)
  then processPayment_offline orderId amount paymentMethod details
  else processPayment_online orderId amount paymentMethod details.

Definition processPayment (orderId : string) (amount : number)
    (paymentMethod : string) (details : option PaymentDetails.t) : M unit :=
  try_catch (processPayment_try orderId amount paymentMethod details)
    pos_rethrow.

(** The body of the offline loop of [processSplitPayment]. *)
Definition split_offline_step (orderId : string) (payment : SplitPayment.t)
    : M unit :=
  t <- new_Date B ;;
  suffix <- random_suffix B ;;
  createdAt <- new_Date B ;;
  let offlinePayment :=
    OfflinePayment.mk
      (offline_id t suffix)
      orderId
      (SplitPayment.amount payment)
      (SplitPayment.method payment)
      (or_zero (SplitPayment.tipAmount payment))
      None
      (Some (or_zero (SplitPayment.taxAmount payment)))
      None
      createdAt in
  (* Store in IndexedDB *)
  storeOfflinePayment offlinePayment ;;
  (* Update local state *)
  set_pos (fun s =>
    POSState.set_offlinePayments
      (POSState.offlinePayments s ++ [offlinePayment]) s) ;;
  (* Add to offline queue for later sync *)
  addToQueue "processPayment"
    (QueuePayload.mk orderId (SplitPayment.amount payment)
       (SplitPayment.method payment) (SplitPayment.tipAmount payment) None
       (SplitPayment.taxAmount payment) None).

(** The request sent for one sub-payment by the online loop. *)
Definition split_request (orderId : string) (payment : SplitPayment.t)
    : PaymentRequest.t :=
  PaymentRequest.mk orderId (SplitPayment.amount payment)
    (SplitPayment.method payment) pay_completed
    (Some (or_zero (SplitPayment.tipAmount payment))) None
    (Some (or_zero (SplitPayment.taxAmount payment))) None.

(** The body of the online loop of [processSplitPayment]. *)
Definition split_online_step (orderId : string) (payment : SplitPayment.t)
    : M unit :=
  await (Call.createPayment (split_request orderId payment))
    (fun h => Services.createPayment B h (split_request orderId payment)).

Definition processSplitPayment_try (orderId : string)
    (payments : list SplitPayment.t) : M unit :=
  begin_loading_only ;;
  w <- get ;;
  if POSState.isOffline (World.pos w)
  then
    (* Handle split payments offline *)
    for_of payments (split_offline_step orderId) ;;
    (* Update order status locally *)
    w <- get ;;
    orders <- mark_paid orderId (POSState.orders (World.pos w)) ;;
    set_pos (fun s =>
      POSState.set_isLoading false (POSState.set_orders orders s)) ;;
    toast toast_success "Split payment processed (offline mode)"
  else
    (* Process each payment *)
    for_of payments (split_online_step orderId) ;;
    (* Update order status *)
    await (Call.updateOrderStatus orderId st_completed)
      (fun h => Services.updateOrderStatus B h orderId st_completed) ;;
    (* Refresh orders *)
    orders <- await Call.getOrders (Services.getOrders B) ;;
    set_pos (fun s =>
      POSState.set_isLoading false (POSState.set_orders orders s)) ;;
    toast toast_success "Split payment processed successfully".

Definition processSplitPayment (orderId : string)
    (payments : list SplitPayment.t) : M unit :=
  try_catch (processSplitPayment_try orderId payments) pos_rethrow.

End POSStore.


(* ===================================================================== *)
(** * The relational meaning of a location request

    What the hosted store answers to a [select] on [restaurant_locations]:
    the rows that pass every filter, in ascending order of the ordering
    column.  [eq] keeps the rows whose column holds the given value (no row
    matches an absent value), [in] keeps those whose column holds one of the
    given values. *)

Definition location_column (column : string) (row : LocationRow.t)
    : option string :=
  if String.eqb column "id" then Some (LocationRow.id row)
  else if String.eqb column "name" then Some (LocationRow.name row)
  else if String.eqb column "address" then Some (LocationRow.address row)
  else if String.eqb column "city" then Some (LocationRow.city row)
  else if String.eqb column "state" then Some (LocationRow.state row)
  else if String.eqb column "zip_code" then Some (LocationRow.zip_code row)
  else if String.eqb column "phone" then Some (LocationRow.phone row)
  else if String.eqb column "email" then LocationRow.email row
  else if String.eqb column "restaurant_id" then LocationRow.restaurant_id row
  else None.

Definition passes (f : Query.Filter) (row : LocationRow.t) : bool :=
  match f with
  | Query.f_eq column value =>
      match value, location_column column row with
      | Some v, Some x => String.eqb x v
      | _, _ => false
      end
  | Query.f_in column values =>
      match location_column column row with
      | Some x => List.existsb (String.eqb x) values
      | None => false
      end
  end.

(** The text a row is ordered by; an absent value sorts first. *)
Definition sort_key (column : string) (row : LocationRow.t) : string :=
  match location_column column row with
  | Some x => x
  | None => ""
  end.

Fixpoint insert_sorted (column : string) (row : LocationRow.t)
    (rows : list LocationRow.t) : list LocationRow.t :=
  match rows with
  | [] => [row]
  | r :: rest =>
      if String.leb (sort_key column row) (sort_key column r)
      then row :: r :: rest
      else r :: insert_sorted column row rest
  end.

Definition sort_by (column : string) (rows : list LocationRow.t)
    : list LocationRow.t :=
  List.fold_right (insert_sorted column) [] rows.

Definition select_rows (table : list LocationRow.t) (q : Query.t)
    : list LocationRow.t :=
  let kept :=
    List.filter (fun row => List.forallb (fun f => passes f row) (Query.filters q))
      table in
  match Query.ordering q with
  | Some column => sort_by column kept
  | None => kept
  end.

(** Rows in ascending order of a column. *)
Definition ascending (column : string) (a b : LocationRow.t) : Prop :=
  String.leb (sort_key column a) (sort_key column b) = true.

(** A backend answers location requests relationally over [table] when
    every [select] on the table gets [select_rows]. *)
Definition answers_from (B : Services.t) (table : list LocationRow.t) : Prop :=
  forall h q, Services.locations B h q = Data (select_rows table q).

(* ===================================================================== *)
(** * The calls of a log *)

Definition is_createPayment (c : Call.t) : bool :=
  match c with Call.createPayment _ => true | _ => false end.
Definition is_updateOrderStatus (c : Call.t) : bool :=
  match c with Call.updateOrderStatus _ _ => true | _ => false end.
Definition is_getOrders (c : Call.t) : bool :=
  match c with Call.getOrders => true | _ => false end.

(** How [mark_paid] leaves one order. *)
Definition paid_version (orderId : string) (before after : Order.t) : Prop :=
  Order.id after = Order.id before /\
  (Order.id before = orderId ->
     Order.status after = st_completed /\
     Order.paymentStatus after = ps_paid) /\
  (Order.id before <> orderId -> after = before).

(** [after] is [before] with every element whose key is [target] replaced
    by [updated] and nothing else touched. *)
Definition replaced_by_id {A} (key : A -> string) (target : string)
    (updated : A) (before after : list A) : Prop :=
  List.length after = List.length before /\
  (forall i x,
     List.nth_error before i = Some x ->
     List.nth_error after i
     = Some (if String.eqb (key x) target then updated else x)) /\
  ((forall x, List.In x before -> key x <> target) -> after = before).

(** How an operation of a store treats a failure of its [try] block:
    whether the failure is recorded in the store's [error] field (with
    loading stopped), whether its [catch] block shows a notification and
    with which text, and whether the failure reaches the caller. *)
Record FailurePolicy := {
  records : bool;
  notifies : option (Error.t -> string);
  rethrows : bool
}.

Definition follows {A} (policy : FailurePolicy)
    (error_of : World.t -> option Error.t) (loading_of : World.t -> bool)
    (body op : M A) : Prop :=
  forall w w1 e,
    body w = (w1, Rejected e) ->
    exists w2 outcome,
      op w = (w2, outcome) /\
      (records policy = true ->
         error_of w2 = Some e /\ loading_of w2 = false) /\
      World.toasts w2
      = (World.toasts w1
         ++ match notifies policy with
            | Some text => [Toast.mk toast_error (text e)]
            | None => []
            end)%list /\
      (if rethrows policy then outcome = Rejected e
       else exists v, outcome = Fulfilled v).

(** Record, notify with a fixed text, throw again. *)
Definition report_and_rethrow (text : string) : FailurePolicy :=
  {| records := true; notifies := Some (fun _ => text); rethrows := true |}.
(** Record and throw again; the [catch] block shows nothing. *)
Definition record_and_rethrow : FailurePolicy :=
  {| records := true; notifies := None; rethrows := true |}.
(** Record, notify, and end normally. *)
Definition report_and_swallow (text : Error.t -> string) : FailurePolicy :=
  {| records := true; notifies := Some text; rethrows := false |}.
(** Record and end normally; the [catch] block shows nothing. *)
Definition record_and_swallow : FailurePolicy :=
  {| records := true; notifies := None; rethrows := false |}.

Definition auth_error (w : World.t) := AuthState.error (World.auth w).
Definition auth_loading (w : World.t) := AuthState.isLoading (World.auth w).
Definition location_error (w : World.t) :=
  LocationState.error (World.location w).
Definition location_loading (w : World.t) :=
  LocationState.isLoading (World.location w).
Definition staff_error (w : World.t) := StaffState.error (World.staff w).
Definition staff_loading (w : World.t) := StaffState.isLoading (World.staff w).
Definition pos_error (w : World.t) := POSState.error (World.pos w).
Definition pos_loading (w : World.t) := POSState.isLoading (World.pos w).

(** The priority order as the specification words it: the user's default
    location if it is among [locations], else the first active one, else
    the first one, else none.  ([select_after_fetch] is the code.) *)
Definition preferred_location (user : User.t)
    (locations : list RestaurantLocation.t) : option RestaurantLocation.t :=
  match
    match User.defaultLocationId user with
    | Some d =>
        if String.eqb d "" then None
        else List.find (fun loc => String.eqb (RestaurantLocation.id loc) d)
               locations
    | None => None
    end
  with
  | Some defaultLocation => Some defaultLocation
  | None =>
      match List.find RestaurantLocation.isActive locations with
      | Some activeLocation => Some activeLocation
      | None => List.hd_error locations
      end
  end.

(* ===================================================================== *)
(** * Sample data and sample backends *)

Module Sample.

Definition boom : Error.t := Error.new "backend unavailable".
Definition plain_failure : Error.t := Error.mk false "permission denied".

Definition downtown : LocationRow.t :=
  LocationRow.mk "loc-1" "Downtown" "1 Main St" "Springfield" "IL" "62701"
    "555-0100" None (Some 8) true "2024-01-01T00:00:00Z"
    "2024-01-02T00:00:00Z" (Some "rest-A").
Definition airport : LocationRow.t :=
  LocationRow.mk "loc-2" "Airport" "2 Sky Rd" "Springfield" "IL" "62702"
    "555-0101" None (Some 8) false "2024-01-01T00:00:00Z"
    "2024-01-02T00:00:00Z" (Some "rest-A").
Definition harbour : LocationRow.t :=
  LocationRow.mk "loc-3" "Harbour" "3 Quay" "Shelbyville" "IL" "62565"
    "555-0102" None None true "2024-01-01T00:00:00Z"
    "2024-01-02T00:00:00Z" (Some "rest-B").
Definition table : list LocationRow.t := [downtown; airport; harbour].

Definition profileRow : ProfileRow.t :=
  ProfileRow.mk cashier "Ana" (Some "rest-A") None None None None None
    "2024-01-01T00:00:00Z" None.

Definition ana : User.t :=
  User.mk "user-1" "ana@example.com" cashier "Ana" (Some "rest-A") None None
    None None None (Some "en") 0 None.
Definition regional : User.t :=
  User.mk "user-2" "reg@example.com" sub_super_admin "Reg" None None None
    None None (Some ["rest-B"; "rest-C"]) (Some "en") 0 None.

Definition soup : MenuItem.t :=
  MenuItem.mk "item-1" "Soup" "Soup of the day" 450 "starters" None ["water"]
    10 true (Some 5) (Some 2) None None None None None.
Definition bread : MenuItem.t :=
  MenuItem.mk "item-2" "Bread" "Bread basket" 200 "starters" None ["flour"]
    5 true (Some 12) None None None None None None.

Definition order (id : string) : Order.t :=
  Order.mk id "cust-1" [] st_pending 1000 ps_pending src_pos dine_in 15 None
    None None None None None 0 0 None None None.

Definition draft : OrderDraft.t :=
  OrderDraft.mk "cust-1" [] 1000 src_pos dine_in None.

Definition member (id : string) : User.t :=
  User.mk id "staff@example.com" waiter "Staff" (Some "rest-A") None None
    None None None (Some "en") 0 None.

Definition profile : UserProfile.t :=
  UserProfile.mk waiter "Staff" (Some "rest-A") None None None None None None.

Definition no_user_updates : UserUpdates.t :=
  UserUpdates.mk None None None None None None None None None None None None
    None.
Definition no_item_updates : MenuItemUpdates.t :=
  MenuItemUpdates.mk None None None None None None None None None None None
    None None None None None.
Definition no_location_updates : LocationUpdates.t :=
  LocationUpdates.mk None None None None None None None None None None None
    None None.
Definition newLocation : NewLocation.t :=
  NewLocation.mk "Harbour" "3 Quay" "Shelbyville" "IL" "62565" "555-0102"
    None None true None.
Definition newItem : NewMenuItem.t :=
  NewMenuItem.mk "Soup" "Soup of the day" 450 "starters" None ["water"] 10
    true (Some 5) (Some 2) None None None None None.

Definition settle {A} (failure : option Error.t) (value : A) : Settled A :=
  match failure with
  | Some e => Rejected e
  | None => Fulfilled value
  end.
Definition respond {A} (failure : option Error.t) (data : A) : Response A :=
  match failure with
  | Some e => Failure e
  | None => Data data
  end.

(** A backend over [table] that fails exactly the calls [fails] picks (by
    the log so far and the call), refuses local writes when [disk_full],
    and otherwise answers with the sample records. *)
Definition services (fails : list Call.t -> Call.t -> option Error.t)
    (disk_full : bool) : Services.t :=
  Services.mk
    (fun h => settle (fails h Call.getMenuItems) [soup; bread])
    (fun h => settle (fails h Call.getOrders) [order "order-1"])
    (fun h => settle (fails h Call.getOfflinePayments) [])
    (fun h m => settle (fails h (Call.createMenuItem m)) soup)
    (fun h i u => settle (fails h (Call.updateMenuItem i u)) soup)
    (fun h i => settle (fails h (Call.deleteMenuItem i)) tt)
    (fun h i n k q u no r =>
       settle (fails h (Call.updateMenuItemStock i n k q u no r)) soup)
    (fun h => settle (fails h Call.processOfflineQueue) tt)
    (fun h => settle (fails h Call.processOfflinePayments) [])
    (fun h o i => settle (fails h (Call.createOrder o i)) (order "order-9"))
    (fun h i s => settle (fails h (Call.updateOrderStatus i s)) (order i))
    (fun h p => settle (fails h (Call.createPayment p)) tt)
    (fun h => settle (fails h Call.getStaffMembers) [member "user-7"])
    (fun h e p pr =>
       settle (fails h (Call.createStaffMember e p pr)) (member "user-8"))
    (fun h i u => settle (fails h (Call.updateStaffMember i u)) (member i))
    (fun h i => settle (fails h (Call.deleteStaffMember i)) tt)
    (fun h e p =>
       respond (fails h (Call.signInWithPassword e p))
         (Some (AuthUser.mk "user-1" e)))
    (fun h e p n r =>
       respond (fails h (Call.signUp e p n r)) (Some (AuthUser.mk "user-3" e)))
    (fun h => respond (fails h Call.signOut) tt)
    (fun h e r => respond (fails h (Call.resetPasswordForEmail e r)) tt)
    (fun h q => respond (fails h (Call.request q)) profileRow)
    (fun h q => respond (fails h (Call.request q)) (select_rows table q))
    (fun h q => respond (fails h (Call.request q)) harbour)
    (fun h q => respond (fails h (Call.request q)) tt)
    (fun stored p => if disk_full then Rejected boom else Fulfilled tt)
    (fun n => 1700000000000 + Z.of_nat n)
    (fun n => "k3x9q2a")
    "https://pos.example"
    (fun s => 0)
    (fun d => "2024-06-01T12:00:00.000Z")
    (fun key => key).

(** Nothing fails. *)
Definition healthy : Services.t := services (fun _ _ => None) false.

(** Every request fails. *)
Definition down : Services.t := services (fun _ _ => Some boom) false.

(** Only a profile update fails (with a plain error object). *)
Definition update_fails : Services.t :=
  services
    (fun _ c =>
       match c with
       | Call.request q =>
           match Query.verb q with
           | Query.v_update _ => Some plain_failure
           | _ => None
           end
       | _ => None
       end)
    false.

(** The second payment creation fails; everything else succeeds. *)
Definition second_payment_fails : Services.t :=
  services
    (fun h c =>
       match c with
       | Call.createPayment _ =>
           if (List.length (List.filter is_createPayment h) =? 1)%nat
           then Some boom else None
       | _ => None
       end)
    false.

(** The local storage refuses writes; the backend is healthy. *)
Definition disk_full : Services.t := services (fun _ _ => None) true.

(** The location table is empty. *)
Definition no_locations : Services.t :=
  Services.mk
    (Services.getMenuItems healthy) (Services.getOrders healthy)
    (Services.getOfflinePayments healthy) (Services.createMenuItem healthy)
    (Services.updateMenuItem healthy) (Services.deleteMenuItem healthy)
    (Services.updateMenuItemStock healthy)
    (Services.processOfflineQueue healthy)
    (Services.processOfflinePayments healthy) (Services.createOrder healthy)
    (Services.updateOrderStatus healthy) (Services.createPayment healthy)
    (Services.getStaffMembers healthy) (Services.createStaffMember healthy)
    (Services.updateStaffMember healthy) (Services.deleteStaffMember healthy)
    (Services.signInWithPassword healthy) (Services.signUp healthy)
    (Services.signOut healthy) (Services.resetPasswordForEmail healthy)
    (Services.profile healthy)
    (fun h q => Data (select_rows [] q))
    (Services.location healthy) (Services.execute healthy)
    (Services.storeOfflinePayment healthy) (Services.now healthy)
    (Services.random healthy) (Services.origin healthy)
    (Services.parseDate healthy) (Services.toISOString healthy)
    (Services.translate healthy).

(** A world in which [user] is signed in. *)
Definition signed_in (user : User.t) : World.t :=
  World.set_auth (AuthState.mk true (Some user) false None) World.initial.

(** The POS store with two menu items and two orders, [ana] signed in. *)
Definition shop (offline : bool) (stale : option Error.t) : World.t :=
  World.set_pos
    (POSState.mk [soup; bread] [order "order-1"; order "order-2"] false stale
       offline [])
    (signed_in ana).

(** [ana] signed in, with a location selected by an earlier fetch. *)
Definition revisiting : World.t :=
  World.set_location
    (LocationState.mk
       (Some
          (RestaurantLocation.mk "loc-1" "Downtown" "1 Main St" "Springfield"
             "IL" "62701" "555-0100" None (Some 8) true 0 0 (Some "rest-A")))
       [] false None)
    (signed_in ana).

Definition cash : SplitPayment.t := SplitPayment.mk 600 "cash" None None.
Definition card : SplitPayment.t := SplitPayment.mk 400 "card" (Some 50) None.

End Sample.

(* ===================================================================== *)
(** * Further predicates on store states and requests *)

(** The selected location, when there is one, is one of the listed
    locations. *)
Definition selection_consistent (s : LocationState.t) : Prop :=
  match LocationState.selectedLocation s with
  | Some l => List.In l (LocationState.locations s)
  | None => True
  end.

(** The value an object literal sent to the backend gives to a column. *)
Fixpoint column_value (column : string) (values : list (string * WireValue))
    : option WireValue :=
  match values with
  | [] => None
  | (name, v) :: rest =>
      if String.eqb name column then Some v else column_value column rest
  end.

(** The values a request inserts or updates. *)
Definition written_values (q : Query.t) : list (string * WireValue) :=
  match Query.verb q with
  | Query.v_insert values | Query.v_update values => values
  | _ => []
  end.

(** [m] never leads from a world to one that is not [R]-related to it. *)
Definition keeps {A} (R : World.t -> World.t -> Prop) (m : M A) : Prop :=
  forall w, R w (fst (m w)).


(** What an operation of the staff, location or auth store must leave
    alone: the three other stores. *)
Definition same_outside_staff (w w' : World.t) : Prop :=
  World.auth w' = World.auth w /\
  World.location w' = World.location w /\
  World.pos w' = World.pos w.
Definition same_outside_location (w w' : World.t) : Prop :=
  World.auth w' = World.auth w /\
  World.staff w' = World.staff w /\
  World.pos w' = World.pos w.
Definition same_outside_auth (w w' : World.t) : Prop :=
  World.location w' = World.location w /\
  World.staff w' = World.staff w /\
  World.pos w' = World.pos w.

(** From [w] to [w'] only offline payment records were added: [records]
    to the local payment storage and to the in-memory list, [queued] to
    the offline queue; the backend log, the notifications and the rest of
    the POS store are the same. *)
Definition grows_offline (records : list OfflinePayment.t)
    (queued : list QueuedOperation.t) (w w' : World.t) : Prop :=
  World.localPayments w' = (World.localPayments w ++ records)%list /\
  POSState.offlinePayments (World.pos w')
  = (POSState.offlinePayments (World.pos w) ++ records)%list /\
  World.offlineQueue w' = (World.offlineQueue w ++ queued)%list /\
  World.calls w' = World.calls w /\
  World.toasts w' = World.toasts w /\
  POSState.menuItems (World.pos w') = POSState.menuItems (World.pos w) /\
  POSState.orders (World.pos w') = POSState.orders (World.pos w) /\
  POSState.error (World.pos w') = POSState.error (World.pos w).

(** The local storage accepts every write. *)
Definition storage_accepts (B : Services.t) : Prop :=
  forall stored payment,
    Services.storeOfflinePayment B stored payment = Fulfilled tt.

(* ===================================================================== *)
(** * More sample data *)

Module More.

(** A super-admin. *)
Definition root : User.t :=
  User.mk "user-0" "root@example.com" super_admin "Root" None None None None
    None None (Some "en") 0 None.

Definition downtown : RestaurantLocation.t :=
  RestaurantLocation.mk "loc-1" "Downtown" "1 Main St" "Springfield" "IL"
    "62701" "555-0100" None (Some 8) true 0 0 (Some "rest-A").
Definition airport : RestaurantLocation.t :=
  RestaurantLocation.mk "loc-2" "Airport" "2 Sky Rd" "Springfield" "IL"
    "62702" "555-0101" None (Some 8) false 0 0 (Some "rest-A").

(** [ana] signed in, two locations listed, Downtown selected. *)
Definition at_downtown : World.t :=
  World.set_location
    (LocationState.mk (Some downtown) [airport; downtown] false None)
    (Sample.signed_in Sample.ana).

(** The sample shop with nobody signed in. *)
Definition unattended : World.t :=
  World.set_auth AuthState.initial (Sample.shop false None).

End More.

(* ===================================================================== *)
(** * Proof steps *)

(** Case analysis on the next answer of the backend that the goal is
    waiting for. *)
Ltac answer :=
  match goal with
  | |- context [match ?x with Fulfilled _ => _ | Rejected _ => _ end] =>
      destruct x eqn:?; cbn
  end.

(* ===================================================================== *)
(** * Laws of the program monad *)

Lemma bind_fulfilled {A C} (m : M A) (k : A -> M C) w w' a :
  m w = (w', Fulfilled a) -> bind m k w = k a w'.
Proof. intros H. unfold bind. rewrite H. reflexivity. Qed.

Lemma bind_rejected {A C} (m : M A) (k : A -> M C) w w' e :
  m w = (w', Rejected e) -> bind m k w = (w', Rejected e).
Proof. intros H. unfold bind. rewrite H. reflexivity. Qed.

Lemma try_catch_fulfilled {A} (body : M A) handler w w' a :
  body w = (w', Fulfilled a) -> try_catch body handler w = (w', Fulfilled a).
Proof. intros H. unfold try_catch. rewrite H. reflexivity. Qed.

Lemma try_catch_rejected {A} (body : M A) handler w w' e :
  body w = (w', Rejected e) -> try_catch body handler w = handler e w'.
Proof. intros H. unfold try_catch. rewrite H. reflexivity. Qed.

(* ===================================================================== *)
(** * Sign-in *)

Section SignIn.

Variable B : Services.t.
Variables email password : string.

(** Rejected credentials make the [try] block throw the error that came
    back. *)
Lemma signIn_try_rejected_credentials w e :
  Services.signInWithPassword B (World.calls w) email password = Failure e ->
  exists w1, signIn_try B email password w = (w1, Rejected e).
Proof.
  intros H. unfold signIn_try, bind, set_auth, modify, await_response.
  cbn. rewrite H. cbn. eexists. reflexivity.
Qed.

(** So does an answer without a user. *)
Lemma signIn_try_no_user w :
  Services.signInWithPassword B (World.calls w) email password = Data None ->
  exists w1,
    signIn_try B email password w
    = (w1, Rejected (Error.new "No user returned from authentication")).
Proof.
  intros H. unfold signIn_try, bind, set_auth, modify, await_response.
  cbn. rewrite H. cbn. eexists. reflexivity.
Qed.

(** So does a profile that cannot be fetched. *)
Lemma signIn_try_profile_error w authUser e :
  Services.signInWithPassword B (World.calls w) email password
  = Data (Some authUser) ->
  Services.profile B
    (World.calls w ++ [Call.signInWithPassword email password])
    (profile_request (AuthUser.id authUser)) = Failure e ->
  exists w1, signIn_try B email password w = (w1, Rejected e).
Proof.
  intros H1 H2. unfold signIn_try, bind, set_auth, modify, await_response.
  cbn. rewrite H1. cbn. rewrite H2. cbn. eexists. reflexivity.
Qed.

(** C6.  Whenever the sign-in sequence throws, whatever the store held
    before, [signIn] ends with [isAuthenticated = false] and
    [user = null]; the failure is recorded and not passed on. *)
Theorem signIn_failure_signs_out w w1 e :
  signIn_try B email password w = (w1, Rejected e) ->
  exists w2,
    signIn B email password w = (w2, Fulfilled tt) /\
    AuthState.isAuthenticated (World.auth w2) = false /\
    AuthState.user (World.auth w2) = None /\
    AuthState.error (World.auth w2) = Some e /\
    AuthState.isLoading (World.auth w2) = false.
Proof.
  intros H. unfold signIn.
  rewrite (try_catch_rejected _ _ _ _ _ H).
  unfold signIn_catch, bind, set_auth, toast, modify. cbn.
  eexists. split; [reflexivity|]. cbn. auto.
Qed.

(** C8.  When authentication and the profile fetch succeed, a failed
    last-login update changes nothing: [signIn] resolves, the user stays
    signed in and no error is recorded. *)
Theorem signIn_ignores_lastLogin_failure w authUser profileData e :
  Services.signInWithPassword B (World.calls w) email password
  = Data (Some authUser) ->
  Services.profile B
    (World.calls w ++ [Call.signInWithPassword email password])
    (profile_request (AuthUser.id authUser)) = Data profileData ->
  Services.execute B
    (World.calls w
     ++ [Call.signInWithPassword email password;
         Call.request (profile_request (AuthUser.id authUser))])
    (lastLogin_request B (compose_user B authUser profileData)
       (Services.now B (World.ticks w))) = Failure e ->
  exists w2,
    signIn B email password w = (w2, Fulfilled tt) /\
    AuthState.user (World.auth w2)
    = Some (compose_user B authUser profileData) /\
    AuthState.isAuthenticated (World.auth w2) = true /\
    AuthState.error (World.auth w2) = None /\
    List.In
      (Call.request
         (lastLogin_request B (compose_user B authUser profileData)
            (Services.now B (World.ticks w))))
      (World.calls w2).
Proof.
  intros H1 H2 H3.
  unfold signIn, try_catch, signIn_try, bind, set_auth, modify,
    await_response, new_Date, toast, changeLanguage.
  cbn. rewrite H1. cbn. rewrite H2. cbn.
  match goal with |- context [if ?c then _ else _] => destruct c end;
    cbn; eexists; (split; [reflexivity|]); cbn;
    repeat split; rewrite !in_app_iff; cbn; auto.
Qed.

End SignIn.

(* ===================================================================== *)
(** * Payments *)

Section Payments.

Variable B : Services.t.
Variable orderId : string.

Lemma set_ticks_twice n m w :
  World.set_ticks n (World.set_ticks m w) = World.set_ticks n w.
Proof. destruct w; reflexivity. Qed.

(** Marking the orders paid reads the clock and touches nothing else; each
    order comes out as its paid version. *)
Lemma mark_paid_spec orders : forall w,
  exists n orders',
    mark_paid B orderId orders w = (World.set_ticks n w, Fulfilled orders') /\
    List.Forall2 (paid_version orderId) orders orders'.
Proof.
  induction orders as [|o rest IH]; intros w.
  - exists (World.ticks w), []. split; [destruct w; reflexivity|constructor].
  - cbn [mark_paid]. destruct (String.eqb_spec (Order.id o) orderId) as [Heq|Hne].
    + destruct (IH (World.set_ticks (S (World.ticks w)) w)) as (n & rest' & Hrun & Hall).
      exists n, (Order.spread_paid st_completed ps_paid (Services.now B (World.ticks w)) o :: rest').
      split.
      * unfold bind at 1. unfold bind at 1. unfold new_Date at 1. cbn.
        unfold bind at 1. rewrite Hrun. cbn. rewrite set_ticks_twice. reflexivity.
      * constructor; [|exact Hall]. repeat split; cbn; auto; intros; exfalso; congruence.
    + destruct (IH w) as (n & rest' & Hrun & Hall).
      exists n, (o :: rest'). split.
      * unfold bind at 1. cbn. unfold bind at 1. rewrite Hrun. reflexivity.
      * constructor; [|exact Hall]. repeat split; auto; intros; exfalso; congruence.
Qed.

(** The offline branch never contacts the backend, whether or not the
    local write is accepted. *)
Lemma processPayment_offline_no_call amount paymentMethod details w :
  POSState.isOffline (World.pos w) = true ->
  World.calls (fst (processPayment B orderId amount paymentMethod details w))
  = World.calls w.
Proof.
  intros Hoff.
  unfold processPayment, try_catch, processPayment_try, begin_loading_only,
    set_pos, modify, processPayment_offline, storeOfflinePayment, bind.
  cbn. rewrite Hoff. cbn.
  destruct (Services.storeOfflinePayment B _ _) as [[]|e]; cbn.
  2: reflexivity.
  match goal with |- context [mark_paid B orderId ?os ?w0] =>
    destruct (mark_paid_spec os w0) as (n & orders' & Hrun & _) end.
  cbn in Hrun. rewrite Hrun. reflexivity.
Qed.

(** C1.  Offline, with the local storage accepting the write,
    [processPayment] resolves having appended one record to the local
    payment storage and the same record to [offlinePayments], having
    marked every order with the given id completed and paid (the other
    orders untouched), having sent nothing to the backend, and having
    appended one ['processPayment'] operation to the offline queue. *)
Theorem processPayment_offline_effects amount paymentMethod details w :
  POSState.isOffline (World.pos w) = true ->
  (forall p,
     Services.storeOfflinePayment B (World.localPayments w) p = Fulfilled tt) ->
  exists w' payment queued,
    processPayment B orderId amount paymentMethod details w
    = (w', Fulfilled tt) /\
    World.localPayments w' = (World.localPayments w ++ [payment])%list /\
    POSState.offlinePayments (World.pos w')
    = (POSState.offlinePayments (World.pos w) ++ [payment])%list /\
    OfflinePayment.orderId payment = orderId /\
    OfflinePayment.amount payment = amount /\
    OfflinePayment.paymentMethod payment = paymentMethod /\
    List.Forall2 (paid_version orderId)
      (POSState.orders (World.pos w)) (POSState.orders (World.pos w')) /\
    World.calls w' = World.calls w /\
    World.offlineQueue w' = (World.offlineQueue w ++ [queued])%list /\
    QueuedOperation.operationName queued = "processPayment" /\
    QueuePayload.orderId (QueuedOperation.payload queued) = orderId /\
    QueuePayload.amount (QueuedOperation.payload queued) = amount /\
    QueuePayload.paymentMethod (QueuedOperation.payload queued)
    = paymentMethod.
Proof.
  intros Hoff Hdisk.
  unfold processPayment, try_catch, processPayment_try, begin_loading_only,
    set_pos, modify, processPayment_offline, storeOfflinePayment, addToQueue,
    new_Date, random_suffix, bind.
  cbn. rewrite Hoff. cbn. rewrite Hdisk. cbn.
  match goal with |- context [mark_paid B orderId ?os ?w0] =>
    destruct (mark_paid_spec os w0) as (n & orders' & Hrun & Hall) end.
  cbn in Hrun. rewrite Hrun. cbn.
  do 3 eexists. split; [reflexivity|]. cbn.
  repeat split; auto.
Qed.

Lemma set_calls_same w : World.set_calls (World.calls w) w = w.
Proof. destruct w; reflexivity. Qed.

Lemma set_calls_twice l m w :
  World.set_calls l (World.set_calls m w) = World.set_calls l w.
Proof. destruct w; reflexivity. Qed.

(** The online loop, when every payment creation is accepted, sends one
    request per sub-payment, in list order, and touches nothing else. *)
Lemma split_online_loop payments : forall w,
  (forall h p, Services.createPayment B h p = Fulfilled tt) ->
  for_of payments (split_online_step B orderId) w
  = (World.set_calls
       (World.calls w
        ++ List.map (fun p => Call.createPayment (split_request orderId p))
             payments) w,
     Fulfilled tt).
Proof.
  induction payments as [|p rest IH]; intros w Hok.
  - cbn. rewrite app_nil_r, set_calls_same. reflexivity.
  - cbn [for_of]. unfold bind, split_online_step at 1, await. rewrite Hok.
    rewrite IH by exact Hok. cbn. rewrite set_calls_twice, <- app_assoc.
    reflexivity.
Qed.

(** C3.  Online, with the backend accepting every request,
    [processSplitPayment] resolves having sent exactly these requests after
    those already in the log: one payment creation per sub-payment, in list
    order, then one order-status update to completed, then one refresh of
    the orders. *)
Theorem processSplitPayment_online_calls payments w :
  POSState.isOffline (World.pos w) = false ->
  (forall h p, Services.createPayment B h p = Fulfilled tt) ->
  (forall h, exists o,
     Services.updateOrderStatus B h orderId st_completed = Fulfilled o) ->
  (forall h, exists os, Services.getOrders B h = Fulfilled os) ->
  exists w',
    processSplitPayment B orderId payments w = (w', Fulfilled tt) /\
    World.calls w'
    = (World.calls w
       ++ List.map (fun p => Call.createPayment (split_request orderId p))
            payments
       ++ [Call.updateOrderStatus orderId st_completed; Call.getOrders])%list /\
    List.length (List.filter is_createPayment (World.calls w'))
    = (List.length (List.filter is_createPayment (World.calls w))
       + List.length payments)%nat /\
    List.length (List.filter is_updateOrderStatus (World.calls w'))
    = S (List.length (List.filter is_updateOrderStatus (World.calls w))) /\
    List.length (List.filter is_getOrders (World.calls w'))
    = S (List.length (List.filter is_getOrders (World.calls w))).
Proof.
  intros Hon Hpay Hupd Hget.
  unfold processSplitPayment, try_catch, processSplitPayment_try,
    begin_loading_only, set_pos, modify, await, toast, bind.
  cbn. rewrite Hon. rewrite split_online_loop by exact Hpay. cbn.
  match goal with |- context [Services.updateOrderStatus B ?h _ _] =>
    destruct (Hupd h) as [o Ho]; rewrite Ho end.
  match goal with |- context [Services.getOrders B ?h] =>
    destruct (Hget h) as [os Hos]; rewrite Hos end.
  cbn.
  eexists. split; [reflexivity|]. cbn.
  assert (Hlog :
    (((World.calls w
      ++ List.map (fun p => Call.createPayment (split_request orderId p))
           payments)
     ++ [Call.updateOrderStatus orderId st_completed]) ++ [Call.getOrders]
    = World.calls w
      ++ List.map (fun p => Call.createPayment (split_request orderId p))
           payments
      ++ [Call.updateOrderStatus orderId st_completed; Call.getOrders])%list).
  { rewrite <- !app_assoc. reflexivity. }
  rewrite Hlog. split; [reflexivity|].
  rewrite !filter_app, !length_app. cbn.
  assert (Hc : forall l : list SplitPayment.t,
    List.filter is_createPayment
      (List.map (fun p => Call.createPayment (split_request orderId p)) l)
    = List.map (fun p => Call.createPayment (split_request orderId p)) l).
  { induction l; cbn; congruence. }
  assert (Hu : forall l : list SplitPayment.t,
    List.filter is_updateOrderStatus
      (List.map (fun p => Call.createPayment (split_request orderId p)) l)
    = []).
  { induction l; cbn; congruence. }
  assert (Hg : forall l : list SplitPayment.t,
    List.filter is_getOrders
      (List.map (fun p => Call.createPayment (split_request orderId p)) l)
    = []).
  { induction l; cbn; congruence. }
  rewrite Hc, Hu, Hg, length_map. cbn. repeat split; lia.
Qed.

(** Whatever the backend answers, the online loop sends its requests in
    list order and stops at the first one that is refused. *)
Lemma split_online_loop_prefix payments : forall w,
  exists made rest outcome,
    for_of payments (split_online_step B orderId) w
    = (World.set_calls (World.calls w ++ made) w, outcome) /\
    List.map (fun p => Call.createPayment (split_request orderId p)) payments
    = (made ++ rest)%list /\
    (outcome = Fulfilled tt -> rest = []).
Proof.
  induction payments as [|p ps IH]; intros w.
  - exists [], [], (Fulfilled tt). cbn.
    rewrite app_nil_r, set_calls_same. auto.
  - cbn [for_of]. unfold bind, split_online_step at 1, await.
    destruct (Services.createPayment B (World.calls w) (split_request orderId p))
      as [[]|e].
    + match goal with |- context [for_of ps _ ?w0] =>
        destruct (IH w0) as (made & rest & outcome & Hrun & Hsplit & Hdone) end.
      rewrite Hrun. cbn.
      exists (Call.createPayment (split_request orderId p) :: made), rest, outcome.
      rewrite set_calls_twice, <- app_assoc. cbn. rewrite Hsplit. auto.
    + exists [Call.createPayment (split_request orderId p)],
        (List.map (fun p => Call.createPayment (split_request orderId p)) ps),
        (Rejected e).
      cbn. repeat split. discriminate.
Qed.

(** So the requests an online split payment sends are always an initial
    segment of: one creation per sub-payment in list order, one status
    update, one refresh. *)
Lemma processSplitPayment_online_prefix payments w :
  POSState.isOffline (World.pos w) = false ->
  exists made rest,
    World.calls (fst (processSplitPayment B orderId payments w))
    = (World.calls w ++ made)%list /\
    (List.map (fun p => Call.createPayment (split_request orderId p)) payments
     ++ [Call.updateOrderStatus orderId st_completed; Call.getOrders])%list
    = (made ++ rest)%list.
Proof.
  intros Hon.
  unfold processSplitPayment, try_catch, processSplitPayment_try,
    begin_loading_only, set_pos, modify, await, toast, pos_rethrow, throw,
    bind.
  cbn. rewrite Hon.
  match goal with |- context [for_of payments _ ?w0] =>
    destruct (split_online_loop_prefix payments w0)
      as (made & rest & outcome & Hrun & Hsplit & Hdone) end.
  rewrite Hrun. cbn. destruct outcome as [[]|e]; cbn.
  - rewrite (Hdone eq_refl), app_nil_r in Hsplit. rewrite Hsplit.
    destruct (Services.updateOrderStatus B _ _ _) as [o|e]; cbn.
    + destruct (Services.getOrders B _) as [os|e]; cbn.
      * exists (made ++ [Call.updateOrderStatus orderId st_completed;
                         Call.getOrders])%list, [].
        rewrite app_nil_r, <- !app_assoc. cbn. auto.
      * exists (made ++ [Call.updateOrderStatus orderId st_completed;
                         Call.getOrders])%list, [].
        rewrite app_nil_r, <- !app_assoc. cbn. auto.
    + exists (made ++ [Call.updateOrderStatus orderId st_completed])%list,
        [Call.getOrders].
      rewrite <- !app_assoc. cbn. auto.
  - exists made,
      (rest ++ [Call.updateOrderStatus orderId st_completed; Call.getOrders])%list.
    rewrite Hsplit, <- app_assoc. auto.
Qed.

(** The offline loop leaves the [error] field of the POS store alone. *)
Lemma split_offline_loop_error payments : forall w,
  POSState.error (World.pos (fst (for_of payments (split_offline_step B orderId) w)))
  = POSState.error (World.pos w).
Proof.
  induction payments as [|p ps IH]; intros w; [reflexivity|].
  cbn [for_of]. unfold bind at 1.
  destruct (split_offline_step B orderId p w) as [w1 [[]|e]] eqn:Hstep.
  - rewrite IH. revert Hstep.
    unfold split_offline_step, storeOfflinePayment, addToQueue, new_Date,
      random_suffix, set_pos, modify, bind. cbn.
    destruct (Services.storeOfflinePayment B _ _) as [[]|e']; cbn;
      intros H; inversion H; reflexivity.
  - revert Hstep.
    unfold split_offline_step, storeOfflinePayment, addToQueue, new_Date,
      random_suffix, set_pos, modify, bind. cbn.
    destruct (Services.storeOfflinePayment B _ _) as [[]|e']; cbn;
      intros H; inversion H; reflexivity.
Qed.

End Payments.

Section StaleError.

Variable B : Services.t.

(** C9, where the code departs from it.  The six operations that start
    with [set({ isLoading: true })] alone ([addOrder], [updateOrderStatus],
    [processPayment], [processSplitPayment], [syncOfflineData],
    [syncOfflinePayments]) do not clear [error]: an error left by an earlier
    failure is there after their first step, and is still there when their
    [try] block has run to its end without any failure. *)
Theorem late_operations_keep_stale_error (w : World.t) (e : Error.t) :
  POSState.error (World.pos w) = Some e ->
  POSState.error (World.pos (fst (begin_loading_only w))) = Some e /\
  (forall order w1 r,
     addOrder_try B order w = (w1, Fulfilled r) ->
     POSState.error (World.pos w1) = Some e) /\
  (forall orderId status w1 r,
     updateOrderStatus_try B orderId status w = (w1, Fulfilled r) ->
     POSState.error (World.pos w1) = Some e) /\
  (forall orderId amount method details w1 r,
     processPayment_try B orderId amount method details w
     = (w1, Fulfilled r) ->
     POSState.error (World.pos w1) = Some e) /\
  (forall orderId payments w1 r,
     processSplitPayment_try B orderId payments w = (w1, Fulfilled r) ->
     POSState.error (World.pos w1) = Some e) /\
  (forall w1 r,
     syncOfflineData_try B w = (w1, Fulfilled r) ->
     POSState.error (World.pos w1) = Some e) /\
  (forall w1 r,
     syncOfflinePayments_try B w = (w1, Fulfilled r) ->
     POSState.error (World.pos w1) = Some e).
Proof.
  intros He. split; [exact He|].
  split; [|split; [|split; [|split; [|split]]]].
  - intros order w1 r.
    unfold addOrder_try, begin_loading_only, set_pos, modify, await, ret, bind.
    cbn. repeat answer; intros H; inversion H; subst; cbn; exact He.
  - intros orderId status w1 r.
    unfold updateOrderStatus_try, begin_loading_only, set_pos, modify, await,
      ret, bind.
    cbn. repeat answer; intros H; inversion H; subst; cbn; exact He.
  - intros orderId amount method details w1 r.
    unfold processPayment_try, begin_loading_only, set_pos, modify, get, bind.
    cbn. destruct (POSState.isOffline (World.pos w)).
    + unfold processPayment_offline, storeOfflinePayment, addToQueue,
        new_Date, random_suffix, set_pos, modify, get, bind. cbn.
      answer; [|intros H; inversion H].
      match goal with |- context [mark_paid B orderId ?os ?w0] =>
        destruct (mark_paid_spec B orderId os w0) as (n & orders' & Hrun & _) end.
      cbn in Hrun. rewrite Hrun. cbn.
      intros H; inversion H; subst; cbn; exact He.
    + unfold processPayment_online, set_pos, modify, await, bind. cbn.
      repeat answer; intros H; inversion H; subst; cbn; exact He.
  - intros orderId payments w1 r.
    unfold processSplitPayment_try, begin_loading_only, set_pos, modify, get,
      await, toast, bind.
    cbn. destruct (POSState.isOffline (World.pos w)).
    + match goal with |- context [for_of payments _ ?w0] =>
        pose proof (split_offline_loop_error B orderId payments w0) as Hloop;
        destruct (for_of payments (split_offline_step B orderId) w0)
          as [w2 [[]|e2]] end; cbn in Hloop |- *.
      * match goal with |- context [mark_paid B orderId ?os ?w0] =>
          destruct (mark_paid_spec B orderId os w0) as (n & orders' & Hrun & _) end.
        rewrite Hrun. cbn.
        intros H; inversion H; subst; cbn. rewrite Hloop. exact He.
      * intros H; inversion H.
    + match goal with |- context [for_of payments _ ?w0] =>
        destruct (split_online_loop_prefix B orderId payments w0)
          as (made & rest & outcome & Hrun & _ & _) end.
      rewrite Hrun. cbn. destruct outcome as [[]|e2]; cbn.
      * repeat answer; intros H; inversion H; subst; cbn; exact He.
      * intros H; inversion H.
  - intros w1 r.
    unfold syncOfflineData_try, begin_loading_only, set_pos, modify, await,
      ret, bind.
    cbn. repeat answer; intros H; inversion H; subst; cbn; exact He.
  - intros w1 r.
    unfold syncOfflinePayments_try, begin_loading_only, set_pos, modify, await,
      ret, bind.
    cbn. repeat answer; intros H; inversion H; subst; cbn; exact He.
Qed.

End StaleError.

(* ===================================================================== *)
(** * Stock *)

Section Stock.

Variable B : Services.t.

(** An item of a list whose id is borne by no other item is the one a
    lookup by that id finds. *)
Lemma find_by_own_id (items : list MenuItem.t) (item : MenuItem.t) :
  List.In item items ->
  (forall other,
     List.In other items -> MenuItem.id other = MenuItem.id item ->
     other = item) ->
  List.find (fun i => String.eqb (MenuItem.id i) (MenuItem.id item)) items
  = Some item.
Proof.
  induction items as [|x rest IH]; intros Hin Huniq.
  - destruct Hin.
  - cbn. destruct (String.eqb_spec (MenuItem.id x) (MenuItem.id item)) as [Heq|Hne].
    + f_equal. apply Huniq; [left; reflexivity|exact Heq].
    + destruct Hin as [->|Hin]; [contradiction Hne; reflexivity|].
      apply IH; [exact Hin|]. intros other Ho. apply Huniq. right. exact Ho.
Qed.

Lemma truthy_id (id : string) : id <> "" -> truthy (Some id) = true.
Proof.
  intros H. cbn. destruct (String.eqb_spec id ""); [contradiction|reflexivity].
Qed.

(** C2.  For an item of the cached menu with current stock [s], and a
    signed-in user, [recordWaste] asks the backend for exactly one thing:
    to set the stock to [max(0, s - q)], which is never negative, and to
    record a ['waste'] transaction with quantity change [-q].  (For
    [s = 5] and [q = 8]: stock [0], change [-8].) *)
Theorem recordWaste_clamps_at_zero (quantity : number) (notes reason : option string)
    (w : World.t) (item : MenuItem.t) (s : number) (user : User.t) :
  List.In item (POSState.menuItems (World.pos w)) ->
  (forall other,
     List.In other (POSState.menuItems (World.pos w)) ->
     MenuItem.id other = MenuItem.id item -> other = item) ->
  MenuItem.currentStock item = Some s ->
  AuthState.user (World.auth w) = Some user ->
  User.id user <> "" ->
  World.calls (fst (recordWaste B (MenuItem.id item) quantity notes reason w))
  = (World.calls w
     ++ [Call.updateMenuItemStock (MenuItem.id item) (Z.max 0 (s - quantity))
           tx_waste (- quantity) (User.id user) notes reason])%list /\
  0 <= Z.max 0 (s - quantity).
Proof.
  intros Hin Huniq Hstock Huser Hid. split; [|lia].
  unfold recordWaste, try_catch, recordWaste_try, begin_loading, find_menuItem,
    current_userId, persist_stock, pos_rethrow, set_pos, modify, get, await,
    throw, ret, js_find, bind.
  cbn. rewrite (find_by_own_id _ _ Hin Huniq). cbn.
  rewrite Huser. cbn [option_map]. rewrite (truthy_id _ Hid). cbn.
  rewrite Hstock. cbn [or_zero].
  unfold or_string. rewrite (truthy_id _ Hid).
  destruct (Services.updateMenuItemStock B _ _ _ _ _ _ _ _); reflexivity.
Qed.

End Stock.

(* ===================================================================== *)
(** * Fetching locations *)

Lemma insert_sorted_In column row rows x :
  List.In x (insert_sorted column row rows) <-> x = row \/ List.In x rows.
Proof.
  induction rows as [|r rest IH]; cbn.
  - intuition congruence.
  - destruct (String.leb _ _); cbn; [intuition congruence|].
    rewrite IH. intuition congruence.
Qed.

Lemma sort_by_In column rows x :
  List.In x (sort_by column rows) <-> List.In x rows.
Proof.
  unfold sort_by. induction rows as [|r rest IH]; cbn; [tauto|].
  rewrite insert_sorted_In, IH. intuition congruence.
Qed.

(** The rows a request selects are the rows of the table that pass all of
    its filters. *)
Lemma select_rows_In table q row :
  List.In row (select_rows table q) <->
  List.In row table /\
  List.forallb (fun f => passes f row) (Query.filters q) = true.
Proof.
  unfold select_rows. destruct (Query.ordering q).
  - rewrite sort_by_In. apply filter_In.
  - apply filter_In.
Qed.

Lemma insert_sorted_HdRel column x row rows :
  ascending column x row ->
  HdRel (ascending column) x rows ->
  HdRel (ascending column) x (insert_sorted column row rows).
Proof.
  intros Hx Hrows. destruct rows as [|r rest]; cbn.
  - constructor. exact Hx.
  - destruct (String.leb _ _); constructor; [exact Hx|].
    inversion Hrows; assumption.
Qed.

Lemma insert_sorted_Sorted column row rows :
  Sorted (ascending column) rows ->
  Sorted (ascending column) (insert_sorted column row rows).
Proof.
  induction rows as [|r rest IH]; intros Hs; cbn.
  - repeat constructor.
  - destruct (String.leb (sort_key column row) (sort_key column r)) eqn:Hle.
    + constructor; [exact Hs|]. constructor. exact Hle.
    + inversion Hs as [|? ? Hrest Hhd]; subst.
      constructor; [apply IH; exact Hrest|].
      apply insert_sorted_HdRel; [|exact Hhd].
      unfold ascending.
      destruct (String.leb_total (sort_key column row) (sort_key column r))
        as [H|H]; [congruence|exact H].
Qed.

(** An ordered request is answered in ascending order of its column. *)
Lemma select_rows_Sorted table q column :
  Query.ordering q = Some column ->
  Sorted (ascending column) (select_rows table q).
Proof.
  intros Hq. unfold select_rows. rewrite Hq. unfold sort_by.
  induction (List.filter _ table) as [|r rest IH]; cbn.
  - constructor.
  - apply insert_sorted_Sorted. exact IH.
Qed.

(** Every request [fetchLocations] sends is ordered by name. *)
Lemma fetchLocations_query_ordering user :
  Query.ordering (fetchLocations_query user) = Some "name".
Proof.
  unfold fetchLocations_query.
  destruct (negb _ && negb _); [reflexivity|].
  destruct (UserRole_eqb _ _), (User.managedRestaurantIds user); reflexivity.
Qed.

Section Fetch.

Variable B : Services.t.
Variable table : list LocationRow.t.

(** A successful fetch stores the selected rows, mapped field by field. *)
Lemma fetchLocations_stores w user :
  answers_from B table ->
  AuthState.user (World.auth w) = Some user ->
  LocationState.locations (World.location (fst (fetchLocations B w)))
  = List.map (toLocation B) (select_rows table (fetchLocations_query user)).
Proof.
  intros relational Huser.
  unfold fetchLocations, try_catch, fetchLocations_try, set_location, modify,
    get, await_response, data_or_throw, bind.
  cbn. rewrite Huser. cbn. rewrite relational. cbn.
  unfold select_after_fetch, set_location, modify, ret.
  repeat match goal with
         | |- context [match ?x with Some _ => _ | None => _ end] =>
             destruct x; cbn
         | |- context [if ?c then _ else _] => destruct c; cbn
         end; reflexivity.
Qed.

(** C4.  With the backend answering relationally over [table]: for a
    caller who is neither super-admin nor sub-super-admin every fetched
    location carries the caller's restaurant id; for a sub-super-admin with
    a set of managed restaurant ids the fetched locations are exactly the
    rows of the table whose restaurant id is in that set. *)
Theorem fetchLocations_respects_role w user :
  answers_from B table ->
  AuthState.user (World.auth w) = Some user ->
  let fetched :=
    LocationState.locations (World.location (fst (fetchLocations B w))) in
  (User.role user <> super_admin ->
   User.role user <> sub_super_admin ->
   forall loc,
     List.In loc fetched ->
     RestaurantLocation.restaurant_id loc = User.restaurantId user) /\
  (User.role user = sub_super_admin ->
   forall ids,
     User.managedRestaurantIds user = Some ids ->
     forall loc,
       List.In loc fetched <->
       exists row rid,
         List.In row table /\
         LocationRow.restaurant_id row = Some rid /\
         List.In rid ids /\
         loc = toLocation B row).
Proof.
  intros relational Huser fetched. subst fetched.
  rewrite (fetchLocations_stores w user relational Huser). split.
  - intros Hsa Hssa loc Hin.
    apply in_map_iff in Hin. destruct Hin as (row & <- & Hrow).
    apply select_rows_In in Hrow. destruct Hrow as [_ Hpass].
    unfold fetchLocations_query in Hpass.
    destruct (User.role user); try contradiction; cbn in Hpass;
      destruct (User.restaurantId user) as [r|]; try discriminate;
      destruct (LocationRow.restaurant_id row) as [x|] eqn:Hx;
      try discriminate; cbn; rewrite Hx;
      rewrite andb_true_r in Hpass; apply String.eqb_eq in Hpass;
      congruence.
  - intros Hrole ids Hids loc.
    rewrite in_map_iff. unfold fetchLocations_query. rewrite Hrole, Hids.
    cbn [UserRole_eqb negb andb].
    split.
    + intros (row & <- & Hrow). apply select_rows_In in Hrow.
      destruct Hrow as [Hin Hpass]. cbn in Hpass.
      rewrite andb_true_r in Hpass.
      destruct (LocationRow.restaurant_id row) as [x|] eqn:Hx;
        [|discriminate].
      apply existsb_exists in Hpass. destruct Hpass as (rid & Hrid & Heq).
      apply String.eqb_eq in Heq. subst x.
      exists row, rid. auto.
    + intros (row & rid & Hin & Hx & Hrid & ->).
      exists row. split; [reflexivity|]. apply select_rows_In.
      split; [exact Hin|]. cbn. rewrite Hx, andb_true_r.
      apply existsb_exists. exists rid. split; [exact Hrid|].
      apply String.eqb_refl.
Qed.

(** [select_after_fetch] selects the preferred location when there is one
    and does nothing when there is none. *)
Lemma select_after_fetch_spec user locations w :
  select_after_fetch user locations w
  = (match preferred_location user locations with
     | Some l =>
         World.set_location
           (LocationState.set_selectedLocation (Some l) (World.location w)) w
     | None => w
     end, Fulfilled tt).
Proof.
  unfold select_after_fetch, preferred_location, js_find, truthy.
  destruct (User.defaultLocationId user) as [d|]; cbn.
  - destruct (String.eqb d ""); cbn.
    + destruct (List.find RestaurantLocation.isActive locations); cbn;
        [reflexivity|].
      destruct locations; reflexivity.
    + destruct (List.find _ locations); cbn; [reflexivity|].
      destruct (List.find RestaurantLocation.isActive locations); cbn;
        [reflexivity|].
      destruct locations; reflexivity.
  - destruct (List.find RestaurantLocation.isActive locations); cbn;
      [reflexivity|].
    destruct locations; reflexivity.
Qed.

(** After a successful fetch the selection is the preferred one of the
    fetched locations, or, when nothing was fetched, what it was before. *)
Lemma fetchLocations_selection w user :
  answers_from B table ->
  AuthState.user (World.auth w) = Some user ->
  let after := World.location (fst (fetchLocations B w)) in
  LocationState.selectedLocation after
  = match preferred_location user (LocationState.locations after) with
    | Some l => Some l
    | None => LocationState.selectedLocation (World.location w)
    end.
Proof.
  intros relational Huser after. subst after.
  rewrite (fetchLocations_stores w user relational Huser).
  unfold fetchLocations, try_catch, fetchLocations_try, set_location, modify,
    get, await_response, data_or_throw, bind.
  cbn. rewrite Huser. cbn. rewrite relational. cbn.
  rewrite select_after_fetch_spec.
  destruct (preferred_location user _); reflexivity.
Qed.

End Fetch.

(** C5, where the code departs from it.  When the fetch succeeds with no
    location at all, [fetchLocations] leaves the selection as it found it:
    a location selected earlier stays selected although it is not among
    the (empty) fetched list. *)
Theorem fetchLocations_keeps_stale_selection B w user stale :
  answers_from B [] ->
  AuthState.user (World.auth w) = Some user ->
  LocationState.selectedLocation (World.location w) = Some stale ->
  exists w',
    fetchLocations B w = (w', Fulfilled tt) /\
    LocationState.error (World.location w') = None /\
    LocationState.locations (World.location w') = [] /\
    LocationState.selectedLocation (World.location w') = Some stale.
Proof.
  intros Hrel Huser Hsel.
  unfold fetchLocations, try_catch, fetchLocations_try, set_location, modify,
    get, await_response, data_or_throw, bind.
  cbn. rewrite Huser. cbn. rewrite Hrel. cbn.
  assert (Hnone : select_rows [] (fetchLocations_query user) = []).
  { unfold select_rows. cbn. destruct (Query.ordering _); reflexivity. }
  rewrite Hnone. cbn. rewrite select_after_fetch_spec.
  assert (Hpref : preferred_location user [] = None).
  { unfold preferred_location. cbn.
    destruct (User.defaultLocationId user) as [d|]; [|reflexivity].
    destruct (String.eqb d ""); reflexivity. }
  rewrite Hpref. eexists. split; [reflexivity|]. cbn. auto.
Qed.

(* ===================================================================== *)
(** * Replacing by id *)

Lemma replaced_by_id_map {A} (key : A -> string) target updated (l : list A) :
  replaced_by_id key target updated l
    (List.map (fun x => if String.eqb (key x) target then updated else x) l).
Proof.
  unfold replaced_by_id. split; [apply length_map|]. split.
  - intros i x Hx. rewrite nth_error_map, Hx. reflexivity.
  - intros Hnone. induction l as [|x rest IH]; [reflexivity|].
    cbn. destruct (String.eqb_spec (key x) target) as [Heq|_].
    + exfalso. apply (Hnone x); [left; reflexivity|exact Heq].
    + f_equal. apply IH. intros y Hy. apply Hnone. right. exact Hy.
Qed.

Section ReplaceById.

Variable B : Services.t.

(** C10.  After a successful backend call each of the four replace-by-id
    updates leaves its collection at the same length, with every element
    whose id is the target replaced by the returned record and every
    other element as it was; with no such element the collection is
    unchanged, the returned record not being inserted. *)
Theorem updates_replace_by_id (w : World.t) :
  (forall menuItemId updates updatedItem,
     Services.updateMenuItem B (World.calls w) menuItemId updates
     = Fulfilled updatedItem ->
     exists w',
       updateMenuItem B menuItemId updates w = (w', Fulfilled updatedItem) /\
       replaced_by_id MenuItem.id menuItemId updatedItem
         (POSState.menuItems (World.pos w))
         (POSState.menuItems (World.pos w'))) /\
  (forall orderId status updatedOrder,
     Services.updateOrderStatus B (World.calls w) orderId status
     = Fulfilled updatedOrder ->
     exists w',
       updateOrderStatus B orderId status w = (w', Fulfilled updatedOrder) /\
       replaced_by_id Order.id orderId updatedOrder
         (POSState.orders (World.pos w))
         (POSState.orders (World.pos w'))) /\
  (forall userId updates updatedStaffMember,
     Services.updateStaffMember B (World.calls w) userId updates
     = Fulfilled updatedStaffMember ->
     exists w',
       updateStaffMember B userId updates w = (w', Fulfilled tt) /\
       replaced_by_id User.id userId updatedStaffMember
         (StaffState.staffMembers (World.staff w))
         (StaffState.staffMembers (World.staff w'))) /\
  (forall id updates data,
     Services.location B (World.calls w)
       (updateLocation_request B id updates (Services.now B (World.ticks w)))
     = Data data ->
     exists w',
       updateLocation B id updates w = (w', Fulfilled (toLocation B data)) /\
       replaced_by_id RestaurantLocation.id id (toLocation B data)
         (LocationState.locations (World.location w))
         (LocationState.locations (World.location w'))).
Proof.
  repeat split.
  - intros menuItemId updates updatedItem Hok.
    unfold updateMenuItem, try_catch, updateMenuItem_try, begin_loading,
      set_pos, modify, await, ret, bind.
    cbn. rewrite Hok. cbn. eexists. split; [reflexivity|]. cbn.
    apply replaced_by_id_map.
  - intros orderId status updatedOrder Hok.
    unfold updateOrderStatus, try_catch, updateOrderStatus_try,
      begin_loading_only, set_pos, modify, await, ret, bind.
    cbn. rewrite Hok. cbn. eexists. split; [reflexivity|]. cbn.
    apply replaced_by_id_map.
  - intros userId updates updatedStaffMember Hok.
    unfold updateStaffMember, try_catch, updateStaffMember_try, set_staff,
      modify, await, toast, ret, bind.
    cbn. rewrite Hok. cbn. eexists. split; [reflexivity|]. cbn.
    apply replaced_by_id_map.
  - intros id updates data Hok.
    unfold updateLocation, try_catch, updateLocation_try, set_location,
      modify, await_response, data_or_throw, new_Date, toast, ret, bind.
    cbn. rewrite Hok. cbn. eexists. split; [reflexivity|]. cbn.
    apply replaced_by_id_map.
Qed.

End ReplaceById.

(* ===================================================================== *)
(** * What happens to a failure *)

Section Failures.

Variable B : Services.t.

(** An operation of the POS store whose [catch] block is
    [set({ error, isLoading: false }); throw error]. *)
Lemma pos_rethrow_policy {A} (body : M A) :
  follows record_and_rethrow pos_error pos_loading body
    (try_catch body pos_rethrow).
Proof.
  intros w w1 e Hbody. rewrite (try_catch_rejected _ _ _ _ _ Hbody).
  do 2 eexists. split; [reflexivity|]. cbn. rewrite app_nil_r. auto.
Qed.

(** An operation of the location store whose [catch] block reports and
    throws again. *)
Lemma location_rethrow_policy {A} (text : string) (body : M A) :
  follows (report_and_rethrow text) location_error location_loading body
    (try_catch body (fun error => location_report text error ;; throw error)).
Proof.
  intros w w1 e Hbody. rewrite (try_catch_rejected _ _ _ _ _ Hbody).
  do 2 eexists. split; [reflexivity|]. cbn. auto.
Qed.

(** An operation of the staff store: its [catch] block reports and ends. *)
Lemma staff_swallow_policy (text : string) (body : M unit) :
  follows (report_and_swallow (fun _ => text)) staff_error staff_loading body
    (try_catch body (staff_report text)).
Proof.
  intros w w1 e Hbody. rewrite (try_catch_rejected _ _ _ _ _ Hbody).
  do 2 eexists. split; [reflexivity|]. cbn. eauto.
Qed.

(** The [catch] block of [fetchLocations] reports and ends. *)
Lemma location_swallow_policy (text : string) (body : M unit) :
  follows (report_and_swallow (fun _ => text)) location_error location_loading
    body (try_catch body (location_report text)).
Proof.
  intros w w1 e Hbody. rewrite (try_catch_rejected _ _ _ _ _ Hbody).
  do 2 eexists. split; [reflexivity|]. cbn. eauto.
Qed.

(** The [catch] block of [signUp]. *)
Lemma signUp_policy (body : M unit) :
  follows
    (report_and_swallow (fun error =>
       if Error.instanceofError error then Error.message error
       else "Failed to create account"))
    auth_error auth_loading body (try_catch body signUp_catch).
Proof.
  intros w w1 e Hbody. rewrite (try_catch_rejected _ _ _ _ _ Hbody).
  do 2 eexists. split; [reflexivity|]. cbn. eauto.
Qed.

(** The [catch] block of [updateUserRole] and [updateUserLanguage]. *)
Lemma common_error_policy (body : M unit) :
  follows (report_and_swallow (fun _ => Services.translate B "common.error"))
    auth_error auth_loading body (try_catch body (common_error_catch B)).
Proof.
  intros w w1 e Hbody. rewrite (try_catch_rejected _ _ _ _ _ Hbody).
  do 2 eexists. split; [reflexivity|]. cbn. eauto.
Qed.

(** The [catch] block of [initialize]. *)
Lemma initialize_policy :
  follows record_and_swallow pos_error pos_loading
    (initialize_try B) (initialize B).
Proof.
  intros w w1 e Hbody. unfold initialize.
  rewrite (try_catch_rejected _ _ _ _ _ Hbody).
  do 2 eexists. split; [reflexivity|]. cbn. rewrite app_nil_r. eauto.
Qed.

(** The [catch] block of the two sync operations. *)
Lemma sync_policy (body : M SyncResult) :
  follows record_and_swallow pos_error pos_loading body
    (try_catch body sync_catch).
Proof.
  intros w w1 e Hbody. rewrite (try_catch_rejected _ _ _ _ _ Hbody).
  do 2 eexists. split; [reflexivity|]. cbn. rewrite app_nil_r. eauto.
Qed.

(** C7, as the code has it.  When the [try] block of an operation fails
    (its backend call, or a precondition), every operation records the
    failure in its store and stops loading, and then:
    - the location store's create, update, delete and toggle show a
      notification and throw the failure again;
    - the POS store's create, update, delete, stock, order and payment
      operations throw the failure again, their [catch] block showing no
      notification;
    - the staff store's create, update and delete show a notification and
      do not throw again, and neither do the auth store's sign-up, role
      update and language update;
    - the read operations ([fetchStaffMembers], [fetchLocations],
      [initialize]) and the two sync operations do not throw again. *)
Theorem failure_policies :
  (* location store *)
  (forall l, follows (report_and_rethrow "Failed to create location")
     location_error location_loading
     (createLocation_try B l) (createLocation B l)) /\
  (forall id u, follows (report_and_rethrow "Failed to update location")
     location_error location_loading
     (updateLocation_try B id u) (updateLocation B id u)) /\
  (forall id, follows (report_and_rethrow "Failed to delete location")
     location_error location_loading
     (deleteLocation_try B id) (deleteLocation B id)) /\
  (forall id, follows (report_and_rethrow "Failed to update location status")
     location_error location_loading
     (toggleLocationStatus_try B id) (toggleLocationStatus B id)) /\
  (* POS store *)
  (forall m, follows record_and_rethrow pos_error pos_loading
     (createMenuItem_try B m) (createMenuItem B m)) /\
  (forall id u, follows record_and_rethrow pos_error pos_loading
     (updateMenuItem_try B id u) (updateMenuItem B id u)) /\
  (forall id, follows record_and_rethrow pos_error pos_loading
     (deleteMenuItem_try B id) (deleteMenuItem B id)) /\
  (forall id q n, follows record_and_rethrow pos_error pos_loading
     (restockMenuItem_try B id q n) (restockMenuItem B id q n)) /\
  (forall id s n, follows record_and_rethrow pos_error pos_loading
     (adjustMenuItemStock_try B id s n) (adjustMenuItemStock B id s n)) /\
  (forall id q n r, follows record_and_rethrow pos_error pos_loading
     (recordWaste_try B id q n r) (recordWaste B id q n r)) /\
  (forall o, follows record_and_rethrow pos_error pos_loading
     (addOrder_try B o) (addOrder B o)) /\
  (forall id s, follows record_and_rethrow pos_error pos_loading
     (updateOrderStatus_try B id s) (updateOrderStatus B id s)) /\
  (forall id a m d, follows record_and_rethrow pos_error pos_loading
     (processPayment_try B id a m d) (processPayment B id a m d)) /\
  (forall id ps, follows record_and_rethrow pos_error pos_loading
     (processSplitPayment_try B id ps) (processSplitPayment B id ps)) /\
  (* staff store *)
  (forall e p pr,
     follows (report_and_swallow (fun _ => "Failed to create staff member"))
       staff_error staff_loading
       (createStaffMember_try B e p pr) (createStaffMember B e p pr)) /\
  (forall id u,
     follows (report_and_swallow (fun _ => "Failed to update staff member"))
       staff_error staff_loading
       (updateStaffMember_try B id u) (updateStaffMember B id u)) /\
  (forall id,
     follows (report_and_swallow (fun _ => "Failed to delete staff member"))
       staff_error staff_loading
       (deleteStaffMember_try B id) (deleteStaffMember B id)) /\
  (* auth store *)
  (forall e p n r,
     follows
       (report_and_swallow (fun error =>
          if Error.instanceofError error then Error.message error
          else "Failed to create account"))
       auth_error auth_loading (signUp_try B e p n r) (signUp B e p n r)) /\
  (forall id r,
     follows (report_and_swallow (fun _ => Services.translate B "common.error"))
       auth_error auth_loading
       (updateUserRole_try B id r) (updateUserRole B id r)) /\
  (forall l,
     follows (report_and_swallow (fun _ => Services.translate B "common.error"))
       auth_error auth_loading
       (updateUserLanguage_try B l) (updateUserLanguage B l)) /\
  (* reads and syncs *)
  follows (report_and_swallow (fun _ => "Failed to fetch staff members"))
    staff_error staff_loading (fetchStaffMembers_try B) (fetchStaffMembers B) /\
  follows (report_and_swallow (fun _ => "Failed to fetch locations"))
    location_error location_loading (fetchLocations_try B) (fetchLocations B) /\
  follows record_and_swallow pos_error pos_loading
    (initialize_try B) (initialize B) /\
  follows record_and_swallow pos_error pos_loading
    (syncOfflineData_try B) (syncOfflineData B) /\
  follows record_and_swallow pos_error pos_loading
    (syncOfflinePayments_try B) (syncOfflinePayments B).
Proof.
  repeat match goal with |- _ /\ _ => split end; intros;
    first
      [ exact (location_rethrow_policy _ _)
      | exact (pos_rethrow_policy _)
      | exact (staff_swallow_policy _ _)
      | exact (location_swallow_policy _ _)
      | exact (signUp_policy _)
      | exact (common_error_policy _)
      | exact initialize_policy
      | exact (sync_policy _) ].
Qed.

End Failures.

(* ===================================================================== *)
(** * The theorems at work on the sample shop *)

(** An offline cash payment of order-1: one record stored, one operation
    queued, nothing sent. *)
Lemma processPayment_offline_effects_witness :
  POSState.isOffline (World.pos (Sample.shop true None)) = true /\
  (forall p,
     Services.storeOfflinePayment Sample.healthy
       (World.localPayments (Sample.shop true None)) p = Fulfilled tt) /\
  exists w',
    processPayment Sample.healthy "order-1" 1000 "cash" None
      (Sample.shop true None) = (w', Fulfilled tt) /\
    List.length (World.localPayments w') = 1%nat /\
    List.length (World.offlineQueue w') = 1%nat /\
    World.calls w' = [].
Proof.
  split; [reflexivity|]. split; [intros p; reflexivity|].
  destruct
    (processPayment_offline_effects Sample.healthy "order-1" 1000 "cash" None
       (Sample.shop true None) eq_refl (fun p => eq_refl))
    as (w' & payment & queued & Hrun & Hlocal & _ & _ & _ & _ & _ & Hcalls
        & Hqueue & _).
  exists w'. split; [exact Hrun|].
  rewrite Hlocal, Hqueue, Hcalls. repeat split.
Defined.

(** Waste of 8 on a stock of 5: stock 0, change -8. *)
Lemma recordWaste_clamps_at_zero_witness :
  MenuItem.currentStock Sample.soup = Some 5 /\
  AuthState.user (World.auth (Sample.shop false None)) = Some Sample.ana /\
  World.calls
    (fst (recordWaste Sample.healthy "item-1" 8 None None
            (Sample.shop false None)))
  = [Call.updateMenuItemStock "item-1" 0 tx_waste (-8) "user-1" None None].
Proof.
  split; [reflexivity|]. split; [reflexivity|].
  refine
    (proj1
       (recordWaste_clamps_at_zero Sample.healthy 8 None None
          (Sample.shop false None) Sample.soup 5 Sample.ana _ _ eq_refl
          eq_refl _)).
  - left. reflexivity.
  - intros other [<-|[<-|[]]] Hid; [reflexivity|discriminate Hid].
  - discriminate.
Defined.

(** A split into cash and card, online: two creations, one update, one
    refresh. *)
Lemma processSplitPayment_online_calls_witness :
  POSState.isOffline (World.pos (Sample.shop false None)) = false /\
  exists w',
    processSplitPayment Sample.healthy "order-1" [Sample.cash; Sample.card]
      (Sample.shop false None) = (w', Fulfilled tt) /\
    World.calls w'
    = [Call.createPayment (split_request "order-1" Sample.cash);
       Call.createPayment (split_request "order-1" Sample.card);
       Call.updateOrderStatus "order-1" st_completed;
       Call.getOrders].
Proof.
  split; [reflexivity|].
  destruct
    (processSplitPayment_online_calls Sample.healthy "order-1"
       [Sample.cash; Sample.card] (Sample.shop false None) eq_refl
       (fun h p => eq_refl)
       (fun h => ex_intro _ (Sample.order "order-1") eq_refl)
       (fun h => ex_intro _ [Sample.order "order-1"] eq_refl))
    as (w' & Hrun & Hcalls & _).
  exists w'. split; [exact Hrun|exact Hcalls].
Defined.

Lemma healthy_is_relational : answers_from Sample.healthy Sample.table.
Proof. intros h q. reflexivity. Defined.

(** A cashier of rest-A fetches only rest-A's locations; a sub-super-admin
    managing rest-B and rest-C fetches exactly rest-B's one. *)
Lemma fetchLocations_respects_role_witness :
  answers_from Sample.healthy Sample.table /\
  (forall loc,
     List.In loc
       (LocationState.locations
          (World.location
             (fst (fetchLocations Sample.healthy (Sample.signed_in Sample.ana)))))
     ->
     RestaurantLocation.restaurant_id loc = Some "rest-A") /\
  List.In (toLocation Sample.healthy Sample.harbour)
    (LocationState.locations
       (World.location
          (fst (fetchLocations Sample.healthy
                  (Sample.signed_in Sample.regional))))).
Proof.
  split; [exact healthy_is_relational|]. split.
  - apply
      (proj1
         (fetchLocations_respects_role Sample.healthy Sample.table
            (Sample.signed_in Sample.ana) Sample.ana healthy_is_relational
            eq_refl));
      discriminate.
  - apply
      (proj2
         (fetchLocations_respects_role Sample.healthy Sample.table
            (Sample.signed_in Sample.regional) Sample.regional
            healthy_is_relational eq_refl)
         eq_refl ["rest-B"; "rest-C"] eq_refl).
    exists Sample.harbour, "rest-B". cbn. auto 6.
Defined.

(** An empty fetch leaves the location selected earlier in place. *)
Lemma fetchLocations_keeps_stale_selection_witness :
  answers_from Sample.no_locations [] /\
  exists w' stale,
    fetchLocations Sample.no_locations Sample.revisiting = (w', Fulfilled tt) /\
    LocationState.locations (World.location w') = [] /\
    LocationState.selectedLocation (World.location w') = Some stale.
Proof.
  split; [intros h q; reflexivity|].
  destruct
    (fetchLocations_keeps_stale_selection Sample.no_locations
       Sample.revisiting Sample.ana _ (fun h q => eq_refl) eq_refl eq_refl)
    as (w' & Hrun & _ & Hnone & Hsel).
  eexists w', _. split; [exact Hrun|]. split; [exact Hnone|exact Hsel].
Defined.

(** A signed-in user whose new sign-in is refused ends signed out. *)
Lemma signIn_failure_signs_out_witness :
  AuthState.user (World.auth (Sample.signed_in Sample.ana)) = Some Sample.ana /\
  snd (signIn_try Sample.down "ana@example.com" "wrong"
         (Sample.signed_in Sample.ana))
  = Rejected Sample.boom /\
  exists w2,
    signIn Sample.down "ana@example.com" "wrong" (Sample.signed_in Sample.ana)
    = (w2, Fulfilled tt) /\
    AuthState.isAuthenticated (World.auth w2) = false /\
    AuthState.user (World.auth w2) = None.
Proof.
  split; [reflexivity|]. split; [reflexivity|].
  destruct
    (signIn_failure_signs_out Sample.down "ana@example.com" "wrong"
       (Sample.signed_in Sample.ana)
       (fst (signIn_try Sample.down "ana@example.com" "wrong"
               (Sample.signed_in Sample.ana)))
       Sample.boom eq_refl)
    as (w2 & Hrun & Hauth & Huser & _).
  exists w2. auto.
Defined.

(** The last-login update fails; the sign-in stands. *)
Lemma signIn_ignores_lastLogin_failure_witness :
  Services.execute Sample.update_fails
    [Call.signInWithPassword "ana@example.com" "pw";
     Call.request (profile_request "user-1")]
    (lastLogin_request Sample.update_fails
       (compose_user Sample.update_fails
          (AuthUser.mk "user-1" "ana@example.com") Sample.profileRow)
       (Services.now Sample.update_fails 0))
  = Failure Sample.plain_failure /\
  exists w2,
    signIn Sample.update_fails "ana@example.com" "pw" World.initial
    = (w2, Fulfilled tt) /\
    AuthState.isAuthenticated (World.auth w2) = true /\
    AuthState.error (World.auth w2) = None.
Proof.
  split; [reflexivity|].
  destruct
    (signIn_ignores_lastLogin_failure Sample.update_fails "ana@example.com"
       "pw" World.initial (AuthUser.mk "user-1" "ana@example.com")
       Sample.profileRow Sample.plain_failure eq_refl eq_refl eq_refl)
    as (w2 & Hrun & _ & Hauth & Herr & _).
  exists w2. auto.
Defined.

(** An error left by an earlier failure is still shown after an order has
    been added without any failure. *)
Lemma late_operations_keep_stale_error_witness :
  POSState.error (World.pos (Sample.shop false (Some Sample.boom)))
  = Some Sample.boom /\
  snd (addOrder Sample.healthy Sample.draft
         (Sample.shop false (Some Sample.boom)))
  = Fulfilled (Sample.order "order-9") /\
  POSState.error
    (World.pos
       (fst (addOrder Sample.healthy Sample.draft
               (Sample.shop false (Some Sample.boom)))))
  = Some Sample.boom.
Proof.
  split; [reflexivity|]. split; [reflexivity|].
  exact
    (proj1
       (proj2
          (late_operations_keep_stale_error Sample.healthy
             (Sample.shop false (Some Sample.boom)) Sample.boom eq_refl))
       Sample.draft _ _ eq_refl).
Defined.

(** Replacing order-2 in the sample shop, and an order that is not there. *)
Lemma updates_replace_by_id_witness :
  (exists w',
     updateOrderStatus Sample.healthy "order-2" st_ready
       (Sample.shop false None)
     = (w', Fulfilled (Sample.order "order-2")) /\
     List.length (POSState.orders (World.pos w')) = 2%nat) /\
  (exists w',
     updateOrderStatus Sample.healthy "order-7" st_ready
       (Sample.shop false None)
     = (w', Fulfilled (Sample.order "order-7")) /\
     POSState.orders (World.pos w')
     = POSState.orders (World.pos (Sample.shop false None))).
Proof.
  split.
  - destruct
      (proj1 (proj2 (updates_replace_by_id Sample.healthy (Sample.shop false None)))
         "order-2" st_ready (Sample.order "order-2") eq_refl)
      as (w' & Hrun & Hlen & _).
    exists w'. split; [exact Hrun|exact Hlen].
  - destruct
      (proj1 (proj2 (updates_replace_by_id Sample.healthy (Sample.shop false None)))
         "order-7" st_ready (Sample.order "order-7") eq_refl)
      as (w' & Hrun & _ & _ & Hsame).
    exists w'. split; [exact Hrun|]. apply Hsame.
    intros x [<-|[<-|[]]]; discriminate.
Defined.

(** With the backend down, creating a location fails loudly and creating a
    staff member fails quietly. *)
Lemma failure_policies_witness :
  (exists w2,
     createLocation Sample.down Sample.newLocation (Sample.signed_in Sample.ana)
     = (w2, Rejected Sample.boom) /\
     location_error w2 = Some Sample.boom) /\
  (exists w2,
     createStaffMember Sample.down "new@example.com" "pw" Sample.profile
       World.initial
     = (w2, Fulfilled tt) /\
     staff_error w2 = Some Sample.boom).
Proof.
  split.
  - destruct
      (proj1 (failure_policies Sample.down) Sample.newLocation
         (Sample.signed_in Sample.ana)
         (fst (createLocation_try Sample.down Sample.newLocation
                 (Sample.signed_in Sample.ana)))
         Sample.boom eq_refl)
      as (w2 & outcome & Hrun & Hrec & _ & Hre).
    cbn in Hre. subst outcome. exists w2. split; [exact Hrun|].
    exact (proj1 (Hrec eq_refl)).
  - destruct (failure_policies Sample.down)
      as (_ & _ & _ & _ & _ & _ & _ & _ & _ & _ & _ & _ & _ & _ & Hstaff & _).
    destruct
      (Hstaff "new@example.com" "pw" Sample.profile World.initial
         (fst (createStaffMember_try Sample.down "new@example.com" "pw"
                 Sample.profile World.initial))
         Sample.boom eq_refl)
      as (w2 & outcome & Hrun & Hrec & _ & [[] Hre]).
    subst outcome. exists w2. split; [exact Hrun|].
    exact (proj1 (Hrec eq_refl)).
Defined.

(** C7 as it is stated fails on the staff store: with the backend down,
    [createStaffMember] records the failure and shows the notification,
    and then resolves; the failure does not reach the caller. *)
Lemma createStaffMember_failure_not_rethrown :
  Services.createStaffMember Sample.down [] "new@example.com" "pw"
    Sample.profile
  = Rejected Sample.boom /\
  snd (createStaffMember Sample.down "new@example.com" "pw" Sample.profile
         World.initial)
  = Fulfilled tt /\
  ~ follows (report_and_rethrow "Failed to create staff member")
      staff_error staff_loading
      (createStaffMember_try Sample.down "new@example.com" "pw" Sample.profile)
      (createStaffMember Sample.down "new@example.com" "pw" Sample.profile).
Proof.
  split; [reflexivity|]. split; [reflexivity|].
  intros H.
  destruct
    (H World.initial
       (fst (createStaffMember_try Sample.down "new@example.com" "pw"
               Sample.profile World.initial))
       Sample.boom eq_refl)
    as (w2 & outcome & Hrun & _ & _ & Hre).
  cbn in Hre. subst outcome.
  apply (f_equal snd) in Hrun. cbn in Hrun. discriminate Hrun.
Qed.

(* ===================================================================== *)
(** * When the environment refuses *)

(** The second of three payment creations is refused: the loop stops
    there, no status update and no refresh follow, and the failure is
    recorded and thrown again. *)
Example split_payment_stops_at_refusal :
  let r :=
    processSplitPayment Sample.second_payment_fails "order-1"
      [Sample.cash; Sample.card; Sample.cash] (Sample.shop false None) in
  World.calls (fst r)
  = [Call.createPayment (split_request "order-1" Sample.cash);
     Call.createPayment (split_request "order-1" Sample.card)] /\
  snd r = Rejected Sample.boom /\
  POSState.error (World.pos (fst r)) = Some Sample.boom.
Proof. repeat split. Qed.

(** The local storage refuses the write: nothing is stored, queued or
    marked paid, and the failure is recorded and thrown again. *)
Example offline_payment_refused_by_storage :
  let w := Sample.shop true None in
  let r := processPayment Sample.disk_full "order-1" 1000 "cash" None w in
  snd r = Rejected Sample.boom /\
  World.localPayments (fst r) = [] /\
  World.offlineQueue (fst r) = [] /\
  World.calls (fst r) = [] /\
  POSState.orders (World.pos (fst r)) = POSState.orders (World.pos w) /\
  POSState.error (World.pos (fst r)) = Some Sample.boom.
Proof. repeat split. Qed.

(** Fetched for a cashier of rest-A: Airport before Downtown, and Downtown,
    the first active one, selected. *)
Example fetch_for_ana :
  let after :=
    World.location
      (fst (fetchLocations Sample.healthy (Sample.signed_in Sample.ana))) in
  List.map RestaurantLocation.name (LocationState.locations after)
  = ["Airport"; "Downtown"] /\
  option_map RestaurantLocation.name (LocationState.selectedLocation after)
  = Some "Downtown".
Proof. repeat split. Qed.

(* ===================================================================== *)
(** * More on the auth store *)

Ltac reply :=
  match goal with
  | |- context [match ?x with Data _ => _ | Failure _ => _ end] =>
      destruct x eqn:?; cbn
  end.

Lemma or_string_truthy x d : d <> "" -> truthy (Some (or_string x d)) = true.
Proof.
  intros Hd. unfold or_string. destruct x as [v|]; cbn.
  - destruct (String.eqb_spec v ""); cbn.
    + destruct (String.eqb_spec d ""); [contradiction|reflexivity].
    + destruct (String.eqb_spec v ""); [contradiction|reflexivity].
  - destruct (String.eqb_spec d ""); [contradiction|reflexivity].
Qed.

Lemma or_string_again x d :
  d <> "" -> or_string (Some (or_string x d)) "" = or_string x d.
Proof.
  intros Hd. unfold or_string at 1. rewrite (or_string_truthy x d Hd).
  reflexivity.
Qed.

Section AuthMore.

Variable B : Services.t.

(** X1.  [signUp] and [resetPasswordForEmail] never sign anybody in or out
    and never throw: whatever the backend answers, [user] and
    [isAuthenticated] are what they were and the operation resolves. *)
Theorem signUp_and_reset_leave_session (w : World.t) :
  (forall email password name role,
     let r := signUp B email password name role w in
     snd r = Fulfilled tt /\
     AuthState.user (World.auth (fst r)) = AuthState.user (World.auth w) /\
     AuthState.isAuthenticated (World.auth (fst r))
     = AuthState.isAuthenticated (World.auth w)) /\
  (forall email,
     let r := resetPasswordForEmail B email w in
     snd r = Fulfilled tt /\
     AuthState.user (World.auth (fst r)) = AuthState.user (World.auth w) /\
     AuthState.isAuthenticated (World.auth (fst r))
     = AuthState.isAuthenticated (World.auth w)).
Proof.
  split.
  - intros email password name role.
    unfold signUp, try_catch, signUp_try, signUp_catch, set_auth, modify,
      await_response, data_or_throw, new_Date, toast, throw, ret, bind.
    cbn. reply; [|auto].
    match goal with |- context [match ?o with Some _ => _ | None => _ end] =>
      destruct o; cbn end; [|auto].
    reply; auto.
  - intros email.
    unfold resetPasswordForEmail, try_catch, resetPasswordForEmail_try,
      resetPasswordForEmail_catch, set_auth, modify, await_response,
      data_or_throw, toast, throw, ret, bind.
    cbn. reply; auto.
Qed.

(** X2.  [signOut] clears the session only when the backend agrees: on
    success [user] is [null] and [isAuthenticated] is [false]; when the
    backend reports an error the user stays signed in as before, with the
    error recorded.  Either way it sends that one request and resolves. *)
Theorem signOut_by_answer (w : World.t) :
  let r := signOut B w in
  snd r = Fulfilled tt /\
  World.calls (fst r) = (World.calls w ++ [Call.signOut])%list /\
  match Services.signOut B (World.calls w) with
  | Data _ =>
      AuthState.user (World.auth (fst r)) = None /\
      AuthState.isAuthenticated (World.auth (fst r)) = false /\
      AuthState.error (World.auth (fst r)) = None
  | Failure e =>
      AuthState.user (World.auth (fst r)) = AuthState.user (World.auth w) /\
      AuthState.isAuthenticated (World.auth (fst r))
      = AuthState.isAuthenticated (World.auth w) /\
      AuthState.error (World.auth (fst r)) = Some e
  end.
Proof.
  unfold signOut, try_catch, signOut_try, common_error_catch, set_auth,
    modify, await_response, data_or_throw, toast, throw, ret, bind.
  cbn. destruct (Services.signOut B (World.calls w)); cbn; auto.
Qed.

(** X3.  [signIn] sends its requests in order and stops at the first one
    that fails: the credentials alone when they are refused or no user
    comes back; then the profile read; the last-login write only after
    both have succeeded.  When it succeeds the interface language is the
    profile's preferred language, or ['en'] when the profile has none. *)
Theorem signIn_requests_in_order (email password : string) (w : World.t) :
  let r := signIn B email password w in
  let credentials := Call.signInWithPassword email password in
  match Services.signInWithPassword B (World.calls w) email password with
  | Failure _ | Data None =>
      World.calls (fst r) = (World.calls w ++ [credentials])%list /\
      World.language (fst r) = World.language w
  | Data (Some authUser) =>
      let read := Call.request (profile_request (AuthUser.id authUser)) in
      match
        Services.profile B (World.calls w ++ [credentials])
          (profile_request (AuthUser.id authUser))
      with
      | Failure _ =>
          World.calls (fst r) = (World.calls w ++ [credentials; read])%list /\
          World.language (fst r) = World.language w
      | Data profileData =>
          World.calls (fst r)
          = (World.calls w
             ++ [credentials; read;
                 Call.request
                   (lastLogin_request B (compose_user B authUser profileData)
                      (Services.now B (World.ticks w)))])%list /\
          World.language (fst r)
          = or_string (ProfileRow.preferred_language profileData) "en"
      end
  end.
Proof.
  unfold signIn, try_catch, signIn_try, signIn_catch, set_auth, modify,
    await_response, data_or_throw, new_Date, toast, changeLanguage, throw,
    ret, bind.
  cbn. destruct (Services.signInWithPassword B _ _ _) as [[authUser|]|e]; cbn;
    auto.
  destruct (Services.profile B _ _) as [profileData|e]; cbn.
  - assert (Hen : "en" <> "") by discriminate.
    pose proof (or_string_truthy (ProfileRow.preferred_language profileData)
                  "en" Hen) as Ht.
    cbn in Ht. rewrite Ht. cbn.
    rewrite <- !app_assoc. cbn. split; [reflexivity|].
    apply (or_string_again _ _ Hen).
  - rewrite <- !app_assoc. split; reflexivity.
Qed.

(** X4.  [updateUserRole] changes the local user only when the backend
    accepted the update and the updated id is the signed-in user's own,
    and then only the role; updating somebody else's role, or a refused
    update, leaves the local user as it was.  [isAuthenticated] is never
    touched and the operation never throws. *)
Theorem updateUserRole_patches_own_role (userId : string) (role : UserRole)
    (w : World.t) :
  let r := updateUserRole B userId role w in
  snd r = Fulfilled tt /\
  AuthState.isAuthenticated (World.auth (fst r))
  = AuthState.isAuthenticated (World.auth w) /\
  AuthState.user (World.auth (fst r))
  = match AuthState.error (World.auth (fst r)), AuthState.user (World.auth w) with
    | None, Some u =>
        if String.eqb (User.id u) userId then Some (User.with_role role u)
        else Some u
    | _, _ => AuthState.user (World.auth w)
    end.
Proof.
  unfold updateUserRole, try_catch, updateUserRole_try, common_error_catch,
    set_auth, modify, get, await_response, data_or_throw, new_Date, toast,
    throw, ret, bind.
  cbn. reply.
  - destruct (AuthState.user (World.auth w)) as [u|] eqn:Hu; cbn;
      [|rewrite Hu; auto].
    destruct (String.eqb (User.id u) userId); cbn; rewrite Hu; auto.
  - destruct (AuthState.user (World.auth w)); auto.
Qed.

(** X5.  [updateUserLanguage] switches the interface language first, so
    the interface is in the new language even when the backend then
    refuses the update; the user's [preferredLanguage] follows only when
    the update was accepted.  With nobody signed in no request is sent. *)
Theorem updateUserLanguage_switches_first (language : string) (w : World.t) :
  let r := updateUserLanguage B language w in
  snd r = Fulfilled tt /\
  World.language (fst r) = language /\
  AuthState.user (World.auth (fst r))
  = match AuthState.error (World.auth (fst r)) with
    | None =>
        option_map (User.with_preferredLanguage language)
          (AuthState.user (World.auth w))
    | Some _ => AuthState.user (World.auth w)
    end /\
  (AuthState.user (World.auth w) = None ->
   World.calls (fst r) = World.calls w).
Proof.
  unfold updateUserLanguage, try_catch, updateUserLanguage_try,
    common_error_catch, set_auth, modify, get, await_response, data_or_throw,
    new_Date, toast, changeLanguage, throw, ret, bind.
  cbn. destruct (AuthState.user (World.auth w)) as [u|] eqn:Hu; cbn.
  - reply; rewrite ?Hu; repeat split; auto; try discriminate.
  - rewrite ?Hu. auto.
Qed.

End AuthMore.

(* ===================================================================== *)
(** * More on the location store *)

Lemma In_replaced {A} (f : A -> A) (x : A) (l : list A) :
  List.In x l -> List.In (f x) (List.map f l).
Proof. apply in_map. Qed.

Section LocationMore.

Variable B : Services.t.

(** Replacing by id keeps the selection among the locations. *)
Lemma replace_location_consistent id updated s :
  selection_consistent s ->
  selection_consistent (replace_location id updated s).
Proof.
  unfold selection_consistent, replace_location, selected_is. cbn.
  destruct (LocationState.selectedLocation s) as [l|]; [|auto].
  intros Hin.
  destruct (String.eqb (RestaurantLocation.id l) id) eqn:Hid.
  - apply in_map_iff. exists l. rewrite Hid. auto.
  - apply in_map_iff. exists l. rewrite Hid. auto.
Qed.

(** X8.  The four mutations of the location store keep the selected
    location among the listed ones: if it is before [createLocation],
    [updateLocation], [deleteLocation] or [toggleLocationStatus], it is
    afterwards, whatever the backend answers. *)
Theorem mutations_keep_selection_listed (w : World.t) :
  selection_consistent (World.location w) ->
  (forall location,
     selection_consistent
       (World.location (fst (createLocation B location w)))) /\
  (forall id updates,
     selection_consistent
       (World.location (fst (updateLocation B id updates w)))) /\
  (forall id,
     selection_consistent (World.location (fst (deleteLocation B id w)))) /\
  (forall id,
     selection_consistent
       (World.location (fst (toggleLocationStatus B id w)))).
Proof.
  intros Hc. repeat split.
  - intros location.
    unfold createLocation, try_catch, createLocation_try, location_report,
      set_location, modify, get, await_response, data_or_throw, toast, throw,
      ret, bind.
    cbn. destruct (AuthState.user (World.auth w)) as [u|]; cbn; [|exact Hc].
    destruct (truthy (User.restaurantId u)); cbn; [|exact Hc].
    reply; [|exact Hc].
    unfold selection_consistent in *. cbn.
    destruct (LocationState.selectedLocation (World.location w)); [|exact I].
    apply in_or_app. left. exact Hc.
  - intros id updates.
    unfold updateLocation, try_catch, updateLocation_try, location_report,
      set_location, modify, await_response, data_or_throw, new_Date, toast,
      throw, ret, bind.
    cbn. reply; [|exact Hc].
    apply (replace_location_consistent id _
             (LocationState.set_error None
                (LocationState.set_isLoading true (World.location w)))).
    exact Hc.
  - intros id.
    unfold deleteLocation, try_catch, deleteLocation_try, location_report,
      set_location, modify, await_response, data_or_throw, toast, throw, ret,
      bind.
    cbn. reply; [|exact Hc].
    unfold selection_consistent, selected_is in *. cbn.
    destruct (LocationState.selectedLocation (World.location w)) as [l|];
      [|exact I].
    destruct (String.eqb (RestaurantLocation.id l) id) eqn:Hid.
    + destruct (List.filter _ _) as [|x rest]; cbn; auto.
    + apply filter_In. rewrite Hid. auto.
  - intros id.
    unfold toggleLocationStatus, try_catch, toggleLocationStatus_try,
      location_report, set_location, modify, get, await_response,
      data_or_throw, new_Date, toast, throw, ret, js_find, bind.
    cbn. destruct (List.find _ _) as [location|]; cbn; [|exact Hc].
    reply; [|exact Hc].
    apply (replace_location_consistent id _
             (LocationState.set_error None
                (LocationState.set_isLoading true (World.location w)))).
    exact Hc.
Qed.

(** X6.  Fetching while nobody is signed in asks the backend nothing: the
    list is emptied, the selection is left as it is, and the operation
    resolves without an error. *)
Theorem fetchLocations_signed_out (w : World.t) :
  AuthState.user (World.auth w) = None ->
  let r := fetchLocations B w in
  snd r = Fulfilled tt /\
  World.calls (fst r) = World.calls w /\
  LocationState.locations (World.location (fst r)) = [] /\
  LocationState.selectedLocation (World.location (fst r))
  = LocationState.selectedLocation (World.location w) /\
  LocationState.error (World.location (fst r)) = None /\
  LocationState.isLoading (World.location (fst r)) = false.
Proof.
  intros Hu.
  unfold fetchLocations, try_catch, fetchLocations_try, set_location, modify,
    get, bind.
  cbn. rewrite Hu. cbn. auto 7.
Qed.

(** X9.  [deleteLocation] removes from the list every location with the
    given id, and only those, once the backend has accepted the deletion;
    if the selected location was among them, the first remaining location
    becomes selected, or none when no location remains.  A refused
    deletion leaves list and selection as they were and is thrown on. *)
Theorem deleteLocation_by_answer (id : string) (w : World.t) :
  let r := deleteLocation B id w in
  let request :=
    Query.eq "id" (Some id)
      (Query.from "restaurant_locations" Query.v_delete) in
  let before := World.location w in
  let after := World.location (fst r) in
  World.calls (fst r) = (World.calls w ++ [Call.request request])%list /\
  match Services.execute B (World.calls w) request with
  | Data _ =>
      snd r = Fulfilled tt /\
      LocationState.locations after
      = List.filter
          (fun l => negb (String.eqb (RestaurantLocation.id l) id))
          (LocationState.locations before) /\
      (forall l,
         List.In l (LocationState.locations after) ->
         RestaurantLocation.id l <> id) /\
      LocationState.selectedLocation after
      = (if selected_is id before
         then List.hd_error (LocationState.locations after)
         else LocationState.selectedLocation before)
  | Failure e =>
      snd r = Rejected e /\
      LocationState.locations after = LocationState.locations before /\
      LocationState.selectedLocation after
      = LocationState.selectedLocation before
  end.
Proof.
  unfold deleteLocation, try_catch, deleteLocation_try, location_report,
    set_location, modify, await_response, data_or_throw, toast, throw, ret,
    bind.
  cbn. destruct (Services.execute B _ _); cbn; (split; [reflexivity|]);
    [|auto].
  repeat split.
  - intros l Hl. apply filter_In in Hl. destruct Hl as [_ Hl].
    apply negb_true_iff, String.eqb_neq in Hl. exact Hl.
  - unfold selected_is. cbn.
    destruct (LocationState.selectedLocation (World.location w)) as [l|];
      [|reflexivity].
    destruct (String.eqb (RestaurantLocation.id l) id); [|reflexivity].
    destruct (List.filter _ _); reflexivity.
Qed.

(** X10.  [createLocation] needs a signed-in user with a restaurant:
    without one it throws ['User not associated with a restaurant'],
    sends nothing and leaves the list alone.  With one, the single row it
    inserts carries the caller's restaurant id, whatever [restaurant_id]
    the given location holds. *)
Theorem createLocation_under_own_restaurant (location : NewLocation.t)
    (w : World.t) :
  let r := createLocation B location w in
  match AuthState.user (World.auth w) with
  | Some user =>
      if truthy (User.restaurantId user)
      then
        exists q,
          World.calls (fst r) = (World.calls w ++ [Call.request q])%list /\
          Query.table q = "restaurant_locations" /\
          column_value "restaurant_id" (written_values q)
          = Some (w_opt_string (User.restaurantId user))
      else
        snd r = Rejected (Error.new "User not associated with a restaurant") /\
        World.calls (fst r) = World.calls w /\
        LocationState.locations (World.location (fst r))
        = LocationState.locations (World.location w)
  | None =>
      snd r = Rejected (Error.new "User not associated with a restaurant") /\
      World.calls (fst r) = World.calls w /\
      LocationState.locations (World.location (fst r))
      = LocationState.locations (World.location w)
  end.
Proof.
  unfold createLocation, try_catch, createLocation_try, location_report,
    set_location, modify, get, await_response, data_or_throw, toast, throw,
    ret, bind.
  cbn. destruct (AuthState.user (World.auth w)) as [u|]; cbn; [|auto].
  destruct (truthy (User.restaurantId u)); cbn; [|auto].
  eexists. split; [reply; reflexivity|]. split; reflexivity.
Qed.

(** X11.  [toggleLocationStatus] looks the location up in the cached list:
    when it is not there it throws ['Location not found'] and sends
    nothing; when it is there the one request it sends sets [is_active] to
    the opposite of the cached value. *)
Theorem toggleLocationStatus_flips_cached (id : string) (w : World.t) :
  let r := toggleLocationStatus B id w in
  match
    List.find (fun loc => String.eqb (RestaurantLocation.id loc) id)
      (LocationState.locations (World.location w))
  with
  | Some location =>
      exists q,
        World.calls (fst r) = (World.calls w ++ [Call.request q])%list /\
        Query.filters q = [Query.f_eq "id" (Some id)] /\
        column_value "is_active" (written_values q)
        = Some (w_bool (negb (RestaurantLocation.isActive location)))
  | None =>
      snd r = Rejected (Error.new "Location not found") /\
      World.calls (fst r) = World.calls w /\
      LocationState.locations (World.location (fst r))
      = LocationState.locations (World.location w)
  end.
Proof.
  unfold toggleLocationStatus, try_catch, toggleLocationStatus_try,
    location_report, set_location, modify, get, await_response, data_or_throw,
    new_Date, toast, throw, ret, js_find, bind.
  cbn. destruct (List.find _ _) as [location|]; cbn; [|auto].
  eexists. split; [reply; reflexivity|]. split; reflexivity.
Qed.

(** X12.  [setSelectedLocation] always selects what it is given and
    resolves.  It asks the backend to remember the choice exactly when a
    user is signed in and a location (not [null]) is given; a failure of
    that request only writes a line to the console. *)
Theorem setSelectedLocation_remembers (location : option RestaurantLocation.t)
    (w : World.t) :
  let r := setSelectedLocation B location w in
  snd r = Fulfilled tt /\
  LocationState.selectedLocation (World.location (fst r)) = location /\
  LocationState.locations (World.location (fst r))
  = LocationState.locations (World.location w) /\
  LocationState.error (World.location (fst r))
  = LocationState.error (World.location w) /\
  match AuthState.user (World.auth w), location with
  | Some user, Some loc =>
      exists q,
        World.calls (fst r) = (World.calls w ++ [Call.request q])%list /\
        Query.table q = "user_profiles" /\
        Query.filters q = [Query.f_eq "id" (Some (User.id user))] /\
        column_value "default_location_id" (written_values q)
        = Some (w_string (RestaurantLocation.id loc)) /\
        World.console (fst r)
        = match Services.execute B (World.calls w) q with
          | Failure _ =>
              (World.console w ++ ["Failed to update default location:"])%list
          | Data _ => World.console w
          end
  | _, _ =>
      World.calls (fst r) = World.calls w /\
      World.console (fst r) = World.console w
  end.
Proof.
  unfold setSelectedLocation, set_location, modify, get, await_response,
    new_Date, console_error, ret, bind.
  cbn. destruct (AuthState.user (World.auth w)) as [u|]; cbn;
    [|destruct location; auto 6].
  destruct location as [loc|]; cbn; [|auto 6].
  destruct (Services.execute B _ _) eqn:Hr; cbn;
    (repeat split; eexists; repeat split; rewrite Hr; reflexivity).
Qed.

End LocationMore.

Section FetchMore.

Variable B : Services.t.
Variable table : list LocationRow.t.

(** X7.  With the backend answering relationally over [table], a
    super-admin, and a sub-super-admin without a list of managed
    restaurants, fetch every location of the table, and in ascending order
    of name. *)
Theorem fetchLocations_unfiltered (w : World.t) (user : User.t) :
  answers_from B table ->
  AuthState.user (World.auth w) = Some user ->
  User.role user = super_admin \/
  (User.role user = sub_super_admin /\ User.managedRestaurantIds user = None) ->
  exists rows,
    LocationState.locations (World.location (fst (fetchLocations B w)))
    = List.map (toLocation B) rows /\
    (forall row, List.In row rows <-> List.In row table) /\
    Sorted (ascending "name") rows.
Proof.
  intros Hrel Hu Hrole.
  exists (select_rows table (fetchLocations_query user)).
  split; [apply fetchLocations_stores; assumption|]. split.
  - intros row. rewrite select_rows_In.
    assert (Hq : Query.filters (fetchLocations_query user) = []).
    { unfold fetchLocations_query.
      destruct Hrole as [Hr|[Hr Hm]]; rewrite Hr; cbn; [|rewrite Hm];
        reflexivity. }
    rewrite Hq. cbn. tauto.
  - apply select_rows_Sorted. apply fetchLocations_query_ordering.
Qed.

End FetchMore.

(* ===================================================================== *)
(** * What an operation leaves alone *)

Section Keeps.

Variable R : World.t -> World.t -> Prop.
Hypothesis R_refl : forall w, R w w.
Hypothesis R_trans : forall a b c, R a b -> R b c -> R a c.

Lemma keeps_ret {A} (a : A) : keeps R (ret a).
Proof. intros w. apply R_refl. Qed.

Lemma keeps_throw {A} (e : Error.t) : keeps R (@throw A e).
Proof. intros w. apply R_refl. Qed.

Lemma keeps_get : keeps R get.
Proof. intros w. apply R_refl. Qed.

Lemma keeps_bind {A C} (m : M A) (k : A -> M C) :
  keeps R m -> (forall a, keeps R (k a)) -> keeps R (bind m k).
Proof.
  intros Hm Hk w. unfold bind. specialize (Hm w).
  destruct (m w) as [w' [a|e]]; cbn in *; [|exact Hm].
  apply (R_trans _ _ _ Hm). apply Hk.
Qed.

Lemma keeps_try_catch {A} (body : M A) (handler : Error.t -> M A) :
  keeps R body -> (forall e, keeps R (handler e)) ->
  keeps R (try_catch body handler).
Proof.
  intros Hb Hh w. unfold try_catch. specialize (Hb w).
  destruct (body w) as [w' [a|e]]; cbn in *; [exact Hb|].
  apply (R_trans _ _ _ Hb). apply Hh.
Qed.

Lemma keeps_for_of {A} (xs : list A) (body : A -> M unit) :
  (forall x, keeps R (body x)) -> keeps R (for_of xs body).
Proof.
  intros Hb. induction xs as [|x rest IH]; cbn [for_of].
  - apply keeps_ret.
  - apply keeps_bind; [apply Hb|intros _; exact IH].
Qed.

End Keeps.

Lemma same_outside_staff_refl w : same_outside_staff w w.
Proof. repeat split. Qed.
Lemma same_outside_staff_trans a b c :
  same_outside_staff a b -> same_outside_staff b c -> same_outside_staff a c.
Proof. unfold same_outside_staff. intuition congruence. Qed.
Lemma same_outside_location_refl w : same_outside_location w w.
Proof. repeat split. Qed.
Lemma same_outside_location_trans a b c :
  same_outside_location a b -> same_outside_location b c ->
  same_outside_location a c.
Proof. unfold same_outside_location. intuition congruence. Qed.
Lemma same_outside_auth_refl w : same_outside_auth w w.
Proof. repeat split. Qed.
Lemma same_outside_auth_trans a b c :
  same_outside_auth a b -> same_outside_auth b c -> same_outside_auth a c.
Proof. unfold same_outside_auth. intuition congruence. Qed.

(** One step of a frame proof: split a sequence, a [try], a loop or a
    branch; at a single statement, run it and compare the two worlds. *)
Ltac frame_with refl trans :=
  repeat first
    [ apply (keeps_ret _ refl)
    | apply (keeps_throw _ refl)
    | apply (keeps_get _ refl)
    | apply (keeps_bind _ trans); [|intros ?]
    | apply (keeps_try_catch _ trans); [|intros ?]
    | apply (keeps_for_of _ refl trans); intros ?
    | match goal with
      | |- keeps _ (match ?x with _ => _ end) => destruct x
      | |- keeps _ (if ?x then _ else _) => destruct x
      end ].

Ltac frame_leaf :=
  let w := fresh "w" in
  intros w;
  unfold set_pos, set_staff, set_location, set_auth, modify, await,
    await_response, data_or_throw, new_Date, random_suffix, toast,
    console_error, changeLanguage, storeOfflinePayment, addToQueue, get, ret,
    throw, bind;
  cbn;
  repeat match goal with
         | |- context [match ?x with _ => _ end] => destruct x; cbn
         end;
  repeat split.

Section Isolation.

Variable B : Services.t.



(** X14.  The other three stores keep to themselves as well: no operation
    of the staff store changes the auth, location or POS store; none of
    the location store changes the auth, staff or POS store (it reads the
    signed-in user); none of the auth store changes the location, staff or
    POS store. *)
Theorem other_stores_stay_in_their_store :
  (keeps same_outside_staff (fetchStaffMembers B) /\
   (forall e p pr, keeps same_outside_staff (createStaffMember B e p pr)) /\
   (forall id u, keeps same_outside_staff (updateStaffMember B id u)) /\
   (forall id, keeps same_outside_staff (deleteStaffMember B id))) /\
  ((forall l, keeps same_outside_location (setSelectedLocation B l)) /\
   (forall ls, keeps same_outside_location (setLocations ls)) /\
   keeps same_outside_location (fetchLocations B) /\
   (forall l, keeps same_outside_location (createLocation B l)) /\
   (forall id u, keeps same_outside_location (updateLocation B id u)) /\
   (forall id, keeps same_outside_location (deleteLocation B id)) /\
   (forall id, keeps same_outside_location (toggleLocationStatus B id))) /\
  ((forall u, keeps same_outside_auth (setUser u)) /\
   (forall e p, keeps same_outside_auth (signIn B e p)) /\
   (forall e p n r, keeps same_outside_auth (signUp B e p n r)) /\
   keeps same_outside_auth (signOut B) /\
   (forall id r, keeps same_outside_auth (updateUserRole B id r)) /\
   (forall l, keeps same_outside_auth (updateUserLanguage B l)) /\
   (forall e, keeps same_outside_auth (resetPasswordForEmail B e))).
Proof.
  split; [|split].
  - repeat match goal with |- _ /\ _ => split end; intros;
      unfold fetchStaffMembers, fetchStaffMembers_try, createStaffMember,
        createStaffMember_try, updateStaffMember, updateStaffMember_try,
        deleteStaffMember, deleteStaffMember_try, staff_report;
      frame_with same_outside_staff_refl same_outside_staff_trans;
      frame_leaf.
  - repeat match goal with |- _ /\ _ => split end; intros;
      unfold setSelectedLocation, setLocations, fetchLocations,
        fetchLocations_try, select_after_fetch, createLocation,
        createLocation_try, updateLocation, updateLocation_try,
        deleteLocation, deleteLocation_try, toggleLocationStatus,
        toggleLocationStatus_try, location_report;
      frame_with same_outside_location_refl same_outside_location_trans;
      frame_leaf.
  - repeat match goal with |- _ /\ _ => split end; intros;
      unfold setUser, signIn, signIn_try, signIn_catch, signUp, signUp_try,
        signUp_catch, signOut, signOut_try, common_error_catch,
        updateUserRole, updateUserRole_try, updateUserLanguage,
        updateUserLanguage_try, resetPasswordForEmail,
        resetPasswordForEmail_try, resetPasswordForEmail_catch;
      frame_with same_outside_auth_refl same_outside_auth_trans;
      frame_leaf.
Qed.

End Isolation.

(* ===================================================================== *)
(** * More on the POS store *)

Section StockMore.

Variable B : Services.t.

(** X15.  The three stock operations check before they send: when the
    item is not in the cached menu they throw ['Menu item not found'], and
    when it is but nobody is signed in (or the user has no id) they throw
    ['User not authenticated'].  In both cases nothing is sent to the
    backend, the menu is left alone and the failure is recorded. *)
Theorem stock_operations_check_first (menuItemId : string) (w : World.t) :
  let found :=
    List.find (fun item => String.eqb (MenuItem.id item) menuItemId)
      (POSState.menuItems (World.pos w)) in
  let userId := option_map User.id (AuthState.user (World.auth w)) in
  found = None \/ truthy userId = false ->
  let e :=
    match found with
    | None => Error.new "Menu item not found"
    | Some _ => Error.new "User not authenticated"
    end in
  let refused (r : World.t * Settled MenuItem.t) :=
    snd r = Rejected e /\
    World.calls (fst r) = World.calls w /\
    POSState.menuItems (World.pos (fst r)) = POSState.menuItems (World.pos w) /\
    POSState.error (World.pos (fst r)) = Some e in
  (forall quantity notes,
     refused (restockMenuItem B menuItemId quantity notes w)) /\
  (forall newStock notes,
     refused (adjustMenuItemStock B menuItemId newStock notes w)) /\
  (forall quantity notes reason,
     refused (recordWaste B menuItemId quantity notes reason w)).
Proof.
  intros found userId Hpre e refused. subst found userId e refused. cbn zeta.
  repeat split; intros;
    unfold restockMenuItem, restockMenuItem_try, adjustMenuItemStock,
      adjustMenuItemStock_try, recordWaste, recordWaste_try, try_catch,
      begin_loading, find_menuItem, current_userId, persist_stock,
      pos_rethrow, set_pos, modify, get, await, throw, ret, js_find, bind;
    cbn;
    (destruct (List.find _ _) as [item|]; cbn; [|reflexivity]);
    (destruct Hpre as [Hpre|Hpre]; [discriminate Hpre|]);
    rewrite Hpre; reflexivity.
Qed.


End StockMore.

Section OrdersMore.

Variable B : Services.t.

(** X17.  Online, [processPayment] creates the payment, then marks the
    order completed, then refreshes the orders, and stops at the first
    request that is refused: the order is never marked completed on the
    backend unless the payment was created.  The cached orders are
    replaced only when all three succeeded; local payment records are not
    touched. *)
Theorem processPayment_online_in_order (orderId : string) (amount : number)
    (paymentMethod : string) (details : option PaymentDetails.t)
    (w : World.t) :
  POSState.isOffline (World.pos w) = false ->
  let r := processPayment B orderId amount paymentMethod details w in
  let payment :=
    PaymentRequest.mk orderId amount paymentMethod pay_completed
      (opt_field details PaymentDetails.tipAmount)
      (opt_field details PaymentDetails.tipPercentage)
      (opt_field details PaymentDetails.taxAmount)
      (opt_field details PaymentDetails.taxRate) in
  let create := Call.createPayment payment in
  let complete := Call.updateOrderStatus orderId st_completed in
  POSState.offlinePayments (World.pos (fst r))
  = POSState.offlinePayments (World.pos w) /\
  match Services.createPayment B (World.calls w) payment with
  | Rejected e =>
      snd r = Rejected e /\
      World.calls (fst r) = (World.calls w ++ [create])%list /\
      POSState.orders (World.pos (fst r)) = POSState.orders (World.pos w)
  | Fulfilled _ =>
      match
        Services.updateOrderStatus B (World.calls w ++ [create]) orderId
          st_completed
      with
      | Rejected e =>
          snd r = Rejected e /\
          World.calls (fst r) = (World.calls w ++ [create; complete])%list /\
          POSState.orders (World.pos (fst r)) = POSState.orders (World.pos w)
      | Fulfilled _ =>
          World.calls (fst r)
          = (World.calls w ++ [create; complete; Call.getOrders])%list /\
          match Services.getOrders B (World.calls w ++ [create; complete]) with
          | Rejected e =>
              snd r = Rejected e /\
              POSState.orders (World.pos (fst r))
              = POSState.orders (World.pos w)
          | Fulfilled orders =>
              snd r = Fulfilled tt /\
              POSState.orders (World.pos (fst r)) = orders
          end
      end
  end.
Proof.
  intros Hon.
  unfold processPayment, try_catch, processPayment_try, processPayment_online,
    begin_loading_only, pos_rethrow, set_pos, modify, get, await, throw, ret,
    bind.
  cbn. rewrite Hon. cbn.
  destruct (Services.createPayment B _ _) as [[]|e]; cbn; [|auto].
  destruct (Services.updateOrderStatus B _ _ _) as [o|e]; cbn.
  - rewrite <- !app_assoc. cbn.
    destruct (Services.getOrders B _) as [os|e]; cbn; auto.
  - rewrite <- !app_assoc. cbn. auto.
Qed.

(** X20.  [initialize] fetches menu, orders and offline payments in that
    order and shows all three or none: if any of the fetches is refused,
    the three cached collections are what they were, the failure is
    recorded and later fetches are not made.  It never throws. *)
Theorem initialize_all_or_nothing (w : World.t) :
  let r := initialize B w in
  let unchanged (e : Error.t) :=
    POSState.menuItems (World.pos (fst r)) = POSState.menuItems (World.pos w) /\
    POSState.orders (World.pos (fst r)) = POSState.orders (World.pos w) /\
    POSState.offlinePayments (World.pos (fst r))
    = POSState.offlinePayments (World.pos w) /\
    POSState.error (World.pos (fst r)) = Some e in
  snd r = Fulfilled tt /\
  POSState.isLoading (World.pos (fst r)) = false /\
  match Services.getMenuItems B (World.calls w) with
  | Rejected e =>
      unchanged e /\
      World.calls (fst r) = (World.calls w ++ [Call.getMenuItems])%list
  | Fulfilled menuItems =>
      match Services.getOrders B (World.calls w ++ [Call.getMenuItems]) with
      | Rejected e =>
          unchanged e /\
          World.calls (fst r)
          = (World.calls w ++ [Call.getMenuItems; Call.getOrders])%list
      | Fulfilled orders =>
          World.calls (fst r)
          = (World.calls w
             ++ [Call.getMenuItems; Call.getOrders; Call.getOfflinePayments])%list /\
          match
            Services.getOfflinePayments B
              (World.calls w ++ [Call.getMenuItems; Call.getOrders])
          with
          | Rejected e => unchanged e
          | Fulfilled offlinePayments =>
              POSState.menuItems (World.pos (fst r)) = menuItems /\
              POSState.orders (World.pos (fst r)) = orders /\
              POSState.offlinePayments (World.pos (fst r)) = offlinePayments /\
              POSState.error (World.pos (fst r)) = None
          end
      end
  end.
Proof.
  unfold initialize, try_catch, initialize_try, begin_loading, set_pos,
    modify, await, ret, bind.
  cbn. destruct (Services.getMenuItems B _) as [ms|e]; cbn; [|auto 8].
  destruct (Services.getOrders B _) as [os|e]; cbn.
  - rewrite <- !app_assoc. cbn.
    destruct (Services.getOfflinePayments B _) as [ps|e]; cbn; auto 8.
  - rewrite <- !app_assoc. cbn. auto 8.
Qed.

(** X21.  [addOrder] creates the order and then refreshes orders and
    menu.  When the creation succeeded and a refresh is refused, the
    caller gets the failure and the cache is not touched, although the
    creation request has been sent and accepted; only when all three
    succeed does the caller get the created order and the refreshed
    cache. *)
Theorem addOrder_by_answers (order : OrderDraft.t) (w : World.t) :
  let r := addOrder B order w in
  let create := Call.createOrder order (OrderDraft.items order) in
  let unchanged (e : Error.t) :=
    snd r = Rejected e /\
    POSState.orders (World.pos (fst r)) = POSState.orders (World.pos w) /\
    POSState.menuItems (World.pos (fst r)) = POSState.menuItems (World.pos w) in
  match Services.createOrder B (World.calls w) order (OrderDraft.items order) with
  | Rejected e =>
      unchanged e /\ World.calls (fst r) = (World.calls w ++ [create])%list
  | Fulfilled result =>
      List.In create (World.calls (fst r)) /\
      match Services.getOrders B (World.calls w ++ [create]) with
      | Rejected e => unchanged e
      | Fulfilled orders =>
          match
            Services.getMenuItems B (World.calls w ++ [create; Call.getOrders])
          with
          | Rejected e => unchanged e
          | Fulfilled menuItems =>
              snd r = Fulfilled result /\
              POSState.orders (World.pos (fst r)) = orders /\
              POSState.menuItems (World.pos (fst r)) = menuItems
          end
      end
  end.
Proof.
  unfold addOrder, try_catch, addOrder_try, begin_loading_only, pos_rethrow,
    set_pos, modify, await, throw, ret, bind.
  cbn. destruct (Services.createOrder B _ _ _) as [result|e]; cbn; [|auto].
  destruct (Services.getOrders B _) as [os|e]; cbn.
  - rewrite <- !app_assoc. cbn.
    destruct (Services.getMenuItems B _) as [ms|e]; cbn;
      (split; [rewrite !in_app_iff; cbn; auto|auto]).
  - split; [rewrite !in_app_iff; cbn; auto|auto].
Qed.

(** X22.  The two sync operations never throw: they resolve to a result
    that says whether the sync succeeded.  A failed sync carries the
    failure in its result, records it in the store and leaves the cached
    menu, orders and offline payments as they were. *)
Theorem syncs_report_in_their_result (w : World.t) :
  let settled (r : World.t * Settled SyncResult) :=
    exists result,
      snd r = Fulfilled result /\
      POSState.isLoading (World.pos (fst r)) = false /\
      match result with
      | sync_success _ => True
      | sync_failure e =>
          POSState.error (World.pos (fst r)) = Some e /\
          POSState.menuItems (World.pos (fst r))
          = POSState.menuItems (World.pos w) /\
          POSState.orders (World.pos (fst r)) = POSState.orders (World.pos w) /\
          POSState.offlinePayments (World.pos (fst r))
          = POSState.offlinePayments (World.pos w)
      end in
  settled (syncOfflineData B w) /\ settled (syncOfflinePayments B w).
Proof.
  cbn zeta. split.
  - unfold syncOfflineData, try_catch, syncOfflineData_try, sync_catch,
      begin_loading_only, set_pos, modify, await, ret, bind.
    cbn. repeat answer; eexists; (split; [reflexivity|]); cbn; auto.
  - unfold syncOfflinePayments, try_catch, syncOfflinePayments_try, sync_catch,
      begin_loading_only, set_pos, modify, await, ret, bind.
    cbn. repeat answer; eexists; (split; [reflexivity|]); cbn; auto.
Qed.

(** X24.  [deleteMenuItem] and [deleteStaffMember] take out of their list
    every entry with the given id, and nothing else, once the backend has
    accepted the deletion; a refused deletion leaves the list as it was.
    The menu operation throws the failure on, the staff operation
    resolves. *)
Theorem deletes_by_answer (id : string) (w : World.t) :
  (let r := deleteMenuItem B id w in
   match Services.deleteMenuItem B (World.calls w) id with
   | Fulfilled _ =>
       snd r = Fulfilled tt /\
       POSState.menuItems (World.pos (fst r))
       = List.filter (fun item => negb (String.eqb (MenuItem.id item) id))
           (POSState.menuItems (World.pos w)) /\
       (forall item,
          List.In item (POSState.menuItems (World.pos (fst r))) ->
          MenuItem.id item <> id)
   | Rejected e =>
       snd r = Rejected e /\
       POSState.menuItems (World.pos (fst r))
       = POSState.menuItems (World.pos w)
   end) /\
  (let r := deleteStaffMember B id w in
   snd r = Fulfilled tt /\
   match Services.deleteStaffMember B (World.calls w) id with
   | Fulfilled _ =>
       StaffState.staffMembers (World.staff (fst r))
       = List.filter (fun member => negb (String.eqb (User.id member) id))
           (StaffState.staffMembers (World.staff w)) /\
       (forall member,
          List.In member (StaffState.staffMembers (World.staff (fst r))) ->
          User.id member <> id)
   | Rejected e =>
       StaffState.staffMembers (World.staff (fst r))
       = StaffState.staffMembers (World.staff w) /\
       StaffState.error (World.staff (fst r)) = Some e
   end).
Proof.
  split.
  - unfold deleteMenuItem, try_catch, deleteMenuItem_try, begin_loading,
      pos_rethrow, set_pos, modify, await, throw, ret, bind.
    cbn. destruct (Services.deleteMenuItem B _ _) as [[]|e]; cbn; [|auto].
    repeat split. intros item Hin. apply filter_In in Hin.
    destruct Hin as [_ Hin]. apply negb_true_iff, String.eqb_neq in Hin.
    exact Hin.
  - unfold deleteStaffMember, try_catch, deleteStaffMember_try, staff_report,
      set_staff, modify, await, toast, throw, ret, bind.
    cbn. destruct (Services.deleteStaffMember B _ _) as [[]|e]; cbn; [|auto].
    repeat split. intros member Hin. apply filter_In in Hin.
    destruct Hin as [_ Hin]. apply negb_true_iff, String.eqb_neq in Hin.
    exact Hin.
Qed.

(** X25.  The staff list follows the backend and nothing else: a
    successful fetch replaces it by what the backend returned, a
    successful creation appends the returned member at the end, a
    successful update replaces the members with the given id by the
    returned one, and any refused request leaves the list exactly as it
    was. *)
Theorem staff_list_follows_backend (w : World.t) :
  let before := StaffState.staffMembers (World.staff w) in
  StaffState.staffMembers (World.staff (fst (fetchStaffMembers B w)))
  = match Services.getStaffMembers B (World.calls w) with
    | Fulfilled staffMembers => staffMembers
    | Rejected _ => before
    end /\
  (forall email password profile,
     StaffState.staffMembers
       (World.staff (fst (createStaffMember B email password profile w)))
     = match
         Services.createStaffMember B (World.calls w) email password profile
       with
       | Fulfilled newStaffMember => (before ++ [newStaffMember])%list
       | Rejected _ => before
       end) /\
  (forall userId updates,
     StaffState.staffMembers
       (World.staff (fst (updateStaffMember B userId updates w)))
     = match Services.updateStaffMember B (World.calls w) userId updates with
       | Fulfilled updatedStaffMember =>
           List.map
             (fun member =>
                if String.eqb (User.id member) userId
                then updatedStaffMember else member)
             before
       | Rejected _ => before
       end).
Proof.
  cbn zeta. repeat split; intros.
  - unfold fetchStaffMembers, try_catch, fetchStaffMembers_try, staff_report,
      set_staff, modify, await, toast, ret, bind.
    cbn. answer; reflexivity.
  - unfold createStaffMember, try_catch, createStaffMember_try, staff_report,
      set_staff, modify, await, toast, ret, bind.
    cbn. answer; reflexivity.
  - unfold updateStaffMember, try_catch, updateStaffMember_try, staff_report,
      set_staff, modify, await, toast, ret, bind.
    cbn. answer; reflexivity.
Qed.

End OrdersMore.

(* ===================================================================== *)
(** * Offline payment records *)

Lemma grows_offline_nothing w : grows_offline [] [] w w.
Proof. unfold grows_offline. rewrite !app_nil_r. repeat split. Qed.

Lemma grows_offline_then r1 q1 r2 q2 a b c :
  grows_offline r1 q1 a b -> grows_offline r2 q2 b c ->
  grows_offline (r1 ++ r2) (q1 ++ q2) a c.
Proof.
  unfold grows_offline.
  intros (H1 & H2 & H3 & H4 & H5 & H6 & H7 & H8)
         (G1 & G2 & G3 & G4 & G5 & G6 & G7 & G8).
  rewrite G1, G2, G3, G4, G5, G6, G7, G8, H1, H2, H3, !app_assoc.
  repeat split; assumption.
Qed.

Section OfflineRecords.

Variable B : Services.t.
Variable orderId : string.

(** One turn of the offline loop stores, mirrors and queues one record
    for the sub-payment, or, when the storage refuses the write, does
    nothing at all. *)
Lemma split_offline_step_grows payment w :
  exists w' records queued outcome,
    split_offline_step B orderId payment w = (w', outcome) /\
    grows_offline records queued w w' /\
    ((outcome = Fulfilled tt /\
      List.map OfflinePayment.amount records = [SplitPayment.amount payment] /\
      List.map OfflinePayment.orderId records = [orderId] /\
      List.length queued = 1%nat) \/
     ((exists e, outcome = Rejected e) /\ records = [] /\ queued = [])) /\
    (storage_accepts B -> outcome = Fulfilled tt).
Proof.
  unfold split_offline_step, storeOfflinePayment, addToQueue, new_Date,
    random_suffix, set_pos, modify, bind.
  cbn. destruct (Services.storeOfflinePayment B _ _) as [[]|e] eqn:Hs; cbn.
  - do 4 eexists. split; [reflexivity|]. split; [|split].
    + unfold grows_offline. cbn. repeat split.
    + left. repeat split.
    + reflexivity.
  - eexists _, [], [], (Rejected e). split; [reflexivity|]. split; [|split].
    + unfold grows_offline. cbn. rewrite !app_nil_r. repeat split.
    + right. eauto.
    + intros Hok. rewrite Hok in Hs. discriminate.
Qed.

(** The offline loop stores, mirrors and queues one record per
    sub-payment, in list order, until the storage refuses a write. *)
Lemma split_offline_loop_grows payments : forall w,
  exists w' records queued outcome,
    for_of payments (split_offline_step B orderId) w = (w', outcome) /\
    grows_offline records queued w w' /\
    List.length queued = List.length records /\
    List.map OfflinePayment.amount records
    = List.firstn (List.length records)
        (List.map SplitPayment.amount payments) /\
    List.Forall (fun r => OfflinePayment.orderId r = orderId) records /\
    (List.length records <= List.length payments)%nat /\
    (outcome = Fulfilled tt -> List.length records = List.length payments) /\
    (storage_accepts B -> outcome = Fulfilled tt).
Proof.
  induction payments as [|p ps IH]; intros w.
  - exists w, [], [], (Fulfilled tt). cbn.
    split; [reflexivity|]. split; [apply grows_offline_nothing|].
    repeat split; auto.
  - destruct (split_offline_step_grows p w)
      as (w1 & r1 & q1 & o1 & Hrun1 & Hg1 & Hcase & Hok1).
    cbn [for_of]. unfold bind at 1. rewrite Hrun1.
    destruct Hcase as [(-> & Ha & Ho & Hq)|((e & ->) & -> & ->)].
    + destruct (IH w1)
        as (w2 & r2 & q2 & o2 & Hrun2 & Hg2 & Hlen & Hamt & Hall & Hle & Hdone
            & Hok2).
      rewrite Hrun2.
      exists w2, (r1 ++ r2)%list, (q1 ++ q2)%list, o2.
      assert (Hr1 : List.length r1 = 1%nat).
      { rewrite <- (length_map OfflinePayment.amount), Ha. reflexivity. }
      destruct r1 as [|x [|y r1]]; try discriminate Hr1.
      cbn in Ha, Ho. injection Ha as Hx. injection Ho as Hox.
      split; [reflexivity|].
      split; [exact (grows_offline_then _ _ _ _ _ _ _ Hg1 Hg2)|].
      rewrite !length_app. cbn.
      split; [rewrite Hq, Hlen; reflexivity|].
      split; [rewrite Hamt, Hx; reflexivity|].
      split; [constructor; [exact Hox|exact Hall]|].
      split; [lia|].
      split; [intros Hf; rewrite (Hdone Hf); reflexivity|exact Hok2].
    + exists w1, [], [], (Rejected e).
      split; [reflexivity|]. split; [exact Hg1|].
      repeat split; cbn; auto; try lia; try discriminate.
Qed.

(** X19.  Offline, the local payment storage, the in-memory list of
    offline payments and the offline queue grow in step, whatever the
    storage answers: what [processPayment] or [processSplitPayment] adds
    to the storage it adds to the in-memory list, with one queued
    operation for each record, at most one record per (sub-)payment, and
    nothing is sent to the backend. *)
Theorem offline_records_grow_in_step (w : World.t) :
  POSState.isOffline (World.pos w) = true ->
  let in_step (n : nat) (w' : World.t) :=
    exists records queued,
      World.localPayments w' = (World.localPayments w ++ records)%list /\
      POSState.offlinePayments (World.pos w')
      = (POSState.offlinePayments (World.pos w) ++ records)%list /\
      World.offlineQueue w' = (World.offlineQueue w ++ queued)%list /\
      List.length queued = List.length records /\
      (List.length records <= n)%nat /\
      List.Forall (fun r => OfflinePayment.orderId r = orderId) records /\
      World.calls w' = World.calls w in
  (forall amount paymentMethod details,
     in_step 1%nat
       (fst (processPayment B orderId amount paymentMethod details w))) /\
  (forall payments,
     in_step (List.length payments)
       (fst (processSplitPayment B orderId payments w))).
Proof.
  intros Hoff. cbn zeta. split.
  - intros amount paymentMethod details.
    unfold processPayment, try_catch, processPayment_try, begin_loading_only,
      pos_rethrow, set_pos, modify, get, processPayment_offline,
      storeOfflinePayment, addToQueue, new_Date, random_suffix, throw, bind.
    cbn. rewrite Hoff. cbn.
    destruct (Services.storeOfflinePayment B _ _) as [[]|e]; cbn.
    + match goal with |- context [mark_paid B orderId ?os ?w0] =>
        destruct (mark_paid_spec B orderId os w0) as (n & orders' & Hrun & _)
      end.
      cbn in Hrun. rewrite Hrun. cbn.
      do 2 eexists. repeat split; cbn; auto.
    + exists [], []. rewrite !app_nil_r. repeat split; cbn; auto.
  - intros payments.
    unfold processSplitPayment, try_catch, processSplitPayment_try,
      begin_loading_only, pos_rethrow, set_pos, modify, get, toast, throw,
      bind.
    cbn. rewrite Hoff.
    match goal with |- context [for_of payments _ ?w0] =>
      destruct (split_offline_loop_grows payments w0)
        as (w1 & records & queued & outcome & Hrun & Hg & Hlen & _ & Hall
            & Hle & _ & _);
      rewrite Hrun
    end.
    destruct Hg as (G1 & G2 & G3 & G4 & _). cbn in G1, G2, G3, G4.
    exists records, queued.
    destruct outcome as [[]|e]; cbn.
    + match goal with |- context [mark_paid B orderId ?os ?w0] =>
        destruct (mark_paid_spec B orderId os w0) as (n & orders' & Hm & _)
      end.
      rewrite Hm. cbn. repeat split; assumption.
    + repeat split; assumption.
Qed.

(** X18.  Offline, with the local storage accepting the writes,
    [processSplitPayment] resolves with one record per sub-payment, in
    list order and with its amount, added to the storage and to the
    in-memory list, one queued operation for each, every order with the
    given id marked completed and paid, the success notification shown
    and nothing sent to the backend. *)
Theorem processSplitPayment_offline_effects (payments : list SplitPayment.t)
    (w : World.t) :
  POSState.isOffline (World.pos w) = true ->
  storage_accepts B ->
  exists w' records queued,
    processSplitPayment B orderId payments w = (w', Fulfilled tt) /\
    World.localPayments w' = (World.localPayments w ++ records)%list /\
    POSState.offlinePayments (World.pos w')
    = (POSState.offlinePayments (World.pos w) ++ records)%list /\
    List.map OfflinePayment.amount records
    = List.map SplitPayment.amount payments /\
    World.offlineQueue w' = (World.offlineQueue w ++ queued)%list /\
    List.length queued = List.length payments /\
    List.Forall2 (paid_version orderId)
      (POSState.orders (World.pos w)) (POSState.orders (World.pos w')) /\
    World.calls w' = World.calls w /\
    World.toasts w'
    = (World.toasts w
       ++ [Toast.mk toast_success "Split payment processed (offline mode)"])%list.
Proof.
  intros Hoff Hok.
  unfold processSplitPayment, try_catch, processSplitPayment_try,
    begin_loading_only, pos_rethrow, set_pos, modify, get, toast, throw,
    bind.
  cbn. rewrite Hoff.
  match goal with |- context [for_of payments _ ?w0] =>
    destruct (split_offline_loop_grows payments w0)
      as (w1 & records & queued & outcome & Hrun & Hg & Hlen & Hamt & _ & _
          & Hdone & Hacc);
    rewrite Hrun
  end.
  rewrite (Hacc Hok) in *. cbn.
  specialize (Hdone eq_refl).
  destruct Hg as (G1 & G2 & G3 & G4 & G5 & _ & G7 & _).
  cbn in G1, G2, G3, G4, G5, G7.
  match goal with |- context [mark_paid B orderId ?os ?w0] =>
    destruct (mark_paid_spec B orderId os w0) as (n & orders' & Hm & Hall)
  end.
  rewrite Hm. cbn.
  exists
    (World.set_toasts
       (World.toasts w1
        ++ [Toast.mk toast_success "Split payment processed (offline mode)"])
       (World.set_pos
          (POSState.set_isLoading false
             (POSState.set_orders orders' (World.pos w1)))
          (World.set_ticks n w1))),
    records, queued.
  split; [reflexivity|]. cbn.
  rewrite G7 in Hall.
  repeat split; try assumption.
  - rewrite Hamt, Hdone, <- (length_map SplitPayment.amount).
    apply firstn_all.
  - congruence.
  - rewrite G5. reflexivity.
Qed.

(** X23.  No throwing operation of the POS store leaves a half-updated
    cache behind: whenever one of them throws, the cached menu and the
    cached orders are exactly what they were before the call. *)
Theorem thrown_pos_operation_leaves_cache (w : World.t) :
  let untouched {A} (r : World.t * Settled A) :=
    (exists e, snd r = Rejected e) ->
    POSState.menuItems (World.pos (fst r)) = POSState.menuItems (World.pos w) /\
    POSState.orders (World.pos (fst r)) = POSState.orders (World.pos w) in
  (forall m, untouched (createMenuItem B m w)) /\
  (forall id u, untouched (updateMenuItem B id u w)) /\
  (forall id, untouched (deleteMenuItem B id w)) /\
  (forall id q n, untouched (restockMenuItem B id q n w)) /\
  (forall id s n, untouched (adjustMenuItemStock B id s n w)) /\
  (forall id q n r, untouched (recordWaste B id q n r w)) /\
  (forall o, untouched (addOrder B o w)) /\
  (forall id s, untouched (updateOrderStatus B id s w)) /\
  (forall a m d, untouched (processPayment B orderId a m d w)) /\
  (forall ps, untouched (processSplitPayment B orderId ps w)).
Proof.
  cbn zeta.
  repeat match goal with |- _ /\ _ => split end; intros.
  all: match goal with H : exists e, _ |- _ => destruct H as [e0 H]; revert H end.
  1-8: unfold createMenuItem, createMenuItem_try, updateMenuItem,
         updateMenuItem_try, deleteMenuItem, deleteMenuItem_try,
         restockMenuItem, restockMenuItem_try, adjustMenuItemStock,
         adjustMenuItemStock_try, recordWaste, recordWaste_try, addOrder,
         addOrder_try, updateOrderStatus, updateOrderStatus_try, try_catch,
         begin_loading, begin_loading_only, find_menuItem, current_userId,
         persist_stock, pos_rethrow, set_pos, modify, get, await, throw, ret,
         js_find, bind;
       cbn;
       repeat match goal with
              | |- context [match ?x with
                            | Fulfilled _ => _ | Rejected _ => _ end] =>
                  destruct x; cbn
              | |- context [match ?x with Some _ => _ | None => _ end] =>
                  destruct x; cbn
              | |- context [if ?x then _ else _] => destruct x; cbn
              end;
       intros H; try discriminate H; auto.
  - unfold processPayment, try_catch, processPayment_try, begin_loading_only,
      pos_rethrow, set_pos, modify, get, processPayment_offline,
      processPayment_online, storeOfflinePayment, addToQueue, new_Date,
      random_suffix, await, throw, bind.
    cbn. destruct (POSState.isOffline (World.pos w)); cbn.
    + destruct (Services.storeOfflinePayment B _ _) as [[]|e]; cbn; [|auto].
      match goal with |- context [mark_paid B orderId ?os ?w0] =>
        destruct (mark_paid_spec B orderId os w0) as (n & orders' & Hrun & _)
      end.
      cbn in Hrun. rewrite Hrun. cbn. discriminate.
    + repeat answer; intros H; try discriminate H; auto.
  - unfold processSplitPayment, try_catch, processSplitPayment_try,
      begin_loading_only, pos_rethrow, set_pos, modify, get, await, toast,
      throw, bind.
    cbn. destruct (POSState.isOffline (World.pos w)).
    + match goal with |- context [for_of ps _ ?w0] =>
        destruct (split_offline_loop_grows ps w0)
          as (w1 & records & queued & outcome & Hrun & Hg & _);
        rewrite Hrun
      end.
      destruct Hg as (_ & _ & _ & _ & _ & G6 & G7 & _). cbn in G6, G7.
      destruct outcome as [[]|e]; cbn.
      * match goal with |- context [mark_paid B orderId ?os ?w0] =>
          destruct (mark_paid_spec B orderId os w0) as (n & orders' & Hm & _)
        end.
        rewrite Hm. cbn. discriminate.
      * auto.
    + match goal with |- context [for_of ps _ ?w0] =>
        destruct (split_online_loop_prefix B orderId ps w0)
          as (made & rest & outcome & Hrun & _ & _)
      end.
      rewrite Hrun. cbn. destruct outcome as [[]|e]; cbn; [|auto].
      repeat answer; intros H; try discriminate H; auto.
Qed.

End OfflineRecords.

(* ===================================================================== *)
(** * The further theorems at work on the samples *)

(** Nobody signed in: the fetch sends nothing. *)
Lemma fetchLocations_signed_out_witness :
  AuthState.user (World.auth World.initial) = None /\
  World.calls (fst (fetchLocations Sample.healthy World.initial)) = [] /\
  snd (fetchLocations Sample.healthy World.initial) = Fulfilled tt.
Proof.
  split; [reflexivity|].
  destruct (fetchLocations_signed_out Sample.healthy World.initial eq_refl)
    as (Hres & Hcalls & _).
  split; [exact Hcalls|exact Hres].
Defined.

(** A super-admin fetches all three rows of the sample table. *)
Lemma fetchLocations_unfiltered_witness :
  answers_from Sample.healthy Sample.table /\
  User.role More.root = super_admin /\
  exists rows,
    LocationState.locations
      (World.location
         (fst (fetchLocations Sample.healthy (Sample.signed_in More.root))))
    = List.map (toLocation Sample.healthy) rows /\
    (List.In Sample.harbour rows /\ List.In Sample.downtown rows).
Proof.
  split; [intros h q; reflexivity|]. split; [reflexivity|].
  destruct
    (fetchLocations_unfiltered Sample.healthy Sample.table
       (Sample.signed_in More.root) More.root (fun h q => eq_refl) eq_refl
       (or_introl eq_refl))
    as (rows & Hmap & Hin & _).
  exists rows. split; [exact Hmap|].
  split; apply Hin; cbn; auto.
Defined.

(** Downtown is selected and listed; deleting it selects Airport, which is
    listed. *)
Lemma mutations_keep_selection_listed_witness :
  selection_consistent (World.location More.at_downtown) /\
  selection_consistent
    (World.location (fst (deleteLocation Sample.healthy "loc-1" More.at_downtown))) /\
  LocationState.selectedLocation
    (World.location (fst (deleteLocation Sample.healthy "loc-1" More.at_downtown)))
  = Some More.airport.
Proof.
  assert (H : selection_consistent (World.location More.at_downtown)).
  { cbn. auto. }
  split; [exact H|]. split; [|reflexivity].
  exact
    (proj1 (proj2 (proj2
       (mutations_keep_selection_listed Sample.healthy More.at_downtown H)))
       "loc-1").
Defined.

(** An unknown item, and a known item with nobody signed in. *)
Lemma stock_operations_check_first_witness :
  (List.find (fun item => String.eqb (MenuItem.id item) "item-9")
     (POSState.menuItems (World.pos (Sample.shop false None))) = None /\
   snd (restockMenuItem Sample.healthy "item-9" 3 None (Sample.shop false None))
   = Rejected (Error.new "Menu item not found")) /\
  (truthy (option_map User.id (AuthState.user (World.auth More.unattended)))
   = false /\
   snd (recordWaste Sample.healthy "item-1" 3 None None More.unattended)
   = Rejected (Error.new "User not authenticated") /\
   World.calls
     (fst (recordWaste Sample.healthy "item-1" 3 None None More.unattended))
   = []).
Proof.
  split.
  - split; [reflexivity|].
    exact
      (proj1
         (proj1
            (stock_operations_check_first Sample.healthy "item-9"
               (Sample.shop false None) (or_introl eq_refl))
            3 None)).
  - split; [reflexivity|].
    destruct
      (proj2 (proj2
         (stock_operations_check_first Sample.healthy "item-1"
            More.unattended (or_intror eq_refl)))
         3 None None)
      as (Hres & Hcalls & _).
    split; [exact Hres|exact Hcalls].
Defined.


(** An online cash payment against a healthy backend. *)
Lemma processPayment_online_in_order_witness :
  POSState.isOffline (World.pos (Sample.shop false None)) = false /\
  POSState.offlinePayments
    (World.pos
       (fst (processPayment Sample.healthy "order-1" 1000 "cash" None
               (Sample.shop false None))))
  = [].
Proof.
  split; [reflexivity|].
  exact
    (proj1
       (processPayment_online_in_order Sample.healthy "order-1" 1000 "cash"
          None (Sample.shop false None) eq_refl)).
Defined.

Lemma healthy_storage_accepts : storage_accepts Sample.healthy.
Proof. intros stored payment. reflexivity. Defined.

(** A split into cash and card, offline: two records, two queued
    operations, nothing sent. *)
Lemma processSplitPayment_offline_effects_witness :
  POSState.isOffline (World.pos (Sample.shop true None)) = true /\
  storage_accepts Sample.healthy /\
  exists w',
    processSplitPayment Sample.healthy "order-1" [Sample.cash; Sample.card]
      (Sample.shop true None) = (w', Fulfilled tt) /\
    List.map OfflinePayment.amount (World.localPayments w') = [600; 400] /\
    List.length (World.offlineQueue w') = 2%nat /\
    World.calls w' = [].
Proof.
  split; [reflexivity|]. split; [exact healthy_storage_accepts|].
  destruct
    (processSplitPayment_offline_effects Sample.healthy "order-1"
       [Sample.cash; Sample.card] (Sample.shop true None) eq_refl
       healthy_storage_accepts)
    as (w' & records & queued & Hrun & Hlocal & _ & Hamt & Hqueue & Hlen & _
        & Hcalls & _).
  exists w'. split; [exact Hrun|].
  rewrite Hlocal, Hqueue, Hcalls. cbn. rewrite Hamt, Hlen. repeat split.
Defined.

(** The storage refuses every write: nothing is stored, mirrored or
    queued by a split of two. *)
Lemma offline_records_grow_in_step_witness :
  POSState.isOffline (World.pos (Sample.shop true None)) = true /\
  exists records queued,
    World.localPayments
      (fst (processSplitPayment Sample.disk_full "order-1"
              [Sample.cash; Sample.card] (Sample.shop true None)))
    = records /\
    World.offlineQueue
      (fst (processSplitPayment Sample.disk_full "order-1"
              [Sample.cash; Sample.card] (Sample.shop true None)))
    = queued /\
    List.length queued = List.length records.
Proof.
  split; [reflexivity|].
  destruct
    (proj2
       (offline_records_grow_in_step Sample.disk_full "order-1"
          (Sample.shop true None) eq_refl)
       [Sample.cash; Sample.card])
    as (records & queued & Hlocal & _ & Hqueue & Hlen & _).
  exists records, queued.
  split; [exact Hlocal|]. split; [exact Hqueue|exact Hlen].
Defined.
